(** * Linux system monitor: sampling and derivation engine

    A shallow embedding of [main.c] (the CPU, memory and disk samplers, the
    CPU delta computation, the unit converter and the colour selection of
    [print_system_info]) together with the properties established about it.

    Conventions of the embedding:
    - [unsigned long long] and [unsigned long] (LP64 Linux) are integers of
      [Z] kept in [0, 2^64) with the wrap-around of C written out ([wrap64]);
    - [double] is IEEE 754 binary64, taken from the executable specification
      [SpecFloat] of the Standard Library (precision 53, [emax] 1024, round
      to nearest even), so that conversions, divisions and comparisons round
      and compare exactly as the machine does;
    - a text source (/proc/stat, /proc/meminfo) is a value of [source]:
      either it cannot be opened, or it has a content, a string. *)

From Stdlib Require Import ZArith Zdiv List String Ascii Bool Lia.
From Stdlib Require Import Floats.SpecFloat.
From Stdlib Require Import DecimalString DecimalN.
Import ListNotations.

Local Open Scope Z_scope.

(** ** Machine integers *)

Definition ULLONG_MAX : Z := 2 ^ 64 - 1.

Definition wrap64 (z : Z) : Z := z mod 2 ^ 64.

Definition u64 (z : Z) : Prop := 0 <= z < 2 ^ 64.

Definition ull_add (a b : Z) : Z := wrap64 (a + b).
Definition ull_sub (a b : Z) : Z := wrap64 (a - b).

(** ** Doubles *)

Module Double.

Definition t := spec_float.

Definition prec : Z := 53.
Definition emax : Z := 1024.

(** Conversion of an integer, as the cast [(double)n] does it. *)
Definition of_Z (n : Z) : t := binary_normalize prec emax n 0 false.

Definition zero : t := S754_zero false.

Definition div (x y : t) : t := SFdiv prec emax x y.
Definition mul (x y : t) : t := SFmul prec emax x y.

(** The C comparisons [x < y], [x > y], [x >= y] and [x <= y]; all are
    false when an operand is a NaN. *)
Definition lt (x y : t) : bool := SFltb x y.
Definition gt (x y : t) : bool := SFltb y x.
Definition ge (x y : t) : bool := SFleb y x.
Definition le (x y : t) : bool := SFleb x y.

Definition is_nan (x : t) : bool :=
  match x with S754_nan => true | _ => false end.

Definition is_zero (x : t) : bool :=
  match x with S754_zero _ => true | _ => false end.

(** [0 <= x <= 100] as an IEEE comparison (false on NaN). *)
Definition in_percent_range (x : t) : bool :=
  le zero x && le x (of_Z 100).

End Double.

(** ** Evaluations that divide

    [calculate_cpu_usage] is embedded with its division observed: a division
    whose divisor is a zero ends the evaluation in [DivisionByZero] (where
    IEEE arithmetic would deliver a NaN or an infinity). *)

Inductive outcome (A : Type) : Type :=
| Done (a : A)
| DivisionByZero.

Arguments Done {A} a.
Arguments DivisionByZero {A}.

Definition bind {A B : Type} (m : outcome A) (k : A -> outcome B) : outcome B :=
  match m with
  | Done a => k a
  | DivisionByZero => DivisionByZero
  end.

Notation "x <- m ;; k" := (bind m (fun x => k))
  (at level 61, m at next level, right associativity).

Definition checked_div (x y : Double.t) : outcome Double.t :=
  if Double.is_zero y then DivisionByZero else Done (Double.div x y).

(** ** CPU sampler state *)

Record cpu_stats_t : Type := mk_cpu_stats {
  user : Z; nice : Z; system : Z; idle : Z;
  iowait : Z; irq : Z; softirq : Z; steal : Z;
  prev_user : Z; prev_nice : Z; prev_system : Z; prev_idle : Z;
  prev_iowait : Z; prev_irq : Z; prev_softirq : Z; prev_steal : Z;
  usage_percent : Double.t
}.

(** [cpu_stats_t cpu_stats = {0};] *)
Definition cpu_stats_init : cpu_stats_t :=
  mk_cpu_stats 0 0 0 0 0 0 0 0 0 0 0 0 0 0 0 0 Double.zero.

Definition set_usage_percent (s : cpu_stats_t) (p : Double.t) : cpu_stats_t :=
  mk_cpu_stats (user s) (nice s) (system s) (idle s)
               (iowait s) (irq s) (softirq s) (steal s)
               (prev_user s) (prev_nice s) (prev_system s) (prev_idle s)
               (prev_iowait s) (prev_irq s) (prev_softirq s) (prev_steal s) p.

(** The sum of eight [unsigned long long], added left to right. *)
Definition sum8 (a b c d e f g h : Z) : Z :=
  ull_add (ull_add (ull_add (ull_add (ull_add (ull_add (ull_add a b) c) d) e) f) g) h.

Definition prev_total (s : cpu_stats_t) : Z :=
  sum8 (prev_user s) (prev_nice s) (prev_system s) (prev_idle s)
       (prev_iowait s) (prev_irq s) (prev_softirq s) (prev_steal s).

Definition curr_total (s : cpu_stats_t) : Z :=
  sum8 (user s) (nice s) (system s) (idle s)
       (iowait s) (irq s) (softirq s) (steal s).

Definition total_diff (s : cpu_stats_t) : Z :=
  ull_sub (curr_total s) (prev_total s).

Definition idle_diff (s : cpu_stats_t) : Z :=
  ull_sub (ull_add (idle s) (iowait s)) (ull_add (prev_idle s) (prev_iowait s)).

(** The two statements that follow "Ensure percentage is within valid
    range", shared by the three samplers. *)
Definition clamp_percent (p : Double.t) : Double.t :=
  let p := if Double.lt p Double.zero then Double.zero else p in
  if Double.gt p (Double.of_Z 100) then Double.of_Z 100 else p.

Definition calculate_cpu_usage (stats : cpu_stats_t) : outcome cpu_stats_t :=
  let total_diff := total_diff stats in
  let idle_diff := idle_diff stats in
  p <- (if total_diff =? 0 then Done Double.zero
        else q <- checked_div (Double.of_Z (ull_sub total_diff idle_diff))
                              (Double.of_Z total_diff) ;;
             Done (Double.mul q (Double.of_Z 100))) ;;
  Done (set_usage_percent stats (clamp_percent p)).

(** ** Text sources and the [scanf] conversions the samplers use *)

Local Open Scope string_scope.

Inductive source : Type :=
| Unopenable                    (* [fopen] returns NULL *)
| Content (text : string).      (* what the opened file holds *)

Definition MAX_PATH_LENGTH : nat := 256.
Definition MAX_LINE_LENGTH : nat := 1024.
Definition PROGRESS_BAR_WIDTH : Z := 50.

Definition newline : ascii := ascii_of_nat 10.

(** [isspace] in the C locale: space, and the controls 9 to 13. *)
Definition isspace (c : ascii) : bool :=
  let n := N_of_ascii c in ((n =? 32) || ((9 <=? n) && (n <=? 13)))%N.

Definition isdigit (c : ascii) : bool :=
  let n := N_of_ascii c in ((48 <=? n) && (n <=? 57))%N.

Definition digit_val (c : ascii) : Z := Z.of_N (N_of_ascii c) - 48.

(** [fgets_chars n s]: at most [n] characters of [s], stopping after a
    newline; the line read and what is left of the file. *)
Fixpoint fgets_chars (n : nat) (s : string) : string * string :=
  match n, s with
  | S n', String c r =>
      if Ascii.eqb c newline then (String c "", r)
      else let '(l, rest) := fgets_chars n' r in (String c l, rest)
  | _, _ => ("", s)
  end.

(** [fgets(line, size, file)]: NULL at end of file, else up to [size - 1]
    characters. *)
Definition fgets (size : nat) (s : string) : option (string * string) :=
  match s with
  | EmptyString => None
  | _ => Some (fgets_chars (size - 1) s)
  end.

Fixpoint skip_space (s : string) : string :=
  match s with
  | String c r => if isspace c then skip_space r else s
  | EmptyString => s
  end.

(** Literal characters of a format: they must be the next characters. *)
Fixpoint match_literal (lit s : string) : option string :=
  match lit, s with
  | EmptyString, _ => Some s
  | String a lit', String c r =>
      if Ascii.eqb a c then match_literal lit' r else None
  | String _ _, EmptyString => None
  end.

Fixpoint scan_digits (s : string) (acc : Z) : Z * string :=
  match s with
  | String c r =>
      if isdigit c then scan_digits r (10 * acc + digit_val c)%Z else (acc, s)
  | EmptyString => (acc, s)
  end.

(** [%llu] and, on LP64, [%lu]: white space is skipped, a sign is accepted,
    at least one decimal digit is required; the digits are converted as
    [strtoull] does (a value above [ULLONG_MAX] becomes [ULLONG_MAX], a
    leading minus negates modulo 2^64). [None] is a conversion that did not
    take place. *)
Definition scan_ull (s : string) : option (Z * string) :=
  let s := skip_space s in
  let '(neg, s) :=
    match s with
    | String "-" r => (true, r)
    | String "+" r => (false, r)
    | _ => (false, s)
    end in
  match s with
  | String c _ =>
      if isdigit c then
        let '(v, rest) := scan_digits s 0 in
        Some (if (ULLONG_MAX <? v)%Z then ULLONG_MAX
              else if neg : bool then wrap64 (- v) else v, rest)
      else None
  | EmptyString => None
  end.

(** Up to [n] successive [%llu] conversions; the scan stops at the first
    one that fails. *)
Fixpoint scan_ulls (n : nat) (s : string) : list Z :=
  match n with
  | O => []
  | S n' =>
      match scan_ull s with
      | Some (v, r) => v :: scan_ulls n' r
      | None => []
      end
  end.

(** [sscanf(line, "cpu %llu %llu %llu %llu %llu %llu %llu %llu", ...)]: the
    values converted, in order. The value [sscanf] returns is their number
    (an EOF, -1, is counted as no conversion: the caller only tests
    [result < 4]). *)
Definition sscanf_cpu (line : string) : list Z :=
  match match_literal "cpu" line with
  | Some r => scan_ulls 8 r
  | None => []
  end.

(** [%63s]: at most 63 characters that are not white space. *)
Fixpoint scan_word (n : nat) (s : string) : string * string :=
  match n, s with
  | S n', String c r =>
      if isspace c then ("", s)
      else let '(w, rest) := scan_word n' r in (String c w, rest)
  | _, _ => ("", s)
  end.

(** [sscanf(line, "%63s %lu kB", key, &value) == 2]: [Some (key, value)]
    when both conversions took place (the literal [kB] that follows does
    not change the count). *)
Definition sscanf_meminfo (line : string) : option (string * Z) :=
  match scan_word 63 (skip_space line) with
  | (EmptyString, _) => None
  | (key, r) =>
      match scan_ull r with
      | Some (value, _) => Some (key, value)
      | None => None
      end
  end.

Local Close Scope string_scope.

(** ** CPU sampler *)

(** The argument of a conversion that took place receives the value
    converted; the others keep what they held. *)
Definition assigned (vals : list Z) (i : nat) (old : Z) : Z := nth i vals old.

(** The copy into the [prev_*] fields ("Store previous values"). *)
Definition store_previous (s : cpu_stats_t) : cpu_stats_t :=
  mk_cpu_stats (user s) (nice s) (system s) (idle s)
               (iowait s) (irq s) (softirq s) (steal s)
               (user s) (nice s) (system s) (idle s)
               (iowait s) (irq s) (softirq s) (steal s)
               (usage_percent s).

(** The eight assignments the [sscanf] of [read_cpu_stats] makes. *)
Definition parse_current (vals : list Z) (s : cpu_stats_t) : cpu_stats_t :=
  mk_cpu_stats (assigned vals 0 (user s)) (assigned vals 1 (nice s))
               (assigned vals 2 (system s)) (assigned vals 3 (idle s))
               (assigned vals 4 (iowait s)) (assigned vals 5 (irq s))
               (assigned vals 6 (softirq s)) (assigned vals 7 (steal s))
               (prev_user s) (prev_nice s) (prev_system s) (prev_idle s)
               (prev_iowait s) (prev_irq s) (prev_softirq s) (prev_steal s)
               (usage_percent s).

(** [read_cpu_stats]: the value returned (0 or -1) and the state left in
    [*stats]. *)
Definition read_cpu_stats (proc_stat : source) (stats : cpu_stats_t)
  : Z * cpu_stats_t :=
  match proc_stat with
  | Unopenable => (-1, stats)
  | Content text =>
      match fgets MAX_LINE_LENGTH text with
      | None => (-1, stats)
      | Some (line, _) =>
          let stats := store_previous stats in
          let vals := sscanf_cpu line in
          let stats := parse_current vals stats in
          let result := Z.of_nat (List.length vals) in
          if result <? 4 then (-1, stats) else (0, stats)
      end
  end.

(** The three shares [print_system_info] prints after "Details:", in the
    order user, system, idle. The divisions are the plain IEEE ones: with a
    zero divisor they deliver a NaN or an infinity, which is printed. *)
Definition details_divisor (cpu : cpu_stats_t) : Double.t :=
  Double.of_Z
    (ull_sub (sum8 (user cpu) (nice cpu) (system cpu) (idle cpu)
                   (iowait cpu) (irq cpu) (softirq cpu) (steal cpu))
             (sum8 (prev_user cpu) (prev_nice cpu) (prev_system cpu)
                   (prev_idle cpu) (prev_iowait cpu) (prev_irq cpu)
                   (prev_softirq cpu) (prev_steal cpu))).

Definition share (delta : Z) (divisor : Double.t) : Double.t :=
  Double.mul (Double.div (Double.of_Z delta) divisor) (Double.of_Z 100).

Definition user_share (cpu : cpu_stats_t) : Double.t :=
  share (ull_sub (user cpu) (prev_user cpu)) (details_divisor cpu).

Definition system_share (cpu : cpu_stats_t) : Double.t :=
  share (ull_sub (system cpu) (prev_system cpu)) (details_divisor cpu).

Definition idle_share (cpu : cpu_stats_t) : Double.t :=
  share (ull_sub (idle cpu) (prev_idle cpu)) (details_divisor cpu).

(** ** Memory sampler *)

Module Mem.
Record memory_stats_t : Type := mk {
  total : Z; available : Z; used : Z; free : Z; buffers : Z; cached : Z;
  usage_percent : Double.t
}.

(** [memory_stats_t memory_stats = {0};] *)
Definition init : memory_stats_t := mk 0 0 0 0 0 0 Double.zero.
End Mem.

Abbreviation memory_stats_t := Mem.memory_stats_t.

(** The lines [fgets] delivers until the end of the file. Every call that
    succeeds consumes a character, so a fuel of the length of the text is
    never used up ([file_lines_fuel]). *)
Fixpoint read_lines (fuel : nat) (text : string) : list string :=
  match fuel with
  | O => []
  | S fuel' =>
      match fgets MAX_LINE_LENGTH text with
      | None => []
      | Some (line, rest) => line :: read_lines fuel' rest
      end
  end.

Definition file_lines (text : string) : list string :=
  read_lines (String.length text) text.

(** The body of the [while (fgets ...)] loop of [read_memory_stats]. *)
Definition meminfo_line (stats : memory_stats_t) (line : string)
  : memory_stats_t :=
  match sscanf_meminfo line with
  | Some (key, value) =>
      if String.eqb key "MemTotal:"%string then
        Mem.mk value (Mem.available stats) (Mem.used stats) (Mem.free stats)
               (Mem.buffers stats) (Mem.cached stats) (Mem.usage_percent stats)
      else if String.eqb key "MemAvailable:"%string then
        Mem.mk (Mem.total stats) value (Mem.used stats) (Mem.free stats)
               (Mem.buffers stats) (Mem.cached stats) (Mem.usage_percent stats)
      else if String.eqb key "MemFree:"%string then
        Mem.mk (Mem.total stats) (Mem.available stats) (Mem.used stats) value
               (Mem.buffers stats) (Mem.cached stats) (Mem.usage_percent stats)
      else if String.eqb key "Buffers:"%string then
        Mem.mk (Mem.total stats) (Mem.available stats) (Mem.used stats)
               (Mem.free stats) value (Mem.cached stats)
               (Mem.usage_percent stats)
      else if String.eqb key "Cached:"%string then
        Mem.mk (Mem.total stats) (Mem.available stats) (Mem.used stats)
               (Mem.free stats) (Mem.buffers stats) value
               (Mem.usage_percent stats)
      else stats
  | None => stats
  end.

(** "Calculate used memory and usage percentage" and the clamping that
    follows it. *)
Definition derive_memory (stats : memory_stats_t) : memory_stats_t :=
  let '(used, available) :=
    if Mem.available stats >? 0 then
      (ull_sub (Mem.total stats) (Mem.available stats), Mem.available stats)
    else
      (ull_sub (ull_sub (ull_sub (Mem.total stats) (Mem.free stats))
                        (Mem.buffers stats)) (Mem.cached stats),
       ull_add (ull_add (Mem.free stats) (Mem.buffers stats))
               (Mem.cached stats)) in
  let usage :=
    if Mem.total stats >? 0 then
      Double.mul (Double.div (Double.of_Z used) (Double.of_Z (Mem.total stats)))
                 (Double.of_Z 100)
    else Double.zero in
  Mem.mk (Mem.total stats) available used (Mem.free stats)
         (Mem.buffers stats) (Mem.cached stats) (clamp_percent usage).

(** "Initialize values" and the [while (fgets ...)] loop. *)
Definition scan_meminfo (text : string) (stats : memory_stats_t)
  : memory_stats_t :=
  let stats :=
    Mem.mk 0 0 (Mem.used stats) 0 0 0 (Mem.usage_percent stats) in
  fold_left meminfo_line (file_lines text) stats.

(** [read_memory_stats]: the value returned and the state left in
    [*stats]. *)
Definition read_memory_stats (proc_meminfo : source) (stats : memory_stats_t)
  : Z * memory_stats_t :=
  match proc_meminfo with
  | Unopenable => (-1, stats)
  | Content text =>
      (0, derive_memory (scan_meminfo text stats))
  end.

(** ** Disk sampler *)

Module Disk.
Record disk_stats_t : Type := mk {
  mount_point : string;
  total : Z; used : Z; available : Z;
  usage_percent : Double.t
}.

(** [disk_stats_t disk_stats = {0};] *)
Definition init : disk_stats_t := mk EmptyString 0 0 0 Double.zero.
End Disk.

Abbreviation disk_stats_t := Disk.disk_stats_t.

(** The fields of [struct statvfs] that are read, each an [unsigned long]. *)
Record statvfs_t : Type := mk_statvfs {
  f_blocks : Z; f_bfree : Z; f_bavail : Z; f_frsize : Z
}.

Definition ull_mul (a b : Z) : Z := wrap64 (a * b).

(** [strncpy(dst, src, n); dst[n] = 0] on a zeroed or shorter string: the
    first [n] characters. *)
Definition strncpy (n : nat) (src : string) : string := String.substring 0 n src.

(** [read_disk_stats], given what [statvfs(path, &vfs)] answers ([None]:
    the call fails). *)
Definition read_disk_stats (vfs : option statvfs_t) (path : string)
                           (stats : disk_stats_t) : Z * disk_stats_t :=
  match vfs with
  | None => (-1, stats)
  | Some vfs =>
      let total := ull_mul (f_blocks vfs) (f_frsize vfs) in
      let available := ull_mul (f_bavail vfs) (f_frsize vfs) in
      let used := ull_sub total (ull_mul (f_bfree vfs) (f_frsize vfs)) in
      let usage :=
        if total >? 0 then
          Double.mul (Double.div (Double.of_Z used) (Double.of_Z total))
                     (Double.of_Z 100)
        else Double.zero in
      (0, Disk.mk (strncpy (MAX_PATH_LENGTH - 1) path) total used available
                  (clamp_percent usage))
  end.

(** ** Unit converter *)

Local Open Scope string_scope.

(** [%llu] *)
Definition print_ull (n : Z) : string :=
  NilZero.string_of_uint (N.to_uint (Z.to_N n)).

(** [n / d] rounded to the nearest integer, ties to even ([0 <= n], [0 < d]). *)
Definition div_nearest_even (n d : Z) : Z :=
  let q := (n / d)%Z in
  match (2 * (n mod d) ?= d)%Z with
  | Lt => q
  | Gt => (q + 1)%Z
  | Eq => if Z.even q then q else (q + 1)%Z
  end.

(** The number of tenths [%.1f] prints for [m * 2^e]: the exact value
    rounded to one decimal, ties to even. *)
Definition tenths (m : positive) (e : Z) : Z :=
  if (0 <=? e)%Z then (Zpos m * 2 ^ e * 10)%Z
  else div_nearest_even (Zpos m * 10) (2 ^ (- e)).

Definition print_sign (s : bool) : string := if s then "-" else "".

(** [%.1f]. A NaN has no sign here; the ones this program can print come
    from a division or a multiplication, which on x86-64 deliver the NaN
    with its sign bit set, and glibc writes that one as [-nan]. *)
Definition print_1f (x : Double.t) : string :=
  match x with
  | S754_nan => "-nan"
  | S754_infinity s => print_sign s ++ "inf"
  | S754_zero s => print_sign s ++ "0.0"
  | S754_finite s m e =>
      let t := tenths m e in
      print_sign s ++ print_ull (t / 10) ++ "." ++ print_ull (t mod 10)
  end.

Definition units : list string := ["B"; "KB"; "MB"; "GB"; "TB"].

(** The [while] loop of [format_bytes]. It runs at most four times; [fuel]
    only bounds the recursion ([scale_loop_spec]). *)
Fixpoint scale_loop (fuel : nat) (size : Double.t) (unit_index : Z)
  : Double.t * Z :=
  match fuel with
  | O => (size, unit_index)
  | S fuel' =>
      if Double.ge size (Double.of_Z 1024) && (unit_index <? 4)%Z then
        scale_loop fuel' (Double.div size (Double.of_Z 1024)) (unit_index + 1)
      else (size, unit_index)
  end.

(** [snprintf(buffer, buffer_size, ...)] keeps [buffer_size - 1] characters. *)
Definition snprintf (buffer_size : nat) (text : string) : string :=
  String.substring 0 (buffer_size - 1) text.

Definition format_bytes (bytes : Z) (buffer_size : nat) : string :=
  let '(size, unit_index) := scale_loop 4 (Double.of_Z bytes) 0 in
  if (unit_index =? 0)%Z then
    snprintf buffer_size
             (print_ull bytes ++ " " ++ nth (Z.to_nat unit_index) units "")
  else
    snprintf buffer_size
             (print_1f size ++ " " ++ nth (Z.to_nat unit_index) units "").

Local Close Scope string_scope.

(** ** Rendering *)

(** The three colours a progress bar takes. *)
Inductive color : Type := GREEN | YELLOW | RED.

Definition cpu_color (usage_percent : Double.t) : color :=
  if Double.gt usage_percent (Double.of_Z 80) then RED
  else if Double.gt usage_percent (Double.of_Z 60) then YELLOW
  else GREEN.

Definition mem_color (usage_percent : Double.t) : color :=
  if Double.gt usage_percent (Double.of_Z 90) then RED
  else if Double.gt usage_percent (Double.of_Z 75) then YELLOW
  else GREEN.

Definition disk_color (usage_percent : Double.t) : color :=
  if Double.gt usage_percent (Double.of_Z 90) then RED
  else if Double.gt usage_percent (Double.of_Z 80) then YELLOW
  else GREEN.

(** The colour selection, with the two cut points as arguments:
    [cpu_color] is [classify 60 80], [mem_color] is [classify 75 90] and
    [disk_color] is [classify 80 90]. *)
Definition classify (low_cut high_cut : Z) (percent : Double.t) : color :=
  if Double.gt percent (Double.of_Z high_cut) then RED
  else if Double.gt percent (Double.of_Z low_cut) then YELLOW
  else GREEN.

Record config_t : Type := mk_config {
  refresh_rate : Z;
  show_cpu : bool;
  show_memory : bool;
  show_disk : bool;
  disk_path : string;
  continuous : bool
}.

(** What [print_system_info] writes, without the fixed decoration and the
    time stamp. *)
Inductive item : Type :=
| ProgressBar (label : string) (percentage : Double.t) (c : color)
| CpuDetails (user_pct system_pct idle_pct : string)
| MemoryDetails (used available total : string)
| MemoryCaching (buffers cached : string)
| DiskHeading (mount_point : string)
| DiskDetails (used available total : string).

Definition print_system_info (cpu : cpu_stats_t) (memory : memory_stats_t)
    (disk : disk_stats_t) (config : config_t) : list item :=
  (if show_cpu config then
     [ProgressBar "CPU"%string (usage_percent cpu) (cpu_color (usage_percent cpu));
      CpuDetails (print_1f (user_share cpu)) (print_1f (system_share cpu))
                 (print_1f (idle_share cpu))]
   else []) ++
  (if show_memory config then
     [ProgressBar "Memory"%string (Mem.usage_percent memory)
                  (mem_color (Mem.usage_percent memory));
      MemoryDetails (format_bytes (ull_mul (Mem.used memory) 1024) 32)
                    (format_bytes (ull_mul (Mem.available memory) 1024) 32)
                    (format_bytes (ull_mul (Mem.total memory) 1024) 32);
      MemoryCaching (format_bytes (ull_mul (Mem.buffers memory) 1024) 32)
                    (format_bytes (ull_mul (Mem.cached memory) 1024) 32)]
   else []) ++
  (if show_disk config then
     [DiskHeading (Disk.mount_point disk);
      ProgressBar "Disk"%string (Disk.usage_percent disk)
                  (disk_color (Disk.usage_percent disk));
      DiskDetails (format_bytes (Disk.used disk) 32)
                  (format_bytes (Disk.available disk) 32)
                  (format_bytes (Disk.total disk) 32)]
   else []).

(** ** One pass of the polling loop *)

(** What the three sources answer during one pass. *)
Record world : Type := mk_world {
  proc_stat : source;
  proc_meminfo : source;
  statvfs : string -> option statvfs_t
}.

Record monitor : Type := mk_monitor {
  cpu_stats : cpu_stats_t;
  memory_stats : memory_stats_t;
  disk_stats : disk_stats_t
}.

(** What a pass does that can be seen from outside, in order: the calls of
    the samplers, the messages [main] writes to the standard error (without
    their final newline; those the samplers write themselves are left out),
    the screen and the pause. *)
Inductive event : Type :=
| CallReadCpu
| CallReadMemory
| CallReadDisk (path : string)
| Stderr (message : string)
| ClearScreen
| Display (items : list item)
| Sleep (seconds : Z).

Definition failed (rc : Z) : bool := negb (rc =? 0)%Z.

(** The body of the [do ... while] of [main]. A [continue] ends the pass
    where it stands: the pass is the events so far. *)
Definition loop_body (config : config_t) (w : world) (m : monitor)
  : outcome (monitor * list event) :=
  let '(rc, cpu, ev_cpu) :=
    if show_cpu config then
      let '(rc, cpu) := read_cpu_stats (proc_stat w) (cpu_stats m) in
      (rc, cpu, [CallReadCpu])
    else (0%Z, cpu_stats m, []) in
  if show_cpu config && failed rc then
    Done (mk_monitor cpu (memory_stats m) (disk_stats m),
          ev_cpu ++ [Stderr "Error reading CPU stats"%string])
  else
  let '(rc, memory, ev_mem) :=
    if show_memory config then
      let '(rc, memory) := read_memory_stats (proc_meminfo w) (memory_stats m) in
      (rc, memory, [CallReadMemory])
    else (0%Z, memory_stats m, []) in
  if show_memory config && failed rc then
    Done (mk_monitor cpu memory (disk_stats m),
          ev_cpu ++ ev_mem ++ [Stderr "Error reading memory stats"%string])
  else
  let '(rc, disk, ev_disk) :=
    if show_disk config then
      let '(rc, disk) :=
        read_disk_stats (statvfs w (disk_path config)) (disk_path config)
                        (disk_stats m) in
      (rc, disk, [CallReadDisk (disk_path config)])
    else (0%Z, disk_stats m, []) in
  if show_disk config && failed rc then
    Done (mk_monitor cpu memory disk,
          ev_cpu ++ ev_mem ++ ev_disk ++
          [Stderr (String.append "Error reading disk stats for "%string
                                 (disk_path config))])
  else
  cpu <- (if show_cpu config then calculate_cpu_usage cpu else Done cpu) ;;
  Done (mk_monitor cpu memory disk,
        ev_cpu ++ ev_mem ++ ev_disk ++
        (if continuous config then [ClearScreen] else []) ++
        [Display (print_system_info cpu memory disk config)] ++
        (if continuous config then [Sleep (refresh_rate config)] else [])).

(** ** Command line *)

Definition LONG_MAX : Z := 2 ^ 63 - 1.
Definition LONG_MIN : Z := - 2 ^ 63.

(** The conversion of a [long] to [int]: the low 32 bits, signed. *)
Definition long_to_int (z : Z) : Z := (z + 2 ^ 31) mod 2 ^ 32 - 2 ^ 31.

(** [strtol(s, NULL, 10)]: white space is skipped, a sign is accepted, the
    digits that follow are converted, a value out of the range of [long]
    becomes [LONG_MAX] or [LONG_MIN]; without a digit the value is 0. *)
Definition strtol (s : string) : Z :=
  let s := skip_space s in
  let '(neg, s) :=
    match s with
    | String "-" r => (true, r)
    | String "+" r => (false, r)
    | _ => (false, s)
    end in
  let v := fst (scan_digits s 0) in
  let v := if neg : bool then - v else v in
  if v <? LONG_MIN then LONG_MIN
  else if LONG_MAX <? v then LONG_MAX else v.

(** [atoi(s)], which the C library defines as [(int) strtol(s, NULL, 10)]. *)
Definition atoi (s : string) : Z := long_to_int (strtol s).

(** How [parse_arguments] ends: it returns with the configuration filled,
    or it calls [exit]. *)
Inductive parsed : Type :=
| Config (config : config_t)
| Exit (status : Z).

(** "Initialize default configuration" *)
Definition default_config : config_t :=
  mk_config 1 true true true "/" true.

Definition is_option (short long arg : string) : bool :=
  String.eqb arg short || String.eqb arg long.

(** The [for] loop of [parse_arguments] over the arguments from [argv[i]]
    on. *)
Fixpoint parse_options (args : list string) (config : config_t) : parsed :=
  match args with
  | [] => Config config
  | arg :: rest =>
      if is_option "-r" "--refresh" arg then
        match rest with
        | value :: rest' =>
            let rate := atoi value in
            if rate <=? 0 then Exit 1
            else parse_options rest'
                   (mk_config rate (show_cpu config) (show_memory config)
                              (show_disk config) (disk_path config)
                              (continuous config))
        | [] => Exit 1
        end
      else if is_option "-c" "--cpu" arg then
        parse_options rest
          (mk_config (refresh_rate config) (show_cpu config) false false
                     (disk_path config) (continuous config))
      else if is_option "-m" "--memory" arg then
        parse_options rest
          (mk_config (refresh_rate config) false (show_memory config) false
                     (disk_path config) (continuous config))
      else if is_option "-d" "--disk" arg then
        match rest with
        | path :: rest' =>
            parse_options rest'
              (mk_config (refresh_rate config) false false (show_disk config)
                         (strncpy (MAX_PATH_LENGTH - 1) path)
                         (continuous config))
        | [] => Exit 1
        end
      else if is_option "-o" "--once" arg then
        parse_options rest
          (mk_config (refresh_rate config) (show_cpu config)
                     (show_memory config) (show_disk config)
                     (disk_path config) false)
      else if is_option "-h" "--help" arg then Exit 0
      else Exit 1
  end.

(** [parse_arguments(argc, argv, &config)]: [argv[0]] is the program name. *)
Definition parse_arguments (argv : list string) : parsed :=
  parse_options (tl argv) default_config.

(** ** The start of [main] *)

(** "Initial CPU reading": the value [read_cpu_stats] returns is not
    looked at. *)
Definition warm_up (config : config_t) (w : world) (m : monitor) : monitor :=
  if show_cpu config then
    mk_monitor (snd (read_cpu_stats (proc_stat w) (cpu_stats m)))
               (memory_stats m) (disk_stats m)
  else m.

(** ** Vocabulary of the statements *)

(** Equality modulo 2^64, with which wrapped expressions are compared. *)
Definition eq64 : Z -> Z -> Prop := eqm (2 ^ 64).

(** [x] is a zero, a finite number or an infinity of sign [s]. *)
Definition signed_as (s : bool) (x : Double.t) : Prop :=
  match x with
  | S754_zero s' | S754_infinity s' | S754_finite s' _ _ => s' = s
  | S754_nan => False
  end.

(** [x] is a finite double above zero. *)
Definition finite_pos (x : Double.t) : Prop :=
  match x with
  | S754_finite false _ _ => True
  | _ => False
  end.

(** The eight current counters and the eight retained ones, in the order
    of [/proc/stat]. *)
Definition curr_fields (s : cpu_stats_t) : list Z :=
  [user s; nice s; system s; idle s; iowait s; irq s; softirq s; steal s].

Definition prev_fields (s : cpu_stats_t) : list Z :=
  [prev_user s; prev_nice s; prev_system s; prev_idle s;
   prev_iowait s; prev_irq s; prev_softirq s; prev_steal s].

(** Whether a pass displayed, whether it queried the disk. *)
Definition displays (events : list event) : bool :=
  existsb (fun e => match e with Display _ => true | _ => false end) events.

Definition reads_disk (events : list event) : bool :=
  existsb (fun e => match e with CallReadDisk _ => true | _ => false end) events.

(** What each sampler would return in this pass. *)
Definition cpu_rc (w : world) (m : monitor) : Z :=
  fst (read_cpu_stats (proc_stat w) (cpu_stats m)).

Definition memory_rc (w : world) (m : monitor) : Z :=
  fst (read_memory_stats (proc_meminfo w) (memory_stats m)).

Definition disk_rc (config : config_t) (w : world) (m : monitor) : Z :=
  fst (read_disk_stats (statvfs w (disk_path config)) (disk_path config)
                       (disk_stats m)).

(** Every enabled sampler succeeds. *)
Definition samplers_ok (config : config_t) (w : world) (m : monitor) : bool :=
  (negb (show_cpu config) || negb (failed (cpu_rc w m))) &&
  (negb (show_memory config) || negb (failed (memory_rc w m))) &&
  (negb (show_disk config) || negb (failed (disk_rc config w m))).

(** The five figures read from the memory source are [unsigned long]. *)
Definition mem_wf (s : memory_stats_t) : Prop :=
  u64 (Mem.total s) /\ u64 (Mem.available s) /\ u64 (Mem.free s) /\
  u64 (Mem.buffers s) /\ u64 (Mem.cached s).

(** A text made of the given lines, each ended by a newline. *)
Definition text_of_lines (lines : list string) : string :=
  fold_right (fun l rest => String.append l (String newline rest))
             EmptyString lines.

(** Whether [line] gives a value for [key]. *)
Definition line_reports (key : string) (line : string) : bool :=
  match sscanf_meminfo line with
  | Some (k, _) => String.eqb k key
  | None => false
  end.

(** Whether a line of the text gives a value for [key]. *)
Definition reports (key : string) (text : string) : bool :=
  existsb (line_reports key) (file_lines text).

(** [size /= 1024.0], [k] times. *)
Definition divided (k : nat) (size : Double.t) : Double.t :=
  Nat.iter k (fun x => Double.div x (Double.of_Z 1024)) size.

(** [x] is a normal double above zero with its exponent in [lo, hi]. *)
Definition normal_in (lo hi : Z) (x : Double.t) : Prop :=
  match x with
  | S754_finite false m e => 2 ^ 52 <= Zpos m < 2 ^ 53 /\ lo <= e <= hi
  | _ => False
  end.

(** [x] is +0.0 or a finite double above zero. *)
Definition finite_nonneg (x : Double.t) : Prop :=
  match x with
  | S754_zero false | S754_finite false _ _ => True
  | _ => False
  end.

(** ** Sample inputs *)

(** Totals that are equal and not zero, from samples that differ. *)
Definition equal_totals_sample : cpu_stats_t :=
  mk_cpu_stats 50 0 20 100 0 0 0 0  100 0 20 50 0 0 0 0 (Double.of_Z 42).

(** A sample pair whose idle and iowait counters both advanced by 50. *)
Definition iowait_sample : cpu_stats_t :=
  mk_cpu_stats 0 0 0 50 50 0 0 0  0 0 0 0 0 0 0 0 Double.zero.

(** A state with a history: the current sample and the one before it. *)
Definition history_sample : cpu_stats_t :=
  mk_cpu_stats 100 0 50 800 0 0 0 0  90 0 45 700 0 0 0 0 Double.zero.

(** A configuration with every metric enabled. *)
Definition all_metrics : config_t := mk_config 1 true true true "/" true.

(** A world whose CPU source cannot be opened while the two other sources
    answer. *)
Definition cpu_down : world :=
  mk_world Unopenable
           (Content "MemTotal: 1000 kB")
           (fun _ => Some (mk_statvfs 1000 200 150 4096)).

(** The monitor as [main] declares it. *)
Definition fresh_monitor : monitor :=
  mk_monitor cpu_stats_init Mem.init Disk.init.

(** A source with more available than total memory. *)
Definition overcommitted_meminfo : string :=
  text_of_lines ["MemTotal: 100 kB"; "MemAvailable: 200 kB"]%string.

(** A source that reports an available figure of 0. *)
Definition zero_available_meminfo : string :=
  text_of_lines
    ["MemTotal: 1000 kB"; "MemAvailable: 0 kB"; "MemFree: 100 kB"]%string.

(** The source of the fallback example: no available key. *)
Definition fallback_meminfo : string :=
  text_of_lines
    ["MemTotal: 1000 kB"; "MemFree: 200 kB"; "Buffers: 50 kB";
     "Cached: 250 kB"]%string.

(** ** Vocabulary of the further properties *)

(** The value of a decimal number read from its most significant digit,
    after the digits accumulated in [acc]. *)
Fixpoint uint_value (d : Decimal.uint) (acc : Z) : Z :=
  match d with
  | Decimal.Nil => acc
  | Decimal.D0 d => uint_value d (10 * acc + 0)
  | Decimal.D1 d => uint_value d (10 * acc + 1)
  | Decimal.D2 d => uint_value d (10 * acc + 2)
  | Decimal.D3 d => uint_value d (10 * acc + 3)
  | Decimal.D4 d => uint_value d (10 * acc + 4)
  | Decimal.D5 d => uint_value d (10 * acc + 5)
  | Decimal.D6 d => uint_value d (10 * acc + 6)
  | Decimal.D7 d => uint_value d (10 * acc + 7)
  | Decimal.D8 d => uint_value d (10 * acc + 8)
  | Decimal.D9 d => uint_value d (10 * acc + 9)
  end.

(** The text does not start with a decimal digit. *)
Definition no_digit_ahead (s : string) : bool :=
  match s with
  | String c _ => negb (isdigit c)
  | EmptyString => true
  end.

(** [k] spaces. *)
Fixpoint blanks (k : nat) : string :=
  match k with
  | O => EmptyString
  | S k' => String " " (blanks k')
  end.

(** The text has no newline. *)
Fixpoint no_newline (s : string) : bool :=
  match s with
  | EmptyString => true
  | String c r => negb (Ascii.eqb c newline) && no_newline r
  end.

(** A line fits the buffer of [fgets] with its newline. *)
Definition fits_line_buffer (l : string) : Prop :=
  no_newline l = true /\ (String.length l <= MAX_LINE_LENGTH - 2)%nat.

(** A line with its newline. *)
Definition with_newline (l : string) : string :=
  String.append l (String newline EmptyString).

(** The aggregate line of /proc/stat for the given counters: the tag, then
    each counter after a space. *)
Definition cpu_fields (vals : list Z) : string :=
  fold_right (fun v rest => String " " (String.append (print_ull v) rest))
             EmptyString vals.

Definition cpu_line (vals : list Z) : string :=
  String.append "cpu" (cpu_fields vals).

(** Counters that only advanced between the two samples, with a current
    total that fits 64 bits. *)
Definition advancing (s : cpu_stats_t) : Prop :=
  0 <= prev_user s <= user s /\ 0 <= prev_nice s <= nice s /\
  0 <= prev_system s <= system s /\ 0 <= prev_idle s <= idle s /\
  0 <= prev_iowait s <= iowait s /\ 0 <= prev_irq s <= irq s /\
  0 <= prev_softirq s <= softirq s /\ 0 <= prev_steal s <= steal s /\
  user s + nice s + system s + idle s + iowait s + irq s + softirq s
  + steal s < 2 ^ 64.

(** The ticks spent outside idle and iowait between the two samples. *)
Definition busy_delta (s : cpu_stats_t) : Z :=
  (user s - prev_user s) + (nice s - prev_nice s)
  + (system s - prev_system s) + (irq s - prev_irq s)
  + (softirq s - prev_softirq s) + (steal s - prev_steal s).

(** The ticks elapsed between the two samples. *)
Definition elapsed_delta (s : cpu_stats_t) : Z :=
  busy_delta s + (idle s - prev_idle s) + (iowait s - prev_iowait s).

(** Samples 10 ticks apart, all of them idle. *)
Definition idle_interval_sample : cpu_stats_t :=
  mk_cpu_stats 5 0 5 110 0 0 0 0  5 0 5 100 0 0 0 0 (Double.of_Z 42).

(** Samples 10 ticks apart, 4 of them busy. *)
Definition advancing_sample : cpu_stats_t :=
  mk_cpu_stats 8 0 6 106 0 0 0 0  5 0 5 100 0 0 0 0 Double.zero.

(** A world whose CPU source holds the given text, the other sources being
    those of [cpu_down]. *)
Definition cpu_world (text : string) : world :=
  mk_world (Content text) (proc_meminfo cpu_down) (statvfs cpu_down).

(** A line of /proc/meminfo: the key with its colon, one space or more,
    the figure, and what follows it on the line (the unit). *)
Record meminfo_entry : Type := mk_entry {
  entry_key : string;
  entry_pad : nat;
  entry_value : Z;
  entry_tail : string
}.

Definition entry_line (e : meminfo_entry) : string :=
  String.append (entry_key e)
    (String.append (blanks (S (entry_pad e)))
       (String.append (print_ull (entry_value e)) (entry_tail e))).

(** The text has no white space. *)
Fixpoint no_space (s : string) : bool :=
  match s with
  | EmptyString => true
  | String c r => negb (isspace c) && no_space r
  end.

(** A key of 1 to 63 characters without white space, a figure of 64 bits,
    and a tail that does not go on with a digit; the line fits the buffer. *)
Definition entry_ok (e : meminfo_entry) : Prop :=
  entry_key e <> EmptyString /\ no_space (entry_key e) = true /\
  (String.length (entry_key e) <= 63)%nat /\ (entry_pad e <= 64)%nat /\
  u64 (entry_value e) /\
  no_digit_ahead (entry_tail e) = true /\ no_newline (entry_tail e) = true /\
  (String.length (entry_tail e) <= 64)%nat.

(** The figure of the last entry for [key], [default] when there is none. *)
Definition last_reported (key : string) (entries : list meminfo_entry)
                         (default : Z) : Z :=
  match find (fun e => String.eqb (entry_key e) key) (rev entries) with
  | Some e => entry_value e
  | None => default
  end.

(** The two snapshots hold the same five figures read from the source. *)
Definition same_figures (a b : memory_stats_t) : Prop :=
  Mem.total a = Mem.total b /\ Mem.available a = Mem.available b /\
  Mem.free a = Mem.free b /\ Mem.buffers a = Mem.buffers b /\
  Mem.cached a = Mem.cached b.

(** A source as the kernel writes it, with a key that is not read, a line
    without unit and a key given twice. *)
Definition meminfo_sample : list meminfo_entry :=
  [mk_entry "MemTotal:" 7 16000 " kB";
   mk_entry "MemFree:" 8 4000 " kB";
   mk_entry "MemAvailable:" 3 9000 " kB";
   mk_entry "Buffers:" 8 500 " kB";
   mk_entry "Cached:" 9 3500 " kB";
   mk_entry "SwapCached:" 5 77 " kB";
   mk_entry "HugePages_Total:" 6 0 "";
   mk_entry "MemTotal:" 0 16384 " kB"].

(** A snapshot left by an earlier read. *)
Definition stale_memory : memory_stats_t :=
  Mem.mk 1 2 3 4 5 6 (Double.of_Z 7).

(** What [statvfs] reports on a file system that is coherent: the blocks
    free for unprivileged users are among the free blocks, these among all
    blocks, and the size in bytes fits 64 bits. *)
Definition coherent (v : statvfs_t) : Prop :=
  0 <= f_bavail v <= f_bfree v /\ f_bfree v <= f_blocks v /\
  0 < f_frsize v /\ f_blocks v * f_frsize v < 2 ^ 64.

(** A file system of 1000 blocks of 4096 bytes, 200 of them free, 150 for
    unprivileged users. *)
Definition reserved_blocks_sample : statvfs_t := mk_statvfs 1000 200 150 4096.

(** The three percentages of the monitor lie in [0, 100]. *)
Definition percentages_in_range (m : monitor) : Prop :=
  Double.in_percent_range (usage_percent (cpu_stats m)) = true /\
  Double.in_percent_range (Mem.usage_percent (memory_stats m)) = true /\
  Double.in_percent_range (Disk.usage_percent (disk_stats m)) = true.

(** Whether a pass paused, cleared the screen, wrote to the standard error,
    called the CPU sampler, called the memory sampler. *)
Definition sleeps (events : list event) : bool :=
  existsb (fun e => match e with Sleep _ => true | _ => false end) events.

Definition clears (events : list event) : bool :=
  existsb (fun e => match e with ClearScreen => true | _ => false end) events.

Definition complains (events : list event) : bool :=
  existsb (fun e => match e with Stderr _ => true | _ => false end) events.

Definition reads_cpu (events : list event) : bool :=
  existsb (fun e => match e with CallReadCpu => true | _ => false end) events.

Definition reads_memory (events : list event) : bool :=
  existsb (fun e => match e with CallReadMemory => true | _ => false end) events.

(** The number of metrics a configuration shows. *)
Definition shown (c : config_t) : nat :=
  (Nat.b2n (show_cpu c) + Nat.b2n (show_memory c) + Nat.b2n (show_disk c))%nat.

(** A refresh rate that is a positive [int], a path that fits its buffer
    with the final zero, and all three metrics or one at most. *)
Definition valid_config (c : config_t) : Prop :=
  1 <= refresh_rate c <= 2 ^ 31 - 1 /\
  (String.length (disk_path c) <= 255)%nat /\
  (shown c = 3%nat \/ (shown c <= 1)%nat).

(** Whether an argument is one of the options. *)
Definition is_known (arg : string) : bool :=
  is_option "-r" "--refresh" arg || is_option "-c" "--cpu" arg
  || is_option "-m" "--memory" arg || is_option "-d" "--disk" arg
  || is_option "-o" "--once" arg || is_option "-h" "--help" arg.

(** ** The progress bar *)

Definition INT_MAX : Z := 2 ^ 31 - 1.
Definition INT_MIN : Z := - 2 ^ 31.

Definition in_int (z : Z) : bool := (INT_MIN <=? z) && (z <=? INT_MAX).

(** The integer part of a finite double, towards zero. *)
Definition truncate (x : Double.t) : option Z :=
  match x with
  | S754_zero _ => Some 0
  | S754_finite s m e =>
      let a := if 0 <=? e then Zpos m * 2 ^ e else Zpos m / 2 ^ (- e) in
      Some (if s then - a else a)
  | S754_infinity _ | S754_nan => None
  end.

(** The cast [(int) x]: the integer part when it is an [int]; [None] is
    the behaviour C leaves undefined. *)
Definition double_to_int (x : Double.t) : option Z :=
  match truncate x with
  | Some z => if in_int z then Some z else None
  | None => None
  end.

(** [print_progress_bar]: the number of filled cells and the number of
    empty cells the two loops print ([None]: the computation of [filled] or
    of [empty] is undefined). *)
Definition print_progress_bar (percentage : Double.t) : option (Z * Z) :=
  match double_to_int
          (Double.div (Double.mul percentage (Double.of_Z PROGRESS_BAR_WIDTH))
                      (Double.of_Z 100)) with
  | Some filled =>
      let empty := PROGRESS_BAR_WIDTH - filled in
      if in_int empty then Some (Z.max 0 filled, Z.max 0 empty) else None
  | None => None
  end.

(** ** Vocabulary of the progress bar *)

(** [x] is a zero, or a finite double above zero of value at most
    [A / 2^b]. *)
Definition below (A b : Z) (x : Double.t) : Prop :=
  match x with
  | S754_zero _ => True
  | S754_finite false m e => e <= - b /\ Zpos m <= A * 2 ^ (- e - b)
  | _ => False
  end.

(** A percentage the progress bar can take: a valid double in [0, 100]. *)
Definition displayable (p : Double.t) : Prop :=
  valid_binary Double.prec Double.emax p = true /\
  Double.in_percent_range p = true.

Definition monitor_displayable (m : monitor) : Prop :=
  displayable (usage_percent (cpu_stats m)) /\
  displayable (Mem.usage_percent (memory_stats m)) /\
  displayable (Disk.usage_percent (disk_stats m)).

(** The progress bars among the items displayed. *)
Definition bars (items : list item) : list Double.t :=
  flat_map (fun i => match i with
                     | ProgressBar _ percentage _ => [percentage]
                     | _ => []
                     end) items.

(** The progress bars of the displays of a pass. *)
Definition bars_displayed (events : list event) : list Double.t :=
  flat_map (fun e => match e with
                     | Display items => bars items
                     | _ => []
                     end) events.

(** A world whose three sources answer. *)
Definition all_up : world :=
  mk_world (Content "cpu 8 0 6 106 0 0 0 0")
           (Content "MemTotal: 1000 kB")
           (fun _ => Some (mk_statvfs 1000 200 150 4096)).

(** * Properties *)

(** ** Wrap-around arithmetic *)

Lemma wrap64_range (z : Z) : u64 (wrap64 z).
Proof. unfold u64, wrap64. apply Z.mod_pos_bound. reflexivity. Qed.

Lemma wrap64_small (z : Z) : u64 z -> wrap64 z = z.
Proof. unfold u64, wrap64. intros H. apply Z.mod_small. exact H. Qed.

Lemma ull_sub_range (a b : Z) : u64 (ull_sub a b).
Proof. apply wrap64_range. Qed.

Lemma ull_add_range (a b : Z) : u64 (ull_add a b).
Proof. apply wrap64_range. Qed.

Lemma eq64_refl (z : Z) : eq64 z z.
Proof. reflexivity. Qed.

Lemma eq64_unwrap (z z' : Z) : eq64 z z' -> eq64 (wrap64 z) z'.
Proof. unfold eq64, eqm, wrap64. intros H. rewrite Z.mod_mod by lia. exact H. Qed.

Lemma eq64_add (a a' b b' : Z) : eq64 a a' -> eq64 b b' -> eq64 (a + b) (a' + b').
Proof. intros Ha Hb. exact (Zplus_eqm (2 ^ 64) a a' Ha b b' Hb). Qed.

Lemma eq64_sub (a a' b b' : Z) : eq64 a a' -> eq64 b b' -> eq64 (a - b) (a' - b').
Proof. intros Ha Hb. exact (Zminus_eqm (2 ^ 64) a a' Ha b b' Hb). Qed.

Lemma eq64_wrap64 (a b a' b' : Z) :
  eq64 a a' -> eq64 b b' -> a' = b' -> wrap64 a = wrap64 b.
Proof. unfold eq64, eqm, wrap64. intros Ha Hb E. congruence. Qed.

(** [eq64 t ?e]: [?e] becomes [t] without its inner wraps. *)
Ltac unwrap64 :=
  lazymatch goal with
  | |- eq64 (wrap64 _) _ => simple apply eq64_unwrap; unwrap64
  | |- eq64 (_ + _) _ => simple apply eq64_add; unwrap64
  | |- eq64 (_ - _) _ => simple apply eq64_sub; unwrap64
  | |- eq64 _ _ => simple apply eq64_refl
  end.

(** Goals [wrap64 a = wrap64 b] whose sides differ by inner wraps. *)
Ltac wrap64_eq := eapply eq64_wrap64; [unwrap64 | unwrap64 | ring].

Lemma sum8_wrap (a b c d e f g h : Z) :
  sum8 a b c d e f g h = wrap64 (a + b + c + d + e + f + g + h).
Proof. unfold sum8, ull_add. wrap64_eq. Qed.

(** ** Binary64 facts

    What the proofs need of [SpecFloat]: rounding a non-negative mantissa
    never yields a NaN, an integer of [1, 2^64) converts to a normal double
    (exactly below 2^53), dividing a normal double by 1024.0 gives a normal
    double, and the comparison is antisymmetric and transitive. *)

Lemma shr_1_m (mrs : shr_record) :
  0 <= shr_m mrs -> shr_m (shr_1 mrs) = shr_m mrs / 2.
Proof.
  destruct mrs as [m r s]. simpl. intros Hm.
  destruct m as [|p|p]; [reflexivity| |lia].
  destruct p as [p|p|]; cbn [shr_m].
  - rewrite Pos2Z.inj_xI. apply Z.div_unique with (r := 1); lia.
  - rewrite Pos2Z.inj_xO. apply Z.div_unique with (r := 0); lia.
  - reflexivity.
Qed.

Lemma pow2_xI (p : positive) : 2 ^ Zpos p~1 = 2 * (2 ^ Zpos p * 2 ^ Zpos p).
Proof.
  replace (Zpos p~1) with (1 + (Zpos p + Zpos p)) by lia.
  rewrite !Z.pow_add_r by lia. reflexivity.
Qed.

Lemma pow2_xO (p : positive) : 2 ^ Zpos p~0 = 2 ^ Zpos p * 2 ^ Zpos p.
Proof.
  replace (Zpos p~0) with (Zpos p + Zpos p) by lia.
  rewrite !Z.pow_add_r by lia. reflexivity.
Qed.

Lemma pow2_pos (n : Z) : 0 <= n -> 0 < 2 ^ n.
Proof. intros H. apply Z.pow_pos_nonneg; lia. Qed.

Lemma iter_shr_1_m (p : positive) : forall mrs : shr_record,
  0 <= shr_m mrs -> shr_m (iter_pos shr_1 p mrs) = shr_m mrs / 2 ^ Zpos p.
Proof.
  induction p as [p IH|p IH|]; intros mrs Hm; cbn [iter_pos].
  - assert (H1 : 0 <= shr_m (shr_1 mrs)).
    { rewrite shr_1_m by assumption. apply Z.div_pos; lia. }
    assert (H2 : 0 <= shr_m (iter_pos shr_1 p (shr_1 mrs))).
    { rewrite IH by assumption. apply Z.div_pos; [assumption|].
      apply pow2_pos; lia. }
    assert (Hp := pow2_pos (Zpos p) ltac:(lia)).
    rewrite IH, IH, shr_1_m by assumption.
    rewrite !Z.div_div by lia.
    now rewrite pow2_xI.
  - assert (H2 : 0 <= shr_m (iter_pos shr_1 p mrs)).
    { rewrite IH by assumption. apply Z.div_pos; [assumption|].
      apply pow2_pos; lia. }
    assert (Hp := pow2_pos (Zpos p) ltac:(lia)).
    rewrite IH, IH by assumption.
    rewrite !Z.div_div by lia.
    now rewrite pow2_xO.
  - rewrite shr_1_m by assumption. reflexivity.
Qed.

Lemma shr_record_of_loc_m (m : Z) (l : location) :
  shr_m (shr_record_of_loc m l) = m.
Proof. destruct l as [|[ | | ]]; reflexivity. Qed.

(** The mantissa and the exponent after [shr mrs e n]. *)
Lemma shr_spec (mrs : shr_record) (e n : Z) :
  0 <= shr_m mrs ->
  shr_m (fst (shr mrs e n)) = shr_m mrs / 2 ^ Z.max 0 n /\
  snd (shr mrs e n) = e + Z.max 0 n.
Proof.
  intros Hm. destruct n as [|p|p]; cbn [shr fst snd].
  - rewrite Z.max_l by lia. rewrite Z.pow_0_r, Z.div_1_r. lia.
  - rewrite Z.max_r by lia. split; [apply iter_shr_1_m; assumption | reflexivity].
  - rewrite Z.max_l by lia. rewrite Z.pow_0_r, Z.div_1_r. lia.
Qed.

Lemma round_nearest_even_bounds (m : Z) (l : location) :
  m <= round_nearest_even m l <= m + 1.
Proof.
  destruct l as [|[ | | ]]; cbn [round_nearest_even]; try lia.
  destruct (Z.even m); lia.
Qed.

Lemma digits2_pos_lower (m : positive) :
  2 ^ (Zpos (digits2_pos m) - 1) <= Zpos m.
Proof.
  induction m as [m IH|m IH|]; cbn [digits2_pos].
  - rewrite Pos2Z.inj_succ.
    replace (Z.succ (Zpos (digits2_pos m)) - 1)
      with (1 + (Zpos (digits2_pos m) - 1)) by lia.
    rewrite Z.pow_add_r by lia. lia.
  - rewrite Pos2Z.inj_succ.
    replace (Z.succ (Zpos (digits2_pos m)) - 1)
      with (1 + (Zpos (digits2_pos m) - 1)) by lia.
    rewrite Z.pow_add_r by lia. lia.
  - reflexivity.
Qed.

Lemma Zdigits2_bound (z k : Z) :
  0 < z < 2 ^ k -> 0 <= k -> 1 <= Zdigits2 z <= k.
Proof.
  intros [Hz Hk] Hk0. destruct z as [|m|m]; try lia. cbn [Zdigits2].
  split; [lia|].
  destruct (Z.le_gt_cases (Zpos (digits2_pos m)) k) as [H|H]; [exact H|].
  exfalso. pose proof (digits2_pos_lower m) as Hl.
  assert (2 ^ k <= 2 ^ (Zpos (digits2_pos m) - 1))
    by (apply Z.pow_le_mono_r; lia).
  lia.
Qed.

Lemma shr_fexp_nonneg (m e : Z) (l : location) :
  0 <= m -> 0 <= shr_m (fst (shr_fexp Double.prec Double.emax m e l)).
Proof.
  intros Hm. unfold shr_fexp.
  set (n := fexp Double.prec Double.emax (Zdigits2 m + e) - e).
  destruct (shr_spec (shr_record_of_loc m l) e n) as [Hs _].
  { rewrite shr_record_of_loc_m. lia. }
  rewrite Hs, shr_record_of_loc_m.
  apply Z.div_pos; [lia | apply pow2_pos; lia].
Qed.

(** Rounding a non-negative mantissa gives a zero, a finite number or an
    infinity of the sign asked for, never a NaN. *)
Lemma binary_round_aux_signed (sx : bool) (mx ex : Z) (lx : location) :
  0 <= mx ->
  signed_as sx (binary_round_aux Double.prec Double.emax sx mx ex lx).
Proof.
  intros Hm. unfold binary_round_aux.
  pose proof (shr_fexp_nonneg mx ex lx Hm) as H1.
  destruct (shr_fexp Double.prec Double.emax mx ex lx) as [mrs' e'].
  cbn [fst] in H1.
  pose proof (round_nearest_even_bounds (shr_m mrs') (loc_of_shr_record mrs'))
    as Hr.
  pose proof (shr_fexp_nonneg
                (round_nearest_even (shr_m mrs') (loc_of_shr_record mrs'))
                e' loc_Exact ltac:(lia)) as H2.
  destruct (shr_fexp Double.prec Double.emax
              (round_nearest_even (shr_m mrs') (loc_of_shr_record mrs'))
              e' loc_Exact) as [mrs'' e''].
  cbn [fst] in H2.
  destruct (shr_m mrs'') as [|p|p]; [exact eq_refl | | lia].
  destruct (e'' <=? Double.emax - Double.prec); exact eq_refl.
Qed.

Lemma pos_iter_xO (m k : positive) :
  Zpos (Pos.iter xO m k) = Zpos m * 2 ^ Zpos k.
Proof.
  induction k as [|k IH] using Pos.peano_ind.
  - cbn [Pos.iter]. rewrite Pos2Z.inj_xO. change (2 ^ 1) with 2. lia.
  - rewrite Pos.iter_succ, Pos2Z.inj_xO, IH, Pos2Z.inj_succ.
    rewrite Z.pow_succ_r by lia. lia.
Qed.

(** [(double)n] for [0 <= n] is not a NaN and not negative. *)
Lemma of_Z_signed (n : Z) : 0 <= n -> signed_as false (Double.of_Z n).
Proof.
  intros Hn. destruct n as [|m|m]; [exact eq_refl | | lia].
  unfold Double.of_Z, binary_normalize, binary_round.
  destruct (shl_align m 0 _) as [mz ez].
  apply binary_round_aux_signed. lia.
Qed.

Lemma div_signed (x y : Double.t) :
  signed_as false x -> finite_pos y -> signed_as false (Double.div x y).
Proof.
  destruct y as [| | |[|] my ey]; try contradiction. intros Hx _.
  destruct x as [sx|sx| |sx mx ex]; cbn in Hx; try contradiction; subst sx;
    try exact eq_refl.
  unfold Double.div, SFdiv, SFdiv_core_binary.
  set (m' := match _ - _ - _ with Z0 => Zpos mx | _ => _ end).
  assert (Hm' : 0 <= m').
  { subst m'. destruct (_ - _ - _); try lia. apply Z.shiftl_nonneg. lia. }
  pose proof (Z.div_pos m' (Zpos my) Hm' ltac:(lia)) as Hq.
  unfold Z.div in Hq. destruct (Z.div_eucl m' (Zpos my)) as [q r].
  apply binary_round_aux_signed. exact Hq.
Qed.

Lemma mul_signed (x y : Double.t) :
  signed_as false x -> finite_pos y -> signed_as false (Double.mul x y).
Proof.
  destruct y as [| | |[|] my ey]; try contradiction. intros Hx _.
  destruct x as [sx|sx| |sx mx ex]; cbn in Hx; try contradiction; subst sx;
    try exact eq_refl.
  unfold Double.mul, SFmul. apply binary_round_aux_signed. lia.
Qed.

(** *** Normal numbers *)

Lemma digits2_pos_upper (m : positive) : Zpos m < 2 ^ Zpos (digits2_pos m).
Proof.
  induction m as [m IH|m IH|]; cbn [digits2_pos].
  - rewrite Pos2Z.inj_succ, Z.pow_succ_r by lia. lia.
  - rewrite Pos2Z.inj_succ, Z.pow_succ_r by lia. lia.
  - reflexivity.
Qed.

(** The number of digits is fixed by the power of two below. *)
Lemma Zdigits2_of_bounds (m d : Z) :
  2 ^ (d - 1) <= m < 2 ^ d -> 1 <= d -> Zdigits2 m = d.
Proof.
  intros [Hlo Hhi] Hd.
  assert (Hpos : 0 < m).
  { pose proof (pow2_pos (d - 1) ltac:(lia)). lia. }
  destruct m as [|p|p]; try lia. cbn [Zdigits2].
  pose proof (digits2_pos_lower p) as Hl.
  pose proof (digits2_pos_upper p) as Hu.
  set (d' := Zpos (digits2_pos p)) in *.
  assert (Hd' : 1 <= d') by (subst d'; lia).
  destruct (Z.lt_trichotomy d' d) as [H|[H|H]]; [|exact H|].
  - assert (2 ^ d' <= 2 ^ (d - 1)) by (apply Z.pow_le_mono_r; lia). lia.
  - assert (2 ^ d <= 2 ^ (d' - 1)) by (apply Z.pow_le_mono_r; lia). lia.
Qed.

(** A mantissa of [d >= 53] digits loses [d - 53] of them. *)
Lemma shr_fexp_digits (m e d : Z) (l : location) :
  2 ^ (d - 1) <= m < 2 ^ d -> 53 <= d -> -1074 <= e ->
  2 ^ 52 <= shr_m (fst (shr_fexp Double.prec Double.emax m e l)) < 2 ^ 53 /\
  snd (shr_fexp Double.prec Double.emax m e l) = e + (d - 53).
Proof.
  intros Hm Hd He. unfold shr_fexp.
  rewrite (Zdigits2_of_bounds m d Hm ltac:(lia)).
  replace (fexp Double.prec Double.emax (d + e) - e) with (d - 53)
    by (unfold fexp, emin, Double.prec, Double.emax; lia).
  destruct (shr_spec (shr_record_of_loc m l) e (d - 53)) as [Hs He'].
  { rewrite shr_record_of_loc_m.
    pose proof (pow2_pos (d - 1) ltac:(lia)). lia. }
  rewrite Hs, He', shr_record_of_loc_m, Z.max_r by lia.
  split; [|reflexivity].
  assert (Hp : 0 < 2 ^ (d - 53)) by (apply pow2_pos; lia).
  assert (E1 : 2 ^ (d - 1) = 2 ^ (d - 53) * 2 ^ 52).
  { rewrite <- Z.pow_add_r by lia. f_equal. lia. }
  assert (E2 : 2 ^ d = 2 ^ (d - 53) * 2 ^ 53).
  { rewrite <- Z.pow_add_r by lia. f_equal. lia. }
  split.
  - apply Z.div_le_lower_bound; lia.
  - apply Z.div_lt_upper_bound; lia.
Qed.

(** Rounding a mantissa of [d >= 53] digits gives a normal number: 53
    digits, and an exponent raised by [d - 53] or one more. *)
Lemma binary_round_aux_normal (sx : bool) (m e d : Z) (l : location) :
  2 ^ (d - 1) <= m < 2 ^ d -> 53 <= d -> -1074 <= e -> e + (d - 53) < 971 ->
  exists m' e',
    binary_round_aux Double.prec Double.emax sx m e l = S754_finite sx m' e' /\
    2 ^ 52 <= Zpos m' < 2 ^ 53 /\ e + (d - 53) <= e' <= e + (d - 53) + 1.
Proof.
  intros Hm Hd He Hroom. unfold binary_round_aux.
  destruct (shr_fexp_digits m e d l Hm Hd He) as [H1 E1].
  destruct (shr_fexp Double.prec Double.emax m e l) as [mrs' e1].
  cbn [fst snd] in H1, E1.
  pose proof (round_nearest_even_bounds (shr_m mrs') (loc_of_shr_record mrs'))
    as Hr.
  set (m2 := round_nearest_even (shr_m mrs') (loc_of_shr_record mrs')) in *.
  assert (C : 2 ^ (53 - 1) <= m2 < 2 ^ 53 \/ 2 ^ (54 - 1) <= m2 < 2 ^ 54).
  { change (53 - 1) with 52. change (54 - 1) with 53.
    change (2 ^ 54) with (2 * 2 ^ 53). lia. }
  destruct C as [C|C].
  - destruct (shr_fexp_digits m2 e1 53 loc_Exact C ltac:(lia) ltac:(lia))
      as [H2 E2].
    destruct (shr_fexp Double.prec Double.emax m2 e1 loc_Exact) as [mrs'' e2].
    cbn [fst snd] in H2, E2.
    destruct (shr_m mrs'') as [|p|p]; try lia.
    replace (e2 <=? Double.emax - Double.prec) with true
      by (symmetry; apply Z.leb_le; unfold Double.emax, Double.prec; lia).
    exists p, e2. repeat split; lia.
  - destruct (shr_fexp_digits m2 e1 54 loc_Exact C ltac:(lia) ltac:(lia))
      as [H2 E2].
    destruct (shr_fexp Double.prec Double.emax m2 e1 loc_Exact) as [mrs'' e2].
    cbn [fst snd] in H2, E2.
    destruct (shr_m mrs'') as [|p|p]; try lia.
    replace (e2 <=? Double.emax - Double.prec) with true
      by (symmetry; apply Z.leb_le; unfold Double.emax, Double.prec; lia).
    exists p, e2. repeat split; lia.
Qed.

(** A normal mantissa with an exact location is left as it is. *)
Lemma binary_round_aux_exact (sx : bool) (m : positive) (e : Z) :
  2 ^ 52 <= Zpos m < 2 ^ 53 -> -1074 <= e <= 971 ->
  binary_round_aux Double.prec Double.emax sx (Zpos m) e loc_Exact
  = S754_finite sx m e.
Proof.
  intros Hm He.
  assert (Hd : Zdigits2 (Zpos m) = 53)
    by (apply Zdigits2_of_bounds; [exact Hm | lia]).
  assert (Hs : shr_fexp Double.prec Double.emax (Zpos m) e loc_Exact
               = (Build_shr_record (Zpos m) false false, e)).
  { unfold shr_fexp. rewrite Hd.
    replace (fexp Double.prec Double.emax (53 + e) - e) with 0
      by (unfold fexp, emin, Double.prec, Double.emax; lia).
    reflexivity. }
  unfold binary_round_aux. rewrite Hs.
  cbn [shr_m loc_of_shr_record round_nearest_even]. rewrite Hs.
  cbn [shr_m].
  replace (e <=? Double.emax - Double.prec) with true
    by (symmetry; apply Z.leb_le; unfold Double.emax, Double.prec; lia).
  reflexivity.
Qed.

(** [(double)n] for [n] in [1, 2^64): a normal number whose exponent follows
    the number of digits of [n]; below 2^53 the conversion is exact. *)
Lemma of_Z_spec (n : Z) :
  0 < n < 2 ^ 64 ->
  exists m e,
    Double.of_Z n = S754_finite false m e /\
    2 ^ 52 <= Zpos m < 2 ^ 53 /\
    Zdigits2 n - 53 <= e <= Zdigits2 n - 52 /\
    (n < 2 ^ 53 -> e = Zdigits2 n - 53 /\ Zpos m = n * 2 ^ (53 - Zdigits2 n)).
Proof.
  intros Hn. destruct n as [|m|m]; try lia.
  unfold Double.of_Z, binary_normalize, binary_round.
  pose proof (Zdigits2_bound (Zpos m) 64 Hn ltac:(lia)) as Hd.
  pose proof (digits2_pos_lower m) as Hlo.
  pose proof (digits2_pos_upper m) as Hhi.
  cbn [Zdigits2] in *.
  set (d := Zpos (digits2_pos m)) in *.
  unfold shl_align, fexp, emin, Double.prec, Double.emax.
  rewrite Z.max_l by lia.
  destruct (d + 0 - 53 - 0) as [|k|k] eqn:Hk.
  - assert (Ed : d = 53) by lia. rewrite Ed in *.
    pose proof (binary_round_aux_exact false m 0 ltac:(lia) ltac:(lia)) as E.
    unfold Double.prec, Double.emax in E. rewrite E.
    exists m, 0. repeat split; try lia.
  - destruct (binary_round_aux_normal false (Zpos m) 0 d loc_Exact)
      as (m' & e' & E & Hm' & He'); try lia.
    unfold Double.prec, Double.emax in E. rewrite E.
    exists m', e'. repeat split; try lia.
    all: exfalso;
      assert (2 ^ 53 <= 2 ^ (d - 1)) by (apply Z.pow_le_mono_r; lia); lia.
  - assert (Ek : Zpos k = 53 - d) by lia.
    assert (Hmz : 2 ^ 52 <= Zpos (Pos.iter xO m k) < 2 ^ 53).
    { rewrite pos_iter_xO, Ek.
      assert (E1 : 2 ^ 52 = 2 ^ (d - 1) * 2 ^ (53 - d)).
      { rewrite <- Z.pow_add_r by lia. f_equal. lia. }
      assert (E2 : 2 ^ 53 = 2 ^ d * 2 ^ (53 - d)).
      { rewrite <- Z.pow_add_r by lia. f_equal. lia. }
      pose proof (pow2_pos (53 - d) ltac:(lia)).
      rewrite E1, E2. split; nia. }
    pose proof (binary_round_aux_exact false (Pos.iter xO m k) (d + 0 - 53)
                  Hmz ltac:(lia)) as E.
    unfold Double.prec, Double.emax in E. rewrite E.
    exists (Pos.iter xO m k), (d + 0 - 53). repeat split; try lia.
    rewrite pos_iter_xO, Ek. reflexivity.
Qed.

(** [(double)n] for [n] in [1, 2^64) is a normal number. *)
Lemma of_Z_normal (n : Z) : 0 < n < 2 ^ 64 -> normal_in (-52) 12 (Double.of_Z n).
Proof.
  intros Hn. destruct (of_Z_spec n Hn) as (m & e & E & Hm & He & _).
  pose proof (Zdigits2_bound n 64 Hn ltac:(lia)) as Hd.
  rewrite E. split; [exact Hm | lia].
Qed.

(** [(double)n] for [n] in [1, 2^64) is a finite double above zero. *)
Lemma of_Z_finite_pos (n : Z) : 0 < n < 2 ^ 64 -> finite_pos (Double.of_Z n).
Proof.
  intros Hn. destruct (of_Z_spec n Hn) as (m & e & E & _). rewrite E. exact I.
Qed.

(** [(double)n >= 1024.0] exactly when [n >= 1024]. *)
Lemma of_Z_ge_1024 (n : Z) :
  u64 n -> Double.ge (Double.of_Z n) (Double.of_Z 1024) = (1024 <=? n).
Proof.
  intros Hn. unfold u64 in Hn.
  destruct (Z.eq_dec n 0) as [->|Hnz]; [reflexivity|].
  destruct (of_Z_spec n ltac:(lia)) as (m & e & E & Hm & He & Hsmall).
  rewrite E.
  change (Double.of_Z 1024) with (S754_finite false 4503599627370496 (-42)).
  unfold Double.ge, SFleb. cbn [SFcompare].
  change (PosDef.Pos.compare_cont Eq) with Pos.compare.
  destruct (Z.leb_spec 1024 n) as [Hge|Hlt].
  - assert (Hd : 11 <= Zdigits2 n).
    { destruct (Z.le_gt_cases 11 (Zdigits2 n)) as [H|H]; [exact H|].
      exfalso.
      destruct n as [|p|p]; try lia. cbn [Zdigits2] in *.
      pose proof (digits2_pos_upper p) as Hu.
      assert (2 ^ Zpos (digits2_pos p) <= 2 ^ 10)
        by (apply Z.pow_le_mono_r; lia).
      change (2 ^ 10) with 1024 in *. lia. }
    destruct (Z.compare_spec (-42) e) as [He42|He42|He42]; try reflexivity;
      [|lia].
    destruct (Pos.compare_spec 4503599627370496 m) as [Hc|Hc|Hc];
      try reflexivity.
    exfalso. apply (Z.lt_irrefl (Zpos m)).
    exact (Z.lt_le_trans _ _ _ (Pos2Z.pos_lt_pos _ _ Hc) (proj1 Hm)).
  - assert (Hd : Zdigits2 n <= 10).
    { apply Zdigits2_bound; [|lia]. change (2 ^ 10) with 1024. lia. }
    destruct Hsmall as [He' _].
    { change (2 ^ 53) with 9007199254740992. lia. }
    destruct (Z.compare_spec (-42) e) as [He42|He42|He42]; try reflexivity;
      lia.
Qed.

Lemma div_eucl_div_mod (a b : Z) : Z.div_eucl a b = (a / b, a mod b).
Proof.
  unfold Z.div, Z.modulo. destruct (Z.div_eucl a b). reflexivity.
Qed.

(** Dividing a normal number by 1024.0 gives a normal number, its exponent
    lowered by 10 or 9. *)
Lemma div_1024_normal (lo hi : Z) (x : Double.t) :
  normal_in lo hi x -> -1000 <= lo -> hi <= 900 ->
  normal_in (lo - 10) (hi - 9) (Double.div x (Double.of_Z 1024)).
Proof.
  destruct x as [| | |[|] m e]; try contradiction.
  intros [Hm He] Hlo Hhi.
  change (Double.of_Z 1024) with (S754_finite false 4503599627370496 (-42)).
  unfold Double.div, SFdiv, SFdiv_core_binary.
  assert (Hd : Zdigits2 (Zpos m) = 53)
    by (apply Zdigits2_of_bounds; [exact Hm | lia]).
  rewrite Hd.
  change (Zdigits2 4503599627370496) with 53.
  replace (Z.min (fexp Double.prec Double.emax (53 + e - (53 + -42))) (e - -42))
    with (e - 11)
    by (unfold fexp, emin, Double.prec, Double.emax; lia).
  replace (e - -42 - (e - 11)) with 53 by lia.
  rewrite div_eucl_div_mod.
  rewrite Z.shiftl_mul_pow2 by lia.
  replace (Zpos m * 2 ^ 53) with (2 * Zpos m * 4503599627370496)
    by (change (2 ^ 53) with (2 * 4503599627370496); ring).
  rewrite Z.div_mul, Z.mod_mul by lia.
  destruct (binary_round_aux_normal (xorb false false) (2 * Zpos m) (e - 11) 54
              (new_location 4503599627370496 0))
    as (m' & e' & E & Hm' & He'); try lia.
  rewrite E. cbn [xorb normal_in]. split; lia.
Qed.

Lemma normal_in_weaken (lo hi lo' hi' : Z) (x : Double.t) :
  normal_in lo hi x -> lo' <= lo -> hi <= hi' -> normal_in lo' hi' x.
Proof.
  destruct x as [| | |[|] m e]; try contradiction.
  intros [Hm He] H1 H2. split; lia.
Qed.

Lemma divided_normal (k : nat) (x : Double.t) :
  normal_in (-52) 12 x -> (k <= 4)%nat ->
  normal_in (-52 - 10 * Z.of_nat k) 12 (divided k x).
Proof.
  intros Hx. induction k as [|k IH]; intros Hk.
  - exact Hx.
  - unfold divided. cbn [Nat.iter]. fold (divided k x).
    specialize (IH ltac:(lia)).
    apply (normal_in_weaken (-52 - 10 * Z.of_nat k - 10) (12 - 9));
      [|lia|lia].
    apply div_1024_normal; [exact IH | lia | lia].
Qed.

Lemma divided_zero (k : nat) : divided k Double.zero = Double.zero.
Proof.
  induction k as [|k IH]; [reflexivity|].
  change (divided (S k) Double.zero)
    with (Double.div (divided k Double.zero) (Double.of_Z 1024)).
  rewrite IH. reflexivity.
Qed.

(** The double of an [unsigned long long], divided by 1024.0 up to four
    times, is finite. *)
Lemma divided_of_Z_finite (k : nat) (n : Z) :
  u64 n -> (k <= 4)%nat -> finite_nonneg (divided k (Double.of_Z n)).
Proof.
  intros Hn Hk. unfold u64 in Hn.
  destruct (Z.eq_dec n 0) as [->|Hnz].
  - change (Double.of_Z 0) with Double.zero. rewrite divided_zero. exact I.
  - pose proof (divided_normal k _ (of_Z_normal n ltac:(lia)) Hk) as H.
    destruct (divided k (Double.of_Z n)) as [| | |[|] m e];
      try contradiction. exact I.
Qed.

(** *** The order of doubles *)

Lemma compare_cont_Eq_antisym (p q : positive) :
  Pos.compare_cont Eq q p = CompOpp (Pos.compare_cont Eq p q).
Proof. symmetry. exact (Pos.compare_cont_antisym p q Eq). Qed.

Lemma SFcompare_antisym (x y : Double.t) :
  SFcompare y x = option_map CompOpp (SFcompare x y).
Proof.
  destruct x as [sx|sx| |sx mx ex], y as [sy|sy| |sy my ey];
    try destruct sx; try destruct sy; try reflexivity;
    cbn; rewrite (Z.compare_antisym ex ey);
    destruct (ex ?= ey); cbn; try reflexivity;
    now rewrite (compare_cont_Eq_antisym mx my).
Qed.

(** [!(y < x)] is [x <= y] unless an operand is a NaN. *)
Lemma not_lt_le (x y : Double.t) :
  Double.is_nan x = false -> Double.is_nan y = false ->
  Double.lt y x = false -> Double.le x y = true.
Proof.
  unfold Double.lt, Double.le, SFltb, SFleb. intros Hx Hy.
  rewrite (SFcompare_antisym x y).
  destruct x, y; try discriminate; cbn [option_map];
    destruct (SFcompare _ _) as [[ | | ]|] eqn:E; cbn; try congruence;
    cbn in E; discriminate.
Qed.

Lemma le_not_lt (x y : Double.t) :
  Double.le x y = true -> Double.lt y x = false.
Proof.
  unfold Double.lt, Double.le, SFltb, SFleb.
  rewrite (SFcompare_antisym x y).
  destruct (SFcompare x y) as [[ | | ]|]; cbn; congruence.
Qed.

Lemma signed_not_nan (s : bool) (x : Double.t) :
  signed_as s x -> Double.is_nan x = false.
Proof. destruct x; cbn; intros H; [reflexivity.. | contradiction | reflexivity]. Qed.

Lemma signed_zero_le (x : Double.t) :
  signed_as false x -> Double.le Double.zero x = true /\
                       Double.lt x Double.zero = false.
Proof.
  destruct x as [s|s| |s m e]; cbn; intros H; try contradiction; subst s;
    split; reflexivity.
Qed.

(** The two clamping statements put every double that is not a NaN and not
    negative into [0, 100]. *)
Lemma clamp_percent_range (p : Double.t) :
  signed_as false p -> Double.in_percent_range (clamp_percent p) = true.
Proof.
  intros Hp. unfold clamp_percent, Double.in_percent_range.
  destruct (signed_zero_le p Hp) as [H0 Hlt]. rewrite Hlt.
  destruct (Double.gt p (Double.of_Z 100)) eqn:E.
  - reflexivity.
  - rewrite H0. cbn [andb]. apply not_lt_le; [| reflexivity | exact E].
    exact (signed_not_nan false p Hp).
Qed.

(** ** CPU delta engine *)

Lemma hundred_finite_pos : finite_pos (Double.of_Z 100).
Proof. exact I. Qed.

(** [(double)a / (double)b * 100.0] for [0 <= a] and [b] in [1, 2^64) is
    neither a NaN nor negative. *)
Lemma percent_of_ratio_signed (a b : Z) :
  0 <= a -> 0 < b < 2 ^ 64 ->
  signed_as false
    (Double.mul (Double.div (Double.of_Z a) (Double.of_Z b)) (Double.of_Z 100)).
Proof.
  intros Ha Hb. apply mul_signed; [|exact hundred_finite_pos].
  apply div_signed; [apply of_Z_signed; exact Ha | apply of_Z_finite_pos; exact Hb].
Qed.

Lemma finite_pos_not_zero (x : Double.t) :
  finite_pos x -> Double.is_zero x = false.
Proof. destruct x as [| | |[|] m e]; cbn; intros H; try contradiction; reflexivity. Qed.

(** [calculate_cpu_usage] always completes, and what it clamps is neither a
    NaN nor negative. *)
Lemma calculate_cpu_usage_done (stats : cpu_stats_t) :
  exists p,
    calculate_cpu_usage stats = Done (set_usage_percent stats (clamp_percent p))
    /\ signed_as false p.
Proof.
  unfold calculate_cpu_usage. cbv zeta.
  destruct (total_diff stats =? 0) eqn:E.
  - exists Double.zero. split; [reflexivity | exact eq_refl].
  - apply Z.eqb_neq in E.
    assert (Ht : 0 <= total_diff stats < 2 ^ 64) by apply wrap64_range.
    assert (Hn : 0 <= ull_sub (total_diff stats) (idle_diff stats) < 2 ^ 64)
      by apply wrap64_range.
    unfold checked_div.
    rewrite (finite_pos_not_zero _ (of_Z_finite_pos (total_diff stats) ltac:(lia))).
    cbn [bind]. eexists. split; [reflexivity|].
    apply percent_of_ratio_signed; lia.
Qed.

Lemma calculate_cpu_usage_zero (stats : cpu_stats_t) :
  total_diff stats = 0 ->
  calculate_cpu_usage stats = Done (set_usage_percent stats Double.zero).
Proof.
  intros H. unfold calculate_cpu_usage. cbv zeta. rewrite H. reflexivity.
Qed.

(** C1. For every pair of samples held in [stats], whatever the order of
    their fields (the subtractions wrap modulo 2^64), [calculate_cpu_usage]
    completes, without a division by zero, changes nothing but
    [usage_percent], and leaves [0 <= usage_percent <= 100]. *)
Theorem calculate_cpu_usage_in_range (stats : cpu_stats_t) :
  exists stats',
    calculate_cpu_usage stats = Done stats' /\
    stats' = set_usage_percent stats (usage_percent stats') /\
    Double.in_percent_range (usage_percent stats') = true.
Proof.
  destruct (calculate_cpu_usage_done stats) as (p & E & Hp).
  eexists. split; [exact E|]. split; [reflexivity|].
  cbn [usage_percent set_usage_percent]. apply clamp_percent_range. exact Hp.
Qed.

(** C8. When the two eight-field totals are equal, [calculate_cpu_usage]
    completes without dividing and sets [usage_percent] to exactly 0.0. *)
Theorem calculate_cpu_usage_equal_totals (stats : cpu_stats_t) :
  curr_total stats = prev_total stats ->
  calculate_cpu_usage stats = Done (set_usage_percent stats Double.zero).
Proof.
  intros H. apply calculate_cpu_usage_zero.
  unfold total_diff, ull_sub. rewrite H, Z.sub_diag. reflexivity.
Qed.

Lemma calculate_cpu_usage_equal_totals_witness :
  curr_total equal_totals_sample = prev_total equal_totals_sample /\
  calculate_cpu_usage equal_totals_sample
    = Done (set_usage_percent equal_totals_sample Double.zero).
Proof.
  split; [reflexivity|].
  apply (calculate_cpu_usage_equal_totals equal_totals_sample). reflexivity.
Defined.

(** ** Per-category shares *)

(** C2, as stated, fails: the idle share printed for [iowait_sample] is 50,
    where the combined idle and iowait delta over the total gives 100. *)
Lemma idle_share_leaves_iowait_out :
  idle_share iowait_sample = Double.of_Z 50 /\
  share (idle_diff iowait_sample) (details_divisor iowait_sample)
    = Double.of_Z 100.
Proof. split; vm_compute; reflexivity. Qed.

(** C2, amended. The three shares have one divisor, the double of the
    [total_diff] of [calculate_cpu_usage], which is the sum of the eight
    field deltas modulo 2^64; the user, system and idle shares are the
    deltas of the [user], [system] and [idle] fields alone over it, times
    100. *)
Theorem cpu_shares_same_divisor (cpu : cpu_stats_t) :
  details_divisor cpu = Double.of_Z (total_diff cpu) /\
  total_diff cpu
    = sum8 (ull_sub (user cpu) (prev_user cpu))
           (ull_sub (nice cpu) (prev_nice cpu))
           (ull_sub (system cpu) (prev_system cpu))
           (ull_sub (idle cpu) (prev_idle cpu))
           (ull_sub (iowait cpu) (prev_iowait cpu))
           (ull_sub (irq cpu) (prev_irq cpu))
           (ull_sub (softirq cpu) (prev_softirq cpu))
           (ull_sub (steal cpu) (prev_steal cpu)) /\
  user_share cpu
    = share (ull_sub (user cpu) (prev_user cpu)) (Double.of_Z (total_diff cpu)) /\
  system_share cpu
    = share (ull_sub (system cpu) (prev_system cpu))
            (Double.of_Z (total_diff cpu)) /\
  idle_share cpu
    = share (ull_sub (idle cpu) (prev_idle cpu)) (Double.of_Z (total_diff cpu)).
Proof.
  unfold user_share, system_share, idle_share, details_divisor,
    total_diff, curr_total, prev_total.
  split; [exact eq_refl|]. split; [|repeat split; exact eq_refl].
  unfold sum8, ull_sub, ull_add. wrap64_eq.
Qed.

(** ** CPU sampler *)

Lemma read_cpu_stats_line (text line rest : string) (stats : cpu_stats_t) :
  fgets MAX_LINE_LENGTH text = Some (line, rest) ->
  read_cpu_stats (Content text) stats
  = (if Z.of_nat (List.length (sscanf_cpu line)) <? 4 then -1 else 0,
     parse_current (sscanf_cpu line) (store_previous stats)).
Proof.
  intros H. unfold read_cpu_stats. rewrite H.
  destruct (Z.of_nat (List.length (sscanf_cpu line)) <? 4); reflexivity.
Qed.

Lemma assigned_spec (vals : list Z) (i : nat) (old : Z) :
  assigned vals i old
  = if (i <? List.length vals)%nat then nth i vals 0 else old.
Proof.
  unfold assigned. destruct (Nat.ltb_spec i (List.length vals)).
  - apply nth_indep. assumption.
  - apply nth_overflow. assumption.
Qed.




(** After the failed read above, the usage of the next pass is computed
    against the fields the failed read left and is 100%; without the failed
    read the same line gives 13.04...% (the second equation). *)
Lemma failed_read_skews_next_usage :
  let failed_pass := snd (read_cpu_stats (Content "cpu 500 0") history_sample) in
  let next := snd (read_cpu_stats (Content "cpu 110 0 55 900 0 0 0 0") failed_pass) in
  let direct := snd (read_cpu_stats (Content "cpu 110 0 55 900 0 0 0 0") history_sample) in
  option_map usage_percent
    (match calculate_cpu_usage next with Done s => Some s | _ => None end)
  = Some (Double.of_Z 100) /\
  option_map usage_percent
    (match calculate_cpu_usage direct with Done s => Some s | _ => None end)
  = Some (Double.div (Double.of_Z 1500) (Double.of_Z 115)).
Proof. split; vm_compute; reflexivity. Qed.

(** ** Colour selection *)

Lemma lt_irrefl (x : Double.t) : Double.lt x x = false.
Proof.
  unfold Double.lt, SFltb.
  destruct x as [[|]|[|]| |[|] m e]; cbn; try reflexivity;
    rewrite Z.compare_refl;
    change (PosDef.Pos.compare_cont Eq m m) with (Pos.compare m m);
    rewrite Pos.compare_refl; reflexivity.
Qed.

Ltac compare_cases :=
  repeat match goal with
  | H : context [Z.compare ?a ?b] |- _ =>
      destruct (Z.compare_spec a b); try discriminate H
  | |- context [Z.compare ?a ?b] =>
      destruct (Z.compare_spec a b)
  | H : context [Pos.compare ?a ?b] |- _ =>
      destruct (Pos.compare_spec a b); try discriminate H
  | |- context [Pos.compare ?a ?b] =>
      destruct (Pos.compare_spec a b)
  end.

Lemma lt_trans (x y z : Double.t) :
  Double.lt x y = true -> Double.lt y z = true -> Double.lt x z = true.
Proof.
  unfold Double.lt, SFltb.
  destruct x as [[|]|[|]| |[|] mx ex], y as [[|]|[|]| |[|] my ey],
           z as [[|]|[|]| |[|] mz ez];
    cbn; try discriminate; try reflexivity;
    change (PosDef.Pos.compare_cont Eq) with Pos.compare;
    intros H1 H2; compare_cases; subst; cbn in *;
    try reflexivity; try discriminate; try lia.
Qed.

(** C4, as stated, fails at the upper cut point: a CPU usage of exactly 80
    takes the middle colour, not the one of the high tier. *)
Lemma cpu_color_at_high_cut : cpu_color (Double.of_Z 80) = YELLOW.
Proof. reflexivity. Qed.

(** C4, amended. With the tiers Normal, Moderate and High shown as [GREEN],
    [YELLOW] and [RED], and [low < high] the cut points of a metric, the
    selection is: [GREEN] when [p < low], [YELLOW] when [low < p <= high],
    [RED] exactly when [p > high]; a value equal to the upper cut point is
    [YELLOW]. The cut points are (60, 80) for the CPU, (75, 90) for memory
    and (80, 90) for the disk. *)
Theorem classify_strict_cuts (low high : Z) (p : Double.t) :
  Double.lt (Double.of_Z low) (Double.of_Z high) = true ->
  (Double.lt p (Double.of_Z low) = true -> classify low high p = GREEN) /\
  (Double.gt p (Double.of_Z low) = true ->
   Double.le p (Double.of_Z high) = true -> classify low high p = YELLOW) /\
  (classify low high p = RED <-> Double.gt p (Double.of_Z high) = true) /\
  classify low high (Double.of_Z high) = YELLOW /\
  cpu_color p = classify 60 80 p /\
  mem_color p = classify 75 90 p /\
  disk_color p = classify 80 90 p.
Proof.
  intros Hcuts. unfold classify, Double.gt.
  change (@SFltb) with Double.lt.
  split; [|split; [|split; [|split]]].
  - intros Hp.
    assert (H1 : Double.lt (Double.of_Z low) p = false).
    { apply le_not_lt. unfold Double.le, SFleb. unfold Double.lt, SFltb in Hp.
      destruct (SFcompare p (Double.of_Z low)) as [[ | | ]|]; congruence. }
    assert (H2 : Double.lt (Double.of_Z high) p = false).
    { destruct (Double.lt (Double.of_Z high) p) eqn:E; [|reflexivity].
      pose proof (lt_trans _ _ _ Hcuts E). congruence. }
    now rewrite H2, H1.
  - intros Hlow Hhigh. rewrite (le_not_lt _ _ Hhigh), Hlow. reflexivity.
  - destruct (Double.lt (Double.of_Z high) p);
      [split; reflexivity|].
    destruct (Double.lt (Double.of_Z low) p); split; discriminate.
  - rewrite lt_irrefl, Hcuts. reflexivity.
  - repeat split.
Qed.

Lemma classify_strict_cuts_witness :
  Double.lt (Double.of_Z 60) (Double.of_Z 80) = true /\
  classify 60 80 (Double.of_Z 80) = YELLOW /\
  (classify 60 80 (Double.of_Z 81) = RED <->
   Double.gt (Double.of_Z 81) (Double.of_Z 80) = true).
Proof.
  split; [reflexivity|].
  split.
  - apply (classify_strict_cuts 60 80 (Double.of_Z 80)). reflexivity.
  - apply (classify_strict_cuts 60 80 (Double.of_Z 81)). reflexivity.
Defined.

(** ** One pass of the polling loop *)

(** C3, as stated, fails: when the CPU sampler fails, the pass ends there;
    the memory and disk samplers are not called and nothing is displayed. *)
Lemma cpu_failure_ends_pass :
  loop_body all_metrics cpu_down fresh_monitor
  = Done (fresh_monitor, [CallReadCpu; Stderr "Error reading CPU stats"]).
Proof. reflexivity. Qed.

(** C3, amended. A pass calls the enabled samplers in the order CPU, memory,
    disk, and the first failure ends it: it displays exactly when every
    enabled sampler succeeded; when the CPU sampler fails, the pass is the
    call and the error message, and the memory and disk snapshots are left
    as they were; when the memory sampler fails, the disk is not queried. *)
Theorem loop_body_first_failure_ends_pass
    (config : config_t) (w : world) (m : monitor) :
  exists m' events,
    loop_body config w m = Done (m', events) /\
    displays events = samplers_ok config w m /\
    (show_cpu config = true -> failed (cpu_rc w m) = true ->
     events = [CallReadCpu; Stderr "Error reading CPU stats"] /\
     memory_stats m' = memory_stats m /\ disk_stats m' = disk_stats m) /\
    (show_memory config = true -> failed (memory_rc w m) = true ->
     reads_disk events = false /\ displays events = false /\
     disk_stats m' = disk_stats m).
Proof.
  unfold loop_body, samplers_ok, cpu_rc, memory_rc, disk_rc.
  destruct config as [rate sc sm sd path cont].
  cbn [show_cpu show_memory show_disk disk_path continuous refresh_rate].
  destruct (read_cpu_stats (proc_stat w) (cpu_stats m)) as [rc1 c1].
  destruct (read_memory_stats (proc_meminfo w) (memory_stats m)) as [rc2 m2].
  destruct (read_disk_stats (statvfs w path) path (disk_stats m)) as [rc3 d3].
  cbn [fst snd].
  destruct (calculate_cpu_usage_done c1) as (p & E & _).
  destruct sc, sm, sd, (failed rc1), (failed rc2), (failed rc3), cont;
    cbn [andb orb negb]; try rewrite E; cbn [bind];
    (eexists; eexists; split; [reflexivity|]);
    (split; [exact eq_refl|]);
    split; intros; try discriminate; repeat split; exact eq_refl.
Qed.

(** ** Memory sampler *)

Lemma digit_val_range (c : ascii) : isdigit c = true -> 0 <= digit_val c <= 9.
Proof.
  unfold isdigit, digit_val. intros H.
  apply andb_prop in H. destruct H as [H1 H2].
  apply N.leb_le in H1. apply N.leb_le in H2. lia.
Qed.

Lemma scan_digits_nonneg (s : string) : forall acc,
  0 <= acc -> 0 <= fst (scan_digits s acc).
Proof.
  induction s as [|c r IH]; intros acc Hacc; cbn [scan_digits].
  - exact Hacc.
  - destruct (isdigit c) eqn:E; [|exact Hacc].
    apply IH. pose proof (digit_val_range c E). lia.
Qed.

Lemma scan_ull_range (s r : string) (v : Z) :
  scan_ull s = Some (v, r) -> u64 v.
Proof.
  unfold scan_ull.
  destruct (match skip_space s with
            | String "-" r0 => (true, r0)
            | String "+" r0 => (false, r0)
            | _ => (false, skip_space s)
            end) as [neg s'].
  destruct s' as [|c s'']; [discriminate|].
  destruct (isdigit c); [|discriminate].
  pose proof (scan_digits_nonneg (String c s'') 0 ltac:(lia)) as Hv.
  destruct (scan_digits (String c s'') 0) as [v' rest]. cbn [fst] in Hv.
  intros H. injection H as Hval _. subst v.
  destruct (Z.ltb_spec ULLONG_MAX v').
  - unfold u64, ULLONG_MAX. lia.
  - destruct neg; [apply wrap64_range|]. unfold u64, ULLONG_MAX in *. lia.
Qed.

Lemma sscanf_meminfo_range (line key : string) (value : Z) :
  sscanf_meminfo line = Some (key, value) -> u64 value.
Proof.
  unfold sscanf_meminfo.
  destruct (scan_word 63 (skip_space line)) as [[|c k] r]; [discriminate|].
  destruct (scan_ull r) as [[v rest]|] eqn:E; [|discriminate].
  intros H. injection H as _ Hv. subst. exact (scan_ull_range _ _ _ E).
Qed.

Lemma meminfo_line_wf (stats : memory_stats_t) (line : string) :
  mem_wf stats -> mem_wf (meminfo_line stats line).
Proof.
  intros (Ht & Ha & Hf & Hb & Hc). unfold meminfo_line.
  destruct (sscanf_meminfo line) as [[key value]|] eqn:E;
    [|unfold mem_wf; tauto].
  pose proof (sscanf_meminfo_range _ _ _ E) as Hv.
  repeat match goal with
         | |- context [if ?b then _ else _] => destruct b
         end;
    unfold mem_wf;
    cbn [Mem.total Mem.available Mem.free Mem.buffers Mem.cached]; tauto.
Qed.

Lemma fold_meminfo_wf (lines : list string) : forall stats,
  mem_wf stats -> mem_wf (fold_left meminfo_line lines stats).
Proof.
  induction lines as [|l ls IH]; intros stats H; cbn [fold_left].
  - exact H.
  - apply IH, meminfo_line_wf, H.
Qed.

Lemma scan_meminfo_wf (text : string) (stats : memory_stats_t) :
  mem_wf (scan_meminfo text stats).
Proof.
  unfold scan_meminfo. apply fold_meminfo_wf.
  unfold mem_wf, u64. cbn [Mem.total Mem.available Mem.free Mem.buffers Mem.cached].
  lia.
Qed.

Lemma derive_memory_total (stats : memory_stats_t) :
  Mem.total (derive_memory stats) = Mem.total stats /\
  Mem.free (derive_memory stats) = Mem.free stats /\
  Mem.buffers (derive_memory stats) = Mem.buffers stats /\
  Mem.cached (derive_memory stats) = Mem.cached stats.
Proof.
  unfold derive_memory. destruct (Mem.available stats >? 0); repeat split.
Qed.

(** On both paths the used figure left is total - available modulo 2^64,
    with the available figure left. *)
Lemma derive_memory_used (stats : memory_stats_t) :
  Mem.used (derive_memory stats)
  = wrap64 (Mem.total stats - Mem.available (derive_memory stats)).
Proof.
  unfold derive_memory.
  destruct (Mem.available stats >? 0); cbn [Mem.used Mem.available].
  - reflexivity.
  - unfold ull_sub, ull_add. wrap64_eq.
Qed.

Lemma derive_memory_available_range (stats : memory_stats_t) :
  mem_wf stats -> u64 (Mem.available (derive_memory stats)).
Proof.
  intros (_ & Ha & _). unfold derive_memory.
  destruct (Mem.available stats >? 0); cbn [Mem.available];
    [exact Ha | apply wrap64_range].
Qed.

Lemma derive_memory_usage_range (stats : memory_stats_t) :
  mem_wf stats ->
  Double.in_percent_range (Mem.usage_percent (derive_memory stats)) = true.
Proof.
  intros (Ht & _). unfold derive_memory.
  assert (Hgen : forall used, 0 <= used ->
            Double.in_percent_range
              (clamp_percent
                 (if Mem.total stats >? 0
                  then Double.mul (Double.div (Double.of_Z used)
                                              (Double.of_Z (Mem.total stats)))
                                  (Double.of_Z 100)
                  else Double.zero)) = true).
  { intros used Hu. apply clamp_percent_range.
    destruct (Z.gtb_spec (Mem.total stats) 0); [|exact eq_refl].
    apply percent_of_ratio_signed; [exact Hu | unfold u64 in Ht; lia]. }
  destruct (Mem.available stats >? 0); cbn [Mem.usage_percent];
    apply Hgen; apply wrap64_range.
Qed.

(** C5, as stated, fails: the used figure is the unsigned difference, which
    wraps above the total when the available figure exceeds it. *)
Lemma used_wraps_above_total :
  read_memory_stats (Content overcommitted_meminfo) Mem.init
  = (0, Mem.mk 100 200 (2 ^ 64 - 100) 0 0 0 (Double.of_Z 100)).
Proof. vm_compute. reflexivity. Qed.

(** C5, amended. After [read_memory_stats] has returned 0, [usage_percent]
    is in [0, 100] and the used figure is [total - available] computed
    modulo 2^64 (it is not clamped): [0 <= used <= total] holds exactly when
    the available figure left does not exceed the total, and otherwise the
    used figure is the wrapped difference, above the total. *)
Theorem read_memory_stats_invariant
    (src : source) (stats stats' : memory_stats_t) :
  read_memory_stats src stats = (0, stats') ->
  Double.in_percent_range (Mem.usage_percent stats') = true /\
  Mem.used stats' = wrap64 (Mem.total stats' - Mem.available stats') /\
  (0 <= Mem.used stats' <= Mem.total stats'
   <-> Mem.available stats' <= Mem.total stats').
Proof.
  destruct src as [|text]; cbn [read_memory_stats]; [discriminate|].
  intros H. injection H as H. subst stats'.
  pose proof (scan_meminfo_wf text stats) as Hwf.
  set (parsed := scan_meminfo text stats) in *.
  pose proof (derive_memory_used parsed) as Hu.
  pose proof (derive_memory_available_range parsed Hwf) as Ha.
  destruct (derive_memory_total parsed) as (Ht & _).
  split; [apply derive_memory_usage_range; assumption|].
  destruct Hwf as (Htot & _).
  rewrite Ht. split; [exact Hu|].
  rewrite Hu. unfold u64 in *.
  set (t := Mem.total parsed) in *.
  set (a := Mem.available (derive_memory parsed)) in *.
  clearbody t a. clear Hu Ht parsed.
  unfold wrap64.
  destruct (Z.le_gt_cases a t) as [Hle|Hgt].
  - rewrite Z.mod_small by lia. lia.
  - replace (t - a) with ((t - a + 2 ^ 64) + (-1) * 2 ^ 64) by ring.
    rewrite Z.mod_add by lia. rewrite Z.mod_small by lia. lia.
Qed.

Lemma read_memory_stats_invariant_witness :
  read_memory_stats (Content overcommitted_meminfo) Mem.init
  = (0, Mem.mk 100 200 (2 ^ 64 - 100) 0 0 0 (Double.of_Z 100)) /\
  Double.in_percent_range (Double.of_Z 100) = true /\
  (0 <= 2 ^ 64 - 100 <= 100 <-> 200 <= 100).
Proof.
  split; [vm_compute; reflexivity|].
  pose proof (read_memory_stats_invariant
                (Content overcommitted_meminfo) Mem.init
                (Mem.mk 100 200 (2 ^ 64 - 100) 0 0 0 (Double.of_Z 100))) as H.
  cbn [Mem.total Mem.used Mem.available Mem.usage_percent] in H.
  destruct H as (H1 & _ & H3); [vm_compute; reflexivity|].
  split; [exact H1 | exact H3].
Defined.

(** *** The lines of a file *)

Lemma fgets_chars_rest_le (n : nat) : forall s,
  (String.length (snd (fgets_chars n s)) <= String.length s)%nat.
Proof.
  induction n as [|n IH]; intros s; cbn [fgets_chars].
  - destruct s; cbn; lia.
  - destruct s as [|c r]; [cbn; lia|].
    destruct (Ascii.eqb c newline); [cbn; lia|].
    specialize (IH r). destruct (fgets_chars n r) as [l rest].
    cbn [snd String.length] in *. lia.
Qed.

Lemma fgets_chars_rest_lt (n : nat) (c : ascii) (r : string) :
  (String.length (snd (fgets_chars (S n) (String c r)))
   < String.length (String c r))%nat.
Proof.
  cbn [fgets_chars]. destruct (Ascii.eqb c newline).
  - apply Nat.lt_succ_diag_r.
  - pose proof (fgets_chars_rest_le n r) as Hle.
    destruct (fgets_chars n r) as [l rest].
    apply Nat.lt_succ_r. exact Hle.
Qed.

Lemma fgets_rest_lt (text line rest : string) :
  fgets MAX_LINE_LENGTH text = Some (line, rest) ->
  (String.length rest < String.length text)%nat.
Proof.
  unfold fgets. destruct text as [|c r]; [discriminate|].
  change (MAX_LINE_LENGTH - 1)%nat with (S 1022).
  pose proof (fgets_chars_rest_lt 1022 c r) as Hlt.
  generalize dependent (fgets_chars (S 1022) (String c r)).
  intros pr Hlt H. injection H as ->. exact Hlt.
Qed.

(** The loop over the lines ends by itself: any fuel of at least the
    length of the text gives the same lines. *)
Lemma read_lines_fuel (fuel1 : nat) : forall fuel2 text,
  (String.length text <= fuel1)%nat -> (String.length text <= fuel2)%nat ->
  read_lines fuel1 text = read_lines fuel2 text.
Proof.
  induction fuel1 as [|f1 IH]; intros fuel2 text H1 H2.
  - destruct text; [|cbn in H1; lia]. destruct fuel2; reflexivity.
  - destruct fuel2 as [|f2].
    + destruct text; [reflexivity | cbn in H2; lia].
    + cbn [read_lines].
      destruct (fgets MAX_LINE_LENGTH text) as [[line rest]|] eqn:E;
        [|reflexivity].
      pose proof (fgets_rest_lt _ _ _ E). f_equal. apply IH; lia.
Qed.

Lemma file_lines_fuel (fuel : nat) (text : string) :
  (String.length text <= fuel)%nat -> read_lines fuel text = file_lines text.
Proof. intros H. unfold file_lines. apply read_lines_fuel; lia. Qed.

(** *** Keys that are not reported *)

Lemma meminfo_line_keeps (stats : memory_stats_t) (line : string) :
  (line_reports "MemTotal:" line = false ->
   Mem.total (meminfo_line stats line) = Mem.total stats) /\
  (line_reports "MemAvailable:" line = false ->
   Mem.available (meminfo_line stats line) = Mem.available stats) /\
  (line_reports "MemFree:" line = false ->
   Mem.free (meminfo_line stats line) = Mem.free stats) /\
  (line_reports "Buffers:" line = false ->
   Mem.buffers (meminfo_line stats line) = Mem.buffers stats) /\
  (line_reports "Cached:" line = false ->
   Mem.cached (meminfo_line stats line) = Mem.cached stats).
Proof.
  unfold line_reports, meminfo_line.
  destruct (sscanf_meminfo line) as [[key value]|]; [|repeat split].
  destruct (String.eqb key "MemTotal:"), (String.eqb key "MemAvailable:"),
    (String.eqb key "MemFree:"), (String.eqb key "Buffers:"),
    (String.eqb key "Cached:");
    repeat split; intros; try discriminate; reflexivity.
Qed.

Lemma fold_meminfo_keeps (lines : list string) : forall stats,
  (existsb (line_reports "MemTotal:") lines = false ->
   Mem.total (fold_left meminfo_line lines stats) = Mem.total stats) /\
  (existsb (line_reports "MemAvailable:") lines = false ->
   Mem.available (fold_left meminfo_line lines stats) = Mem.available stats) /\
  (existsb (line_reports "MemFree:") lines = false ->
   Mem.free (fold_left meminfo_line lines stats) = Mem.free stats) /\
  (existsb (line_reports "Buffers:") lines = false ->
   Mem.buffers (fold_left meminfo_line lines stats) = Mem.buffers stats) /\
  (existsb (line_reports "Cached:") lines = false ->
   Mem.cached (fold_left meminfo_line lines stats) = Mem.cached stats).
Proof.
  induction lines as [|l ls IH]; intros stats; cbn [fold_left existsb].
  - repeat split.
  - destruct (IH (meminfo_line stats l)) as (I1 & I2 & I3 & I4 & I5).
    destruct (meminfo_line_keeps stats l) as (K1 & K2 & K3 & K4 & K5).
    repeat split; intros H; apply orb_false_elim in H; destruct H as [Hl Hls].
    + rewrite (I1 Hls). exact (K1 Hl).
    + rewrite (I2 Hls). exact (K2 Hl).
    + rewrite (I3 Hls). exact (K3 Hl).
    + rewrite (I4 Hls). exact (K4 Hl).
    + rewrite (I5 Hls). exact (K5 Hl).
Qed.

(** A key no line reports keeps the 0 of "Initialize values". *)
Lemma scan_meminfo_defaults (text : string) (stats : memory_stats_t) :
  (reports "MemTotal:" text = false ->
   Mem.total (scan_meminfo text stats) = 0) /\
  (reports "MemAvailable:" text = false ->
   Mem.available (scan_meminfo text stats) = 0) /\
  (reports "MemFree:" text = false ->
   Mem.free (scan_meminfo text stats) = 0) /\
  (reports "Buffers:" text = false ->
   Mem.buffers (scan_meminfo text stats) = 0) /\
  (reports "Cached:" text = false ->
   Mem.cached (scan_meminfo text stats) = 0).
Proof.
  unfold reports, scan_meminfo.
  exact (fold_meminfo_keeps (file_lines text)
           (Mem.mk 0 0 (Mem.used stats) 0 0 0 (Mem.usage_percent stats))).
Qed.

(** C6, as stated, fails: an empty memory source is not an error; the read
    succeeds with every figure 0. *)
Lemma empty_meminfo_succeeds :
  read_memory_stats (Content "") Mem.init = (0, Mem.init).
Proof. reflexivity. Qed.

(** C6, amended. [read_memory_stats] returns -1 exactly when the memory
    source cannot be opened. On every source that opens, an empty one and
    one with malformed or unknown lines included, it returns 0, and a key
    that no line reports leaves its figure at 0 (for the available figure:
    the fallback is taken). *)
Theorem read_memory_stats_fails_iff_unopenable
    (src : source) (stats : memory_stats_t) :
  (fst (read_memory_stats src stats) = -1 <-> src = Unopenable) /\
  forall text, src = Content text ->
    let result := snd (read_memory_stats src stats) in
    fst (read_memory_stats src stats) = 0 /\
    (reports "MemTotal:" text = false -> Mem.total result = 0) /\
    (reports "MemFree:" text = false -> Mem.free result = 0) /\
    (reports "Buffers:" text = false -> Mem.buffers result = 0) /\
    (reports "Cached:" text = false -> Mem.cached result = 0) /\
    (reports "MemAvailable:" text = false ->
     Mem.available result
     = ull_add (ull_add (Mem.free result) (Mem.buffers result))
               (Mem.cached result)).
Proof.
  split.
  - destruct src; cbn [read_memory_stats fst]; split; intros H;
      try reflexivity; discriminate.
  - intros text ->. cbn [read_memory_stats fst snd].
    destruct (scan_meminfo_defaults text stats) as (D1 & D2 & D3 & D4 & D5).
    destruct (derive_memory_total (scan_meminfo text stats))
      as (T1 & T2 & T3 & T4).
    rewrite T1, T2, T3, T4.
    repeat split; try assumption.
    intros H. unfold derive_memory. rewrite (D2 H). reflexivity.
Qed.

(** C7. The failing input: a source that reports [MemAvailable: 0 kB]
    beside a total of 1000 and 100 free. The claim gives used
    [total - available] = 1000 and available 0, an available figure being
    reported; the code tests the figure for [> 0] and so runs the branch
    its comment keeps for the case that "MemAvailable is not present":
    it leaves used 900, available 100 and usage 90. *)
Lemma zero_available_takes_fallback :
  reports "MemAvailable:" zero_available_meminfo = true /\
  Mem.available (scan_meminfo zero_available_meminfo Mem.init) = 0 /\
  read_memory_stats (Content zero_available_meminfo) Mem.init
  = (0, Mem.mk 1000 100 900 100 0 0 (Double.of_Z 90)).
Proof. repeat split; vm_compute; reflexivity. Qed.

(** The two branches of the derivation, as the test of the available
    figure selects them: above 0, used is [total - available] (modulo 2^64)
    and the available figure is kept; at 0, which is what the figure holds
    when no line reports it, used is [total - free - buffers - cached] and
    available is [free + buffers + cached] (modulo 2^64). For total 1000,
    free 200, buffers 50, cached 250 and no available key: used 500,
    available 500, usage 50. *)
Theorem read_memory_stats_used_available
    (text : string) (stats : memory_stats_t) :
  let parsed := scan_meminfo text stats in
  let result := snd (read_memory_stats (Content text) stats) in
  (0 < Mem.available parsed ->
   Mem.used result = ull_sub (Mem.total parsed) (Mem.available parsed) /\
   Mem.available result = Mem.available parsed) /\
  (Mem.available parsed = 0 ->
   Mem.used result
   = ull_sub (ull_sub (ull_sub (Mem.total parsed) (Mem.free parsed))
                      (Mem.buffers parsed)) (Mem.cached parsed) /\
   Mem.available result
   = ull_add (ull_add (Mem.free parsed) (Mem.buffers parsed))
             (Mem.cached parsed)) /\
  0 <= Mem.available parsed /\
  (reports "MemAvailable:" text = false -> Mem.available parsed = 0) /\
  read_memory_stats (Content fallback_meminfo) Mem.init
  = (0, Mem.mk 1000 500 500 200 50 250 (Double.of_Z 50)).
Proof.
  cbv zeta. cbn [read_memory_stats snd].
  set (parsed := scan_meminfo text stats).
  split; [|split; [|split; [|split]]].
  - intros H. unfold derive_memory.
    destruct (Z.gtb_spec (Mem.available parsed) 0); [|lia].
    split; reflexivity.
  - intros H. unfold derive_memory. rewrite H. split; reflexivity.
  - destruct (scan_meminfo_wf text stats) as (_ & Ha & _).
    unfold u64 in Ha. subst parsed. lia.
  - apply scan_meminfo_defaults.
  - vm_compute. reflexivity.
Qed.

(** ** Unit converter *)

Lemma scale_loop_step (fuel : nat) (size : Double.t) (unit_index : Z) :
  scale_loop (S fuel) size unit_index
  = if Double.ge size (Double.of_Z 1024) && (unit_index <? 4)
    then scale_loop fuel (Double.div size (Double.of_Z 1024)) (unit_index + 1)
    else (size, unit_index).
Proof. reflexivity. Qed.

(** The loop divides [k] times, [k] at most the fuel and at most what is
    left up to the index 4; with fuel enough it stops because its condition
    is false. *)
Lemma scale_loop_spec (fuel : nat) : forall size unit_index,
  unit_index <= 4 ->
  exists k,
    (k <= fuel)%nat /\ unit_index + Z.of_nat k <= 4 /\
    scale_loop fuel size unit_index
    = (divided k size, unit_index + Z.of_nat k) /\
    (4 - unit_index <= Z.of_nat fuel ->
     Double.ge (divided k size) (Double.of_Z 1024)
     && (unit_index + Z.of_nat k <? 4) = false).
Proof.
  induction fuel as [|fuel IH]; intros size unit_index Hi; cbn [scale_loop].
  - exists 0%nat. rewrite Z.add_0_r. repeat split; try lia.
    all: intros H; replace unit_index with 4 by lia; apply andb_false_r.
  - destruct (Double.ge size (Double.of_Z 1024) && (unit_index <? 4)) eqn:E.
    + apply andb_prop in E. destruct E as [_ E]. apply Z.ltb_lt in E.
      destruct (IH (Double.div size (Double.of_Z 1024)) (unit_index + 1)
                  ltac:(lia)) as (k & Hk & Hle & Heq & Hexit).
      exists (S k). rewrite Nat2Z.inj_succ.
      replace (unit_index + Z.succ (Z.of_nat k))
        with (unit_index + 1 + Z.of_nat k) by lia.
      unfold divided in *. rewrite Nat.iter_succ_r.
      repeat split; try lia; try assumption.
      intros H. apply Hexit. lia.
    + exists 0%nat. rewrite Z.add_0_r. repeat split; try lia.
      intros _. exact E.
Qed.

(** [%.1f] of a finite double: the digits of the integer part, a point and
    one digit. *)
Lemma print_1f_one_decimal (s : bool) (m : positive) (e : Z) :
  exists d : ascii,
    isdigit d = true /\
    print_1f (S754_finite s m e)
    = (print_sign s ++ print_ull (tenths m e / 10) ++ "."
       ++ String d EmptyString)%string.
Proof.
  cbn [print_1f].
  assert (H : 0 <= tenths m e mod 10 < 10) by (apply Z.mod_pos_bound; lia).
  set (r := tenths m e mod 10) in *.
  assert (C : r = 0 \/ r = 1 \/ r = 2 \/ r = 3 \/ r = 4 \/ r = 5 \/ r = 6
              \/ r = 7 \/ r = 8 \/ r = 9) by lia.
  clearbody r.
  repeat (destruct C as [-> | C]); try subst r;
    eexists; (split; [|reflexivity]); reflexivity.
Qed.

Lemma print_1f_finite_nonneg (x : Double.t) :
  finite_nonneg x ->
  exists (int : string) (d : ascii),
    isdigit d = true /\
    print_1f x = (int ++ "." ++ String d EmptyString)%string.
Proof.
  destruct x as [[|]| | |[|] m e]; try contradiction; intros _.
  - exists "0"%string, "0"%char. split; reflexivity.
  - destruct (print_1f_one_decimal false m e) as (d & Hd & E).
    exists (print_ull (tenths m e / 10)), d. split; [exact Hd | exact E].
Qed.

(** C9. For every [n] of [unsigned long long], [format_bytes] divides the
    double of [n] by 1024 [k] times with [k <= 4], and not at all exactly
    when [n < 1024]; when it stops with a
    value still >= 1024 the unit is TB ([k = 4]); with [k = 0] it prints [n]
    itself as an integer followed by B, otherwise the scaled value with
    [%.1f] followed by the unit of index [k]; the scaled value is finite, so
    that [%.1f] writes it with a point and one digit after it. So 0 gives
    "0 B", 1536 gives "1.5 KB", 1073741824 gives "1.0 GB", and 2^60 stays
    in TB. *)
Theorem format_bytes_spec (n : Z) (buffer_size : nat) :
  u64 n ->
  (exists k,
    (k <= 4)%nat /\
    (k = 0%nat <-> n < 1024) /\
    scale_loop 4 (Double.of_Z n) 0 = (divided k (Double.of_Z n), Z.of_nat k) /\
    finite_nonneg (divided k (Double.of_Z n)) /\
    (Double.ge (divided k (Double.of_Z n)) (Double.of_Z 1024) = true ->
     k = 4%nat) /\
    format_bytes n buffer_size
    = snprintf buffer_size
        (if (k =? 0)%nat then (print_ull n ++ " B")%string
         else (print_1f (divided k (Double.of_Z n)) ++ " "
               ++ nth k units "")%string) /\
    exists (int : string) (d : ascii),
      isdigit d = true /\
      print_1f (divided k (Double.of_Z n))
      = (int ++ "." ++ String d EmptyString)%string) /\
  format_bytes 0 32 = "0 B"%string /\
  format_bytes 1536 32 = "1.5 KB"%string /\
  format_bytes 1073741824 32 = "1.0 GB"%string /\
  format_bytes (2 ^ 60) 32 = "1048576.0 TB"%string.
Proof.
  intros Hn. split; [|repeat split; vm_compute; reflexivity].
  destruct (scale_loop_spec 4 (Double.of_Z n) 0 ltac:(lia))
    as (k & Hk & Hle & Heq & Hexit).
  rewrite Z.add_0_l in *. specialize (Hexit ltac:(lia)).
  exists k. split; [exact Hk|].
  split.
  { pose proof Heq as Hfirst. rewrite scale_loop_step in Hfirst.
    rewrite (of_Z_ge_1024 n Hn) in Hfirst.
    destruct (Z.leb_spec 1024 n) as [Hge|Hlt]; cbn [andb Z.ltb Z.compare] in Hfirst.
    - destruct (scale_loop_spec 3 (Double.div (Double.of_Z n) (Double.of_Z 1024))
                  (0 + 1) ltac:(lia)) as (k' & _ & _ & Heq' & _).
      rewrite Heq' in Hfirst.
      apply (f_equal snd) in Hfirst. cbn [snd] in Hfirst. lia.
    - apply (f_equal snd) in Hfirst. cbn [snd] in Hfirst. lia. }
  split; [exact Heq|].
  pose proof (divided_of_Z_finite k n Hn Hk) as Hfin.
  split; [exact Hfin|].
  split; [|split].
  - intros Hge. rewrite Hge in Hexit. cbn [andb] in Hexit.
    apply Z.ltb_ge in Hexit. lia.
  - unfold format_bytes. rewrite Heq.
    destruct k as [|k']; [reflexivity|].
    replace (Z.of_nat (S k') =? 0) with false by (symmetry; apply Z.eqb_neq; lia).
    rewrite Nat2Z.id. reflexivity.
  - apply print_1f_finite_nonneg. exact Hfin.
Qed.

Lemma format_bytes_spec_witness :
  u64 1536 /\ format_bytes 1536 32 = "1.5 KB"%string.
Proof.
  assert (H : u64 1536) by (unfold u64; lia).
  split; [exact H|].
  exact (proj1 (proj2 (proj2 (format_bytes_spec 1536 32 H)))).
Defined.

(** * Further properties *)

(** ** Printing and scanning decimal numbers *)

Lemma of_uint_acc_value (d : Decimal.uint) : forall acc,
  Zpos (Pos.of_uint_acc d acc) = uint_value d (Zpos acc).
Proof.
  induction d; intros acc; cbn [Pos.of_uint_acc uint_value];
    try reflexivity; rewrite IHd; f_equal; lia.
Qed.

Lemma of_uint_value (d : Decimal.uint) :
  Z.of_N (Pos.of_uint d) = uint_value d 0.
Proof.
  induction d; cbn [Pos.of_uint uint_value Z.of_N];
    try reflexivity; try exact IHd; apply of_uint_acc_value.
Qed.

Lemma scan_digits_uint (d : Decimal.uint) (rest : string) : forall acc,
  no_digit_ahead rest = true ->
  scan_digits (NilEmpty.string_of_uint d ++ rest) acc = (uint_value d acc, rest).
Proof.
  induction d; intros acc Hrest;
    cbn [NilEmpty.string_of_uint uint_value String.append];
    try (cbn [scan_digits];
         match goal with
         | |- context [isdigit ?c] => change (isdigit c) with true
         end;
         cbn iota; rewrite IHd by assumption; reflexivity).
  destruct rest as [|c r]; [reflexivity|].
  cbn [scan_digits]. cbn [no_digit_ahead] in Hrest.
  apply negb_true_iff in Hrest. rewrite Hrest. reflexivity.
Qed.

Lemma to_uint_not_nil (n : N) : N.to_uint n <> Decimal.Nil.
Proof.
  destruct n as [|p]; [discriminate|]. apply DecimalPos.Unsigned.to_uint_nonnil.
Qed.

(** [%llu] as the concatenation of the digits. *)
Lemma print_ull_digits (n : Z) :
  print_ull n = NilEmpty.string_of_uint (N.to_uint (Z.to_N n)).
Proof.
  unfold print_ull, NilZero.string_of_uint.
  pose proof (to_uint_not_nil (Z.to_N n)) as H.
  destruct (N.to_uint (Z.to_N n)); try reflexivity. contradiction.
Qed.

(** Scanning the digits [%llu] printed gives the number back. *)
Lemma scan_digits_print_ull (n : Z) (rest : string) :
  0 <= n -> no_digit_ahead rest = true ->
  scan_digits (print_ull n ++ rest) 0 = (n, rest).
Proof.
  intros Hn Hrest. rewrite print_ull_digits, scan_digits_uint by assumption.
  f_equal. rewrite <- of_uint_value.
  change (Pos.of_uint (N.to_uint (Z.to_N n)))
    with (N.of_uint (N.to_uint (Z.to_N n))).
  rewrite DecimalN.Unsigned.of_to. apply Z2N.id. exact Hn.
Qed.

(** What [%llu] prints starts with a digit. *)
Lemma print_ull_starts_with_digit (n : Z) :
  exists c s, print_ull n = String c s /\ isdigit c = true.
Proof.
  rewrite print_ull_digits.
  pose proof (to_uint_not_nil (Z.to_N n)) as H.
  destruct (N.to_uint (Z.to_N n)); try contradiction;
    cbn [NilEmpty.string_of_uint]; eexists; eexists; split; reflexivity.
Qed.

Lemma string_of_uint_length (d : Decimal.uint) :
  String.length (NilEmpty.string_of_uint d) = Decimal.nb_digits d.
Proof.
  induction d; cbn [NilEmpty.string_of_uint String.length Decimal.nb_digits];
    congruence.
Qed.

Lemma double_digits (d : Decimal.uint) :
  (Decimal.nb_digits (Decimal.Little.double d) <= S (Decimal.nb_digits d))%nat /\
  (Decimal.nb_digits (Decimal.Little.succ_double d)
   <= S (Decimal.nb_digits d))%nat.
Proof.
  induction d as [|d [IH1 IH2]|d [IH1 IH2]|d [IH1 IH2]|d [IH1 IH2]
                  |d [IH1 IH2]|d [IH1 IH2]|d [IH1 IH2]|d [IH1 IH2]
                  |d [IH1 IH2]|d [IH1 IH2]];
    cbn [Decimal.Little.double Decimal.Little.succ_double Decimal.nb_digits];
    split; lia.
Qed.

Lemma to_little_uint_digits (p : positive) :
  (Decimal.nb_digits (Pos.to_little_uint p) <= Pos.to_nat (digits2_pos p))%nat.
Proof.
  induction p as [p IH|p IH|]; cbn [Pos.to_little_uint digits2_pos].
  - destruct (double_digits (Pos.to_little_uint p)) as [_ H]. lia.
  - destruct (double_digits (Pos.to_little_uint p)) as [H _]. lia.
  - cbn. lia.
Qed.

(** An [unsigned long long] prints in at most 64 characters (20 indeed). *)
Lemma print_ull_length (n : Z) :
  u64 n -> (String.length (print_ull n) <= 64)%nat.
Proof.
  intros Hn. unfold u64 in Hn.
  rewrite print_ull_digits, string_of_uint_length.
  destruct n as [|p|p]; [cbn; lia | | lia].
  cbn [Z.to_N N.to_uint]. unfold Pos.to_uint.
  rewrite DecimalFacts.nb_digits_rev.
  pose proof (to_little_uint_digits p) as H.
  pose proof (Zdigits2_bound (Zpos p) 64 ltac:(lia) ltac:(lia)) as Hd.
  cbn [Zdigits2] in Hd. lia.
Qed.

Lemma skip_space_blanks (k : nat) (s : string) :
  skip_space (blanks k ++ s) = skip_space s.
Proof. induction k as [|k IH]; [reflexivity | exact IH]. Qed.

(** A text that starts with a digit is converted by [%llu] from there. *)
Lemma scan_ull_at_digit (c : ascii) (s : string) :
  isdigit c = true ->
  scan_ull (String c s)
  = Some (if ULLONG_MAX <? fst (scan_digits (String c s) 0) then ULLONG_MAX
          else fst (scan_digits (String c s) 0),
          snd (scan_digits (String c s) 0)).
Proof.
  intros Hc.
  destruct c as [[|] [|] [|] [|] [|] [|] [|] [|]]; try discriminate Hc;
    unfold scan_ull; cbn [skip_space];
    match goal with
    | |- context [isspace ?c] => change (isspace c) with false
    end;
    cbv beta iota;
    match goal with
    | |- context [isdigit ?c] => change (isdigit c) with true
    end;
    cbv beta iota;
    match goal with
    | |- context [scan_digits ?t 0] => destruct (scan_digits t 0) as [v r]
    end; reflexivity.
Qed.

(** [%llu] reads back what [%llu] printed, after any number of spaces. *)
Lemma scan_ull_print_ull (k : nat) (n : Z) (rest : string) :
  u64 n -> no_digit_ahead rest = true ->
  scan_ull (blanks k ++ print_ull n ++ rest) = Some (n, rest).
Proof.
  intros Hn Hrest. unfold u64 in Hn.
  assert (Hskip : forall s, scan_ull (blanks k ++ s) = scan_ull s).
  { intros s. unfold scan_ull. rewrite skip_space_blanks. reflexivity. }
  rewrite Hskip.
  destruct (print_ull_starts_with_digit n) as (c & s & E & Hc).
  pose proof (scan_digits_print_ull n rest ltac:(lia) Hrest) as Hscan.
  rewrite E in *. cbn [String.append] in *.
  rewrite (scan_ull_at_digit c (s ++ rest) Hc), Hscan. cbn [fst snd].
  replace (ULLONG_MAX <? n) with false
    by (symmetry; apply Z.ltb_ge; unfold ULLONG_MAX; lia).
  reflexivity.
Qed.

(** ** Reading lines *)

Lemma append_length (a b : string) :
  String.length (a ++ b) = (String.length a + String.length b)%nat.
Proof. induction a as [|c a IH]; cbn; [reflexivity | now rewrite IH]. Qed.

Lemma append_assoc (a b c : string) : ((a ++ b) ++ c = a ++ (b ++ c))%string.
Proof. induction a as [|x a IH]; cbn; [reflexivity | now rewrite IH]. Qed.

Lemma fgets_chars_line (l rest : string) : forall n,
  no_newline l = true -> (String.length l < n)%nat ->
  fgets_chars n (l ++ String newline rest) = (with_newline l, rest).
Proof.
  induction l as [|c l IH]; intros n Hnl Hlen.
  - destruct n as [|n]; [cbn in Hlen; lia|].
    cbn [String.append fgets_chars]. rewrite Ascii.eqb_refl. reflexivity.
  - destruct n as [|n]; [cbn in Hlen; lia|].
    cbn [no_newline] in Hnl. apply andb_prop in Hnl. destruct Hnl as [Hc Hl].
    apply negb_true_iff in Hc.
    cbn [String.append fgets_chars]. rewrite Hc.
    rewrite IH by (try assumption; cbn in Hlen; lia). reflexivity.
Qed.

(** A line that fits the buffer is delivered whole, with its newline. *)
Lemma fgets_line (l rest : string) :
  fits_line_buffer l ->
  fgets MAX_LINE_LENGTH (l ++ String newline rest)
  = Some (with_newline l, rest).
Proof.
  intros [Hnl Hlen]. unfold fgets.
  assert (E : fgets_chars (MAX_LINE_LENGTH - 1) (l ++ String newline rest)
              = (with_newline l, rest)).
  { apply fgets_chars_line; [exact Hnl|].
    change (MAX_LINE_LENGTH - 1)%nat with (S (MAX_LINE_LENGTH - 2)). lia. }
  destruct (l ++ String newline rest)%string eqn:Et.
  - destruct l; discriminate Et.
  - exact (f_equal Some E).
Qed.

(** The lines of a text whose lines fit the buffer are its lines. *)
Lemma file_lines_text_of_lines (lines : list string) :
  Forall fits_line_buffer lines ->
  file_lines (text_of_lines lines) = map with_newline lines.
Proof.
  induction 1 as [|l ls Hl Hls IH]; [reflexivity|].
  unfold file_lines. cbn [text_of_lines fold_right map].
  fold (text_of_lines ls).
  rewrite append_length. cbn [String.length].
  rewrite Nat.add_succ_r. cbn [read_lines].
  rewrite (fgets_line l (text_of_lines ls) Hl). f_equal.
  rewrite <- IH. apply file_lines_fuel. lia.
Qed.

(** ** Reading a well-formed /proc/stat line *)

Lemma cpu_fields_no_digit_ahead (vals : list Z) (rest : string) :
  no_digit_ahead rest = true ->
  no_digit_ahead (cpu_fields vals ++ rest) = true.
Proof. destruct vals; intros H; [exact H | reflexivity]. Qed.

Lemma cpu_fields_length (vals : list Z) :
  Forall u64 vals ->
  (String.length (cpu_fields vals) <= 65 * List.length vals)%nat.
Proof.
  induction 1 as [|v vs Hv Hvs IH]; [cbn; lia|].
  cbn [cpu_fields fold_right String.length List.length].
  fold (cpu_fields vs). rewrite append_length.
  pose proof (print_ull_length v Hv). lia.
Qed.

Lemma print_ull_no_newline (n : Z) : no_newline (print_ull n) = true.
Proof.
  rewrite print_ull_digits.
  induction (N.to_uint (Z.to_N n)); cbn [NilEmpty.string_of_uint no_newline];
    try reflexivity; exact IHu.
Qed.

Lemma no_newline_append (a b : string) :
  no_newline a = true -> no_newline b = true -> no_newline (a ++ b) = true.
Proof.
  induction a as [|c a IH]; intros Ha Hb; [exact Hb|].
  cbn [no_newline String.append] in *. apply andb_prop in Ha.
  destruct Ha as [Hc Ha]. rewrite Hc. cbn [andb]. apply IH; assumption.
Qed.

Lemma cpu_fields_no_newline (vals : list Z) : no_newline (cpu_fields vals) = true.
Proof.
  induction vals as [|v vs IH]; [reflexivity|].
  cbn [cpu_fields fold_right]. fold (cpu_fields vs).
  cbn [no_newline]. change (negb (Ascii.eqb " " newline)) with true.
  cbn [andb]. apply no_newline_append; [apply print_ull_no_newline | exact IH].
Qed.

(** The conversions of the fields of a line stop at the end of the line. *)
Lemma scan_ulls_cpu_fields (vals : list Z) : forall n,
  Forall u64 vals ->
  scan_ulls n (cpu_fields vals ++ String newline EmptyString) = firstn n vals.
Proof.
  induction vals as [|v vs IH]; intros n Hvals.
  - destruct n; reflexivity.
  - destruct n as [|n]; [reflexivity|].
    inversion Hvals as [|? ? Hv Hvs]; subst.
    cbn [cpu_fields fold_right]. fold (cpu_fields vs).
    cbn [scan_ulls firstn].
    replace (String " " (print_ull v ++ cpu_fields vs) ++ String newline "")%string
      with (blanks 1 ++ print_ull v
            ++ (cpu_fields vs ++ String newline ""))%string
      by (cbn [blanks String.append]; now rewrite append_assoc).
    rewrite (scan_ull_print_ull 1 v _ Hv
               (cpu_fields_no_digit_ahead vs (String newline "") eq_refl)).
    f_equal. apply IH. exact Hvs.
Qed.

Lemma sscanf_cpu_line (vals : list Z) :
  Forall u64 vals ->
  sscanf_cpu (with_newline (cpu_line vals)) = firstn 8 vals.
Proof.
  intros H. unfold sscanf_cpu, with_newline, cpu_line.
  change (match_literal "cpu" (("cpu" ++ cpu_fields vals) ++ String newline ""))
    with (Some (cpu_fields vals ++ String newline "")%string).
  apply scan_ulls_cpu_fields. exact H.
Qed.

Lemma cpu_line_fits (vals : list Z) :
  Forall u64 vals -> (List.length vals <= 10)%nat ->
  fits_line_buffer (cpu_line vals).
Proof.
  intros Hv Hlen. split.
  - unfold cpu_line. apply (cpu_fields_no_newline vals).
  - unfold cpu_line. cbn [String.append String.length].
    pose proof (cpu_fields_length vals Hv).
    change (MAX_LINE_LENGTH - 2)%nat with 1022%nat. lia.
Qed.

(** ** CPU sampler: results and fields *)

Lemma scan_ulls_length (n : nat) : forall s,
  (List.length (scan_ulls n s) <= n)%nat.
Proof.
  induction n as [|n IH]; intros s; cbn [scan_ulls]; [cbn; lia|].
  destruct (scan_ull s) as [[v r]|]; cbn [List.length]; [|lia].
  specialize (IH r). lia.
Qed.

Lemma sscanf_cpu_length (line : string) :
  (List.length (sscanf_cpu line) <= 8)%nat.
Proof.
  unfold sscanf_cpu. destruct (match_literal "cpu" line);
    [apply scan_ulls_length | cbn; lia].
Qed.

(** X1. [read_cpu_stats] returns 0 or -1; it returns 0 exactly when the
    source opens, has a first line, and at least four fields of that line
    are converted. When there is no line to read (the source does not open,
    or is empty) it returns -1 and leaves the whole state, history
    included, as it was. *)
Theorem read_cpu_stats_result (src : source) (stats : cpu_stats_t) :
  (fst (read_cpu_stats src stats) = 0 \/ fst (read_cpu_stats src stats) = -1) /\
  (fst (read_cpu_stats src stats) = 0 <->
   exists text line rest,
     src = Content text /\
     fgets MAX_LINE_LENGTH text = Some (line, rest) /\
     (4 <= List.length (sscanf_cpu line))%nat) /\
  (src = Unopenable \/ src = Content "" ->
   read_cpu_stats src stats = (-1, stats)).
Proof.
  split; [|split].
  - destruct src as [|text]; cbn [read_cpu_stats fst]; [right; reflexivity|].
    destruct (fgets MAX_LINE_LENGTH text) as [[line rest]|];
      [|right; reflexivity].
    destruct (Z.of_nat (List.length (sscanf_cpu line)) <? 4);
      [right | left]; reflexivity.
  - split.
    + destruct src as [|text]; cbn [read_cpu_stats fst]; [discriminate|].
      destruct (fgets MAX_LINE_LENGTH text) as [[line rest]|] eqn:E;
        [|discriminate].
      destruct (Z.ltb_spec (Z.of_nat (List.length (sscanf_cpu line))) 4);
        [discriminate|].
      intros _. exists text, line, rest.
      split; [reflexivity|]. split; [exact E | lia].
    + intros (text & line & rest & -> & E & Hlen).
      rewrite (read_cpu_stats_line _ _ _ _ E). cbn [fst].
      destruct (Z.ltb_spec (Z.of_nat (List.length (sscanf_cpu line))) 4);
        [lia | reflexivity].
  - intros [-> | ->]; reflexivity.
Qed.

(** X2. After a read that got a line, the current fields whose conversion
    took place hold the values converted, and the others hold what they
    held before the call: a line with fewer than eight fields does not set
    the missing counters to 0. At most eight fields are converted. *)
Theorem read_cpu_stats_unconverted_fields_kept
    (text line rest : string) (stats : cpu_stats_t) :
  fgets MAX_LINE_LENGTH text = Some (line, rest) ->
  let vals := sscanf_cpu line in
  let stats' := snd (read_cpu_stats (Content text) stats) in
  (List.length vals <= 8)%nat /\
  forall i, (i < 8)%nat ->
    nth i (curr_fields stats') 0
    = if (i <? List.length vals)%nat then nth i vals 0
      else nth i (curr_fields stats) 0.
Proof.
  intros H. cbv zeta. rewrite (read_cpu_stats_line _ _ _ _ H). cbn [snd].
  split; [apply sscanf_cpu_length|].
  intros i Hi. unfold curr_fields, parse_current, store_previous.
  cbn [user nice system idle iowait irq softirq steal].
  do 8 (destruct i as [|i]; [cbn [nth]; apply assigned_spec|]). lia.
Qed.

Lemma read_cpu_stats_unconverted_fields_kept_witness :
  fgets MAX_LINE_LENGTH "cpu 1 2 3 4" = Some ("cpu 1 2 3 4", "")%string /\
  nth 4 (curr_fields
           (snd (read_cpu_stats (Content "cpu 1 2 3 4") history_sample))) 0
  = nth 4 (curr_fields history_sample) 0.
Proof.
  split; [reflexivity|].
  exact (proj2 (read_cpu_stats_unconverted_fields_kept
                  "cpu 1 2 3 4" "cpu 1 2 3 4" "" history_sample eq_refl)
               4%nat ltac:(lia)).
Defined.

Lemma curr_fields_parse_current (vals : list Z) (s : cpu_stats_t) :
  (8 <= List.length vals)%nat ->
  curr_fields (parse_current vals s) = firstn 8 vals.
Proof.
  intros H. unfold curr_fields, parse_current, assigned.
  cbn [user nice system idle iowait irq softirq steal].
  do 8 (destruct vals as [|? vals]; [cbn in H; lia|]). reflexivity.
Qed.

Lemma firstn_firstn_8 (vals : list Z) : firstn 8 (firstn 8 vals) = firstn 8 vals.
Proof. rewrite firstn_firstn. reflexivity. Qed.

Lemma read_cpu_stats_cpu_line (vals : list Z) (more : string)
    (stats : cpu_stats_t) :
  Forall u64 vals -> (List.length vals <= 10)%nat ->
  read_cpu_stats (Content (cpu_line vals ++ String newline more)) stats
  = (if (List.length vals <? 4)%nat then -1 else 0,
     parse_current (firstn 8 vals) (store_previous stats)).
Proof.
  intros Hv Hlen.
  rewrite (read_cpu_stats_line _ _ _ _
             (fgets_line _ more (cpu_line_fits vals Hv Hlen))).
  rewrite (sscanf_cpu_line vals Hv). f_equal.
  rewrite length_firstn.
  destruct (Nat.ltb_spec (List.length vals) 4);
    destruct (Z.ltb_spec (Z.of_nat (Nat.min 8 (List.length vals))) 4);
    try reflexivity; lia.
Qed.

(** X3. Reading a source whose first line is the aggregate line of
    /proc/stat for up to ten counters of 64 bits: the read succeeds exactly
    when the line has at least four counters; with eight or more, the eight
    current fields are the first eight counters of the line, and the
    history is the current fields held before. *)
Theorem read_cpu_stats_well_formed_line
    (vals : list Z) (more : string) (stats : cpu_stats_t) :
  Forall u64 vals -> (List.length vals <= 10)%nat ->
  let r := read_cpu_stats (Content (cpu_line vals ++ String newline more)) stats in
  (fst r = 0 <-> (4 <= List.length vals)%nat) /\
  prev_fields (snd r) = curr_fields stats /\
  ((8 <= List.length vals)%nat -> curr_fields (snd r) = firstn 8 vals).
Proof.
  intros Hv Hlen. cbv zeta. rewrite (read_cpu_stats_cpu_line vals more stats Hv Hlen).
  cbn [fst snd]. split; [|split].
  - destruct (Nat.ltb_spec (List.length vals) 4); split; intros;
      try lia; try reflexivity; discriminate.
  - reflexivity.
  - intros H8. rewrite curr_fields_parse_current, firstn_firstn_8;
      [reflexivity|]. rewrite length_firstn. lia.
Qed.

Lemma read_cpu_stats_well_formed_line_witness :
  Forall u64 [1; 2; 3; 4; 5; 6; 7; 8; 9; 10] /\
  curr_fields
    (snd (read_cpu_stats
            (Content (cpu_line [1; 2; 3; 4; 5; 6; 7; 8; 9; 10]
                      ++ String newline "cpu0 1 1 1 1"))
            cpu_stats_init))
  = [1; 2; 3; 4; 5; 6; 7; 8].
Proof.
  assert (H : Forall u64 [1; 2; 3; 4; 5; 6; 7; 8; 9; 10])
    by (repeat constructor; unfold u64; lia).
  split; [exact H|].
  exact (proj2 (proj2 (read_cpu_stats_well_formed_line
                         [1; 2; 3; 4; 5; 6; 7; 8; 9; 10] "cpu0 1 1 1 1"
                         cpu_stats_init H ltac:(cbn; lia)))
               ltac:(cbn; lia)).
Defined.

(** X4. The read before the loop and the first read of the loop, on two
    well-formed aggregate lines: the first read of the loop leaves the
    counters of its own line as the current fields and those of the line
    read before the loop as the history. When the source could not be
    opened before the loop, which [main] does not check, the history is the
    current fields the monitor started with. *)
Theorem warm_up_then_read
    (config : config_t) (w1 w2 : world) (m : monitor)
    (v1 v2 : list Z) (more1 more2 : string) :
  show_cpu config = true ->
  proc_stat w2 = Content (cpu_line v2 ++ String newline more2) ->
  Forall u64 v2 -> (8 <= List.length v2 <= 10)%nat ->
  let s := snd (read_cpu_stats (proc_stat w2)
                               (cpu_stats (warm_up config w1 m))) in
  curr_fields s = firstn 8 v2 /\
  (proc_stat w1 = Content (cpu_line v1 ++ String newline more1) ->
   Forall u64 v1 -> (8 <= List.length v1 <= 10)%nat ->
   prev_fields s = firstn 8 v1) /\
  (proc_stat w1 = Unopenable -> prev_fields s = curr_fields (cpu_stats m)).
Proof.
  intros Hc E2 Hv2 Hl2. cbv zeta. unfold warm_up. rewrite Hc, E2.
  cbn [cpu_stats].
  rewrite (read_cpu_stats_cpu_line v2 more2 _ Hv2 ltac:(lia)). cbn [snd].
  split; [|split].
  - rewrite curr_fields_parse_current, firstn_firstn_8; [reflexivity|].
    rewrite length_firstn. lia.
  - intros E1 Hv1 Hl1. rewrite E1.
    rewrite (read_cpu_stats_cpu_line v1 more1 _ Hv1 ltac:(lia)). cbn [snd].
    change (prev_fields (parse_current (firstn 8 v2) (store_previous
              (parse_current (firstn 8 v1) (store_previous (cpu_stats m))))))
      with (curr_fields (parse_current (firstn 8 v1)
                                       (store_previous (cpu_stats m)))).
    rewrite curr_fields_parse_current, firstn_firstn_8; [reflexivity|].
    rewrite length_firstn. lia.
  - intros E1. rewrite E1. reflexivity.
Qed.

Lemma warm_up_then_read_witness :
  let s := snd (read_cpu_stats
                  (proc_stat (cpu_world
                     (cpu_line [8; 0; 6; 106; 0; 0; 0; 0] ++ String newline "")))
                  (cpu_stats (warm_up all_metrics
                     (cpu_world
                        (cpu_line [5; 0; 5; 100; 0; 0; 0; 0] ++ String newline ""))
                     fresh_monitor))) in
  curr_fields s = [8; 0; 6; 106; 0; 0; 0; 0] /\
  prev_fields s = [5; 0; 5; 100; 0; 0; 0; 0].
Proof.
  assert (H1 : Forall u64 [5; 0; 5; 100; 0; 0; 0; 0])
    by (repeat constructor; unfold u64; lia).
  assert (H2 : Forall u64 [8; 0; 6; 106; 0; 0; 0; 0])
    by (repeat constructor; unfold u64; lia).
  pose proof (warm_up_then_read all_metrics
                (cpu_world (cpu_line [5; 0; 5; 100; 0; 0; 0; 0] ++ String newline ""))
                (cpu_world (cpu_line [8; 0; 6; 106; 0; 0; 0; 0] ++ String newline ""))
                fresh_monitor [5; 0; 5; 100; 0; 0; 0; 0] [8; 0; 6; 106; 0; 0; 0; 0]
                "" "" eq_refl eq_refl H2 ltac:(cbn; lia)) as (Hc & Hp & _).
  split; [exact Hc|].
  exact (Hp eq_refl H1 ltac:(cbn; lia)).
Defined.

(** ** CPU usage: the two ends and the regular case *)

Lemma div_self_normal (lo hi : Z) (x : Double.t) :
  normal_in lo hi x -> Double.div x x = Double.of_Z 1.
Proof.
  destruct x as [| | |[|] m e]; try contradiction.
  intros [Hm He].
  unfold Double.div, SFdiv, SFdiv_core_binary.
  assert (Hd : Zdigits2 (Zpos m) = 53)
    by (apply Zdigits2_of_bounds; [exact Hm | lia]).
  rewrite Hd.
  replace (Z.min (fexp Double.prec Double.emax (53 + e - (53 + e))) (e - e))
    with (-53)
    by (unfold fexp, emin, Double.prec, Double.emax; lia).
  replace (e - e - -53) with 53 by lia.
  rewrite div_eucl_div_mod.
  rewrite Z.shiftl_mul_pow2 by lia.
  replace (Zpos m * 2 ^ 53) with (9007199254740992 * Zpos m)
    by (change (2 ^ 53) with 9007199254740992; ring).
  rewrite Z.div_mul, Z.mod_mul by lia.
  unfold new_location.
  destruct (Z.even (Zpos m)); vm_compute; reflexivity.
Qed.

Lemma div_zero_finite_pos (y : Double.t) :
  finite_pos y -> Double.div Double.zero y = Double.zero.
Proof. destruct y as [| | |[|] m e]; try contradiction. intros _. reflexivity. Qed.

(** X5. The two ends of the CPU usage. When ticks elapsed between the two
    samples ([total_diff] is not 0): if all of them were idle or iowait
    ticks the usage is exactly +0.0, and if none of them was the usage is
    exactly 100.0. *)
Theorem calculate_cpu_usage_ends (stats : cpu_stats_t) :
  total_diff stats <> 0 ->
  (idle_diff stats = total_diff stats ->
   calculate_cpu_usage stats = Done (set_usage_percent stats Double.zero)) /\
  (idle_diff stats = 0 ->
   calculate_cpu_usage stats
   = Done (set_usage_percent stats (Double.of_Z 100))).
Proof.
  intros Hne.
  assert (Ht : 0 <= total_diff stats < 2 ^ 64) by apply wrap64_range.
  pose proof (of_Z_finite_pos (total_diff stats) ltac:(lia)) as Hf.
  pose proof (of_Z_normal (total_diff stats) ltac:(lia)) as Hn.
  apply Z.eqb_neq in Hne.
  split; intros Hi; unfold calculate_cpu_usage; cbv zeta;
    rewrite Hne, Hi; unfold checked_div;
    rewrite (finite_pos_not_zero _ Hf); cbn [bind].
  - replace (ull_sub (total_diff stats) (total_diff stats)) with 0
      by (unfold ull_sub; rewrite Z.sub_diag; exact eq_refl).
    change (Double.of_Z 0) with Double.zero.
    rewrite (div_zero_finite_pos _ Hf). exact eq_refl.
  - replace (ull_sub (total_diff stats) 0) with (total_diff stats)
      by (unfold ull_sub; rewrite Z.sub_0_r, wrap64_small; [exact eq_refl | exact Ht]).
    rewrite (div_self_normal _ _ _ Hn). exact eq_refl.
Qed.

Lemma calculate_cpu_usage_ends_witness :
  total_diff idle_interval_sample = 10 /\
  idle_diff idle_interval_sample = 10 /\
  calculate_cpu_usage idle_interval_sample
  = Done (set_usage_percent idle_interval_sample Double.zero).
Proof.
  split; [reflexivity|]. split; [reflexivity|].
  apply (calculate_cpu_usage_ends idle_interval_sample).
  - intros H. vm_compute in H. discriminate H.
  - reflexivity.
Defined.

Lemma sum8_small (a b c d e f g h : Z) :
  0 <= a -> 0 <= b -> 0 <= c -> 0 <= d -> 0 <= e -> 0 <= f -> 0 <= g ->
  0 <= h -> a + b + c + d + e + f + g + h < 2 ^ 64 ->
  sum8 a b c d e f g h = a + b + c + d + e + f + g + h.
Proof.
  intros. unfold sum8, ull_add.
  rewrite (wrap64_small (a + b)) by (unfold u64; lia).
  rewrite (wrap64_small (a + b + c)) by (unfold u64; lia).
  rewrite (wrap64_small (a + b + c + d)) by (unfold u64; lia).
  rewrite (wrap64_small (a + b + c + d + e)) by (unfold u64; lia).
  rewrite (wrap64_small (a + b + c + d + e + f)) by (unfold u64; lia).
  rewrite (wrap64_small (a + b + c + d + e + f + g)) by (unfold u64; lia).
  apply wrap64_small. unfold u64. lia.
Qed.

(** X6. The regular case of the CPU usage: when no counter went back
    between the two samples and the current total fits 64 bits, no
    subtraction wraps; [total_diff] is the ticks elapsed, [idle_diff] the
    idle and iowait ticks, what is divided is the busy ticks (user, nice,
    system, irq, softirq and steal) over the ticks elapsed, and the usage is
    that share, clamped. *)
Theorem calculate_cpu_usage_advancing (s : cpu_stats_t) :
  advancing s ->
  total_diff s = elapsed_delta s /\
  idle_diff s = (idle s - prev_idle s) + (iowait s - prev_iowait s) /\
  ull_sub (total_diff s) (idle_diff s) = busy_delta s /\
  0 <= busy_delta s <= elapsed_delta s /\
  (elapsed_delta s <> 0 ->
   calculate_cpu_usage s
   = Done (set_usage_percent s
             (clamp_percent
                (share (busy_delta s) (Double.of_Z (elapsed_delta s)))))).
Proof.
  intros (Hu & Hn & Hs & Hi & Hw & Hq & Hf & Ht & Hsum).
  assert (Et : total_diff s = elapsed_delta s).
  { unfold total_diff, curr_total, prev_total.
    rewrite !sum8_small by lia.
    unfold ull_sub, elapsed_delta, busy_delta.
    rewrite wrap64_small; unfold u64; lia. }
  assert (Ei : idle_diff s = (idle s - prev_idle s) + (iowait s - prev_iowait s)).
  { unfold idle_diff, ull_add, ull_sub.
    rewrite (wrap64_small (idle s + iowait s)) by (unfold u64; lia).
    rewrite (wrap64_small (prev_idle s + prev_iowait s)) by (unfold u64; lia).
    rewrite wrap64_small; unfold u64; lia. }
  assert (Eb : ull_sub (total_diff s) (idle_diff s) = busy_delta s).
  { rewrite Et, Ei. unfold ull_sub, elapsed_delta.
    rewrite wrap64_small; unfold u64, busy_delta; lia. }
  split; [exact Et|]. split; [exact Ei|]. split; [exact Eb|].
  split; [unfold elapsed_delta, busy_delta; lia|].
  intros Hne.
  assert (Hr : 0 < elapsed_delta s < 2 ^ 64)
    by (unfold elapsed_delta, busy_delta in *; lia).
  unfold calculate_cpu_usage. cbv zeta. rewrite Eb, Et.
  apply Z.eqb_neq in Hne. rewrite Hne. unfold checked_div.
  rewrite (finite_pos_not_zero _ (of_Z_finite_pos (elapsed_delta s) Hr)).
  exact eq_refl.
Qed.

Lemma calculate_cpu_usage_advancing_witness :
  advancing advancing_sample /\
  busy_delta advancing_sample = 4 /\ elapsed_delta advancing_sample = 10 /\
  calculate_cpu_usage advancing_sample
  = Done (set_usage_percent advancing_sample (Double.of_Z 40)).
Proof.
  assert (H : advancing advancing_sample)
    by (unfold advancing; cbn; lia).
  split; [exact H|]. split; [reflexivity|]. split; [reflexivity|].
  rewrite (proj2 (proj2 (proj2 (proj2
             (calculate_cpu_usage_advancing advancing_sample H))))
             ltac:(intros E; vm_compute in E; discriminate E)).
  vm_compute. reflexivity.
Defined.

(** ** Memory sampler: a well-formed source *)

Lemma scan_word_key (key : string) (c : ascii) (rest : string) : forall n,
  no_space key = true -> (String.length key <= n)%nat -> isspace c = true ->
  scan_word n (key ++ String c rest) = (key, String c rest).
Proof.
  induction key as [|a key IH]; intros n Hk Hn Hc.
  - cbn [String.append]. destruct n; cbn [scan_word]; [reflexivity|].
    rewrite Hc. reflexivity.
  - cbn [no_space] in Hk. apply andb_prop in Hk. destruct Hk as [Ha Hk].
    destruct n as [|n]; [cbn in Hn; lia|].
    cbn [String.append scan_word].
    apply negb_true_iff in Ha. rewrite Ha.
    rewrite (IH n Hk ltac:(cbn in Hn; lia) Hc). reflexivity.
Qed.

Lemma skip_space_key (key s : string) :
  key <> EmptyString -> no_space key = true ->
  skip_space (key ++ s) = (key ++ s)%string.
Proof.
  destruct key as [|a key]; [congruence|]. intros _ Hk.
  cbn [no_space] in Hk. apply andb_prop in Hk. destruct Hk as [Ha _].
  apply negb_true_iff in Ha. cbn [String.append skip_space]. rewrite Ha.
  reflexivity.
Qed.

Lemma no_digit_ahead_newline (s : string) :
  no_digit_ahead s = true ->
  no_digit_ahead (s ++ String newline EmptyString) = true.
Proof. destruct s; [reflexivity | exact (fun H => H)]. Qed.

Lemma sscanf_meminfo_entry (e : meminfo_entry) :
  entry_ok e ->
  sscanf_meminfo (with_newline (entry_line e))
  = Some (entry_key e, entry_value e).
Proof.
  intros (Hne & Hk & Hl & _ & Hv & Ht & _).
  unfold sscanf_meminfo, with_newline, entry_line.
  rewrite !append_assoc. cbn [blanks String.append].
  rewrite (skip_space_key _ _ Hne Hk).
  rewrite (scan_word_key _ " "%char _ 63 Hk Hl eq_refl).
  destruct (entry_key e) as [|a key] eqn:Ek; [congruence|].
  change (String " " (blanks (entry_pad e) ++ print_ull (entry_value e)
                        ++ entry_tail e ++ String newline ""))%string
    with (blanks (S (entry_pad e)) ++ print_ull (entry_value e)
            ++ (entry_tail e ++ String newline ""))%string.
  rewrite (scan_ull_print_ull _ _ _ Hv (no_digit_ahead_newline _ Ht)).
  reflexivity.
Qed.

Lemma no_space_no_newline (s : string) :
  no_space s = true -> no_newline s = true.
Proof.
  induction s as [|c s IH]; [reflexivity|]. cbn [no_space no_newline].
  intros H. apply andb_prop in H. destruct H as [Hc Hs].
  rewrite (IH Hs), andb_true_r.
  destruct (Ascii.eqb_spec c newline) as [->|]; [discriminate Hc | reflexivity].
Qed.

Lemma blanks_no_newline (k : nat) : no_newline (blanks k) = true.
Proof. induction k as [|k IH]; [reflexivity | exact IH]. Qed.

Lemma blanks_length (k : nat) : String.length (blanks k) = k.
Proof. induction k as [|k IH]; [reflexivity | cbn; now rewrite IH]. Qed.

Lemma entry_line_fits (e : meminfo_entry) :
  entry_ok e -> fits_line_buffer (entry_line e).
Proof.
  intros (_ & Hk & Hl & Hp & Hv & _ & Ht & Hlt).
  unfold fits_line_buffer, entry_line. split.
  - repeat apply no_newline_append;
      [apply no_space_no_newline; exact Hk | apply blanks_no_newline
      | apply print_ull_no_newline | exact Ht].
  - rewrite !append_length, blanks_length.
    pose proof (print_ull_length _ Hv). unfold MAX_LINE_LENGTH. lia.
Qed.

Lemma meminfo_line_entry (s : memory_stats_t) (e : meminfo_entry) :
  entry_ok e ->
  let k := entry_key e in
  let v := entry_value e in
  let s' := meminfo_line s (with_newline (entry_line e)) in
  Mem.total s' = (if String.eqb k "MemTotal:" then v else Mem.total s) /\
  Mem.available s'
  = (if String.eqb k "MemAvailable:" then v else Mem.available s) /\
  Mem.free s' = (if String.eqb k "MemFree:" then v else Mem.free s) /\
  Mem.buffers s' = (if String.eqb k "Buffers:" then v else Mem.buffers s) /\
  Mem.cached s' = (if String.eqb k "Cached:" then v else Mem.cached s).
Proof.
  intros He. cbv zeta. unfold meminfo_line.
  rewrite (sscanf_meminfo_entry e He).
  destruct (String.eqb_spec (entry_key e) "MemTotal:") as [E|_];
    [try rewrite E; repeat split|].
  destruct (String.eqb_spec (entry_key e) "MemAvailable:") as [E|_];
    [try rewrite E; repeat split|].
  destruct (String.eqb_spec (entry_key e) "MemFree:") as [E|_];
    [try rewrite E; repeat split|].
  destruct (String.eqb_spec (entry_key e) "Buffers:") as [E|_];
    [try rewrite E; repeat split|].
  destruct (String.eqb_spec (entry_key e) "Cached:") as [E|_];
    [try rewrite E; repeat split|].
  repeat split.
Qed.

Lemma find_snoc {A : Type} (f : A -> bool) (l : list A) (x : A) :
  find f (l ++ [x])
  = match find f l with
    | Some y => Some y
    | None => if f x then Some x else None
    end.
Proof.
  induction l as [|a l IH]; cbn [find app]; [reflexivity|].
  destruct (f a); [reflexivity | exact IH].
Qed.

Lemma last_reported_cons (key : string) (e : meminfo_entry)
    (es : list meminfo_entry) (d : Z) :
  last_reported key (e :: es) d
  = last_reported key es (if String.eqb (entry_key e) key then entry_value e
                          else d).
Proof.
  unfold last_reported. cbn [rev]. rewrite find_snoc.
  destruct (find _ (rev es)); [reflexivity|].
  destruct (String.eqb (entry_key e) key); reflexivity.
Qed.

Lemma fold_meminfo_entries (entries : list meminfo_entry) :
  Forall entry_ok entries -> forall s,
  let s' := fold_left meminfo_line
                      (map with_newline (map entry_line entries)) s in
  Mem.total s' = last_reported "MemTotal:" entries (Mem.total s) /\
  Mem.available s'
  = last_reported "MemAvailable:" entries (Mem.available s) /\
  Mem.free s' = last_reported "MemFree:" entries (Mem.free s) /\
  Mem.buffers s' = last_reported "Buffers:" entries (Mem.buffers s) /\
  Mem.cached s' = last_reported "Cached:" entries (Mem.cached s).
Proof.
  induction 1 as [|e es He Hes IH]; intros s; cbv zeta.
  - repeat split.
  - cbn [map fold_left]. rewrite !last_reported_cons.
    destruct (meminfo_line_entry s e He) as (E1 & E2 & E3 & E4 & E5).
    rewrite <- E1, <- E2, <- E3, <- E4, <- E5. apply IH.
Qed.

Lemma text_of_entries_lines (entries : list meminfo_entry) :
  Forall entry_ok entries ->
  file_lines (text_of_lines (map entry_line entries))
  = map with_newline (map entry_line entries).
Proof.
  intros H. apply file_lines_text_of_lines.
  apply Forall_map. revert H. apply Forall_impl. exact entry_line_fits.
Qed.

(** X7. Reading a memory source made of well-formed lines (key, spaces,
    figure, then anything that does not go on with a digit, the unit being
    optional): each of the five figures read is the one of the last line
    that has its key, or 0 when no line has it; the other keys are passed
    over and nothing of the figures held before the call is used. When the
    available figure is above 0, the snapshot left holds it, the total, and
    their difference modulo 2^64 as the used figure. *)
Theorem read_memory_stats_well_formed
    (entries : list meminfo_entry) (stats : memory_stats_t) :
  Forall entry_ok entries ->
  let text := text_of_lines (map entry_line entries) in
  let s := scan_meminfo text stats in
  let r := snd (read_memory_stats (Content text) stats) in
  (Mem.total s = last_reported "MemTotal:" entries 0 /\
   Mem.available s = last_reported "MemAvailable:" entries 0 /\
   Mem.free s = last_reported "MemFree:" entries 0 /\
   Mem.buffers s = last_reported "Buffers:" entries 0 /\
   Mem.cached s = last_reported "Cached:" entries 0) /\
  Mem.total r = last_reported "MemTotal:" entries 0 /\
  (0 < last_reported "MemAvailable:" entries 0 ->
   Mem.available r = last_reported "MemAvailable:" entries 0 /\
   Mem.used r = ull_sub (last_reported "MemTotal:" entries 0)
                        (last_reported "MemAvailable:" entries 0)).
Proof.
  intros H. cbv zeta.
  assert (E : Mem.total (scan_meminfo (text_of_lines (map entry_line entries)) stats)
              = last_reported "MemTotal:" entries 0 /\
              Mem.available (scan_meminfo (text_of_lines (map entry_line entries)) stats)
              = last_reported "MemAvailable:" entries 0 /\
              Mem.free (scan_meminfo (text_of_lines (map entry_line entries)) stats)
              = last_reported "MemFree:" entries 0 /\
              Mem.buffers (scan_meminfo (text_of_lines (map entry_line entries)) stats)
              = last_reported "Buffers:" entries 0 /\
              Mem.cached (scan_meminfo (text_of_lines (map entry_line entries)) stats)
              = last_reported "Cached:" entries 0).
  { unfold scan_meminfo. rewrite (text_of_entries_lines entries H).
    exact (fold_meminfo_entries entries H _). }
  split; [exact E|]. destruct E as (Et & Ea & _).
  cbn [read_memory_stats snd]. unfold derive_memory.
  rewrite Et, Ea. split.
  - destruct (last_reported "MemAvailable:" entries 0 >? 0); reflexivity.
  - intros Hpos. apply Z.gtb_lt in Hpos. rewrite Hpos. split; reflexivity.
Qed.

Lemma read_memory_stats_well_formed_witness :
  Forall entry_ok meminfo_sample /\
  let r := snd (read_memory_stats
                  (Content (text_of_lines (map entry_line meminfo_sample)))
                  stale_memory) in
  Mem.total r = 16384 /\ Mem.available r = 9000 /\ Mem.used r = 7384.
Proof.
  assert (H : Forall entry_ok meminfo_sample).
  { unfold meminfo_sample.
    repeat (constructor;
            [unfold entry_ok, u64; cbn;
             repeat split; try lia; try reflexivity; discriminate|]).
    constructor. }
  split; [exact H|].
  destruct (read_memory_stats_well_formed meminfo_sample stale_memory H)
    as (_ & Et & Ea).
  split; [exact Et|]. exact (Ea ltac:(reflexivity)).
Defined.

(** ** Memory sampler: no history *)

Lemma meminfo_line_same (a b : memory_stats_t) (line : string) :
  same_figures a b -> same_figures (meminfo_line a line) (meminfo_line b line).
Proof.
  intros (H1 & H2 & H3 & H4 & H5). unfold meminfo_line, same_figures.
  destruct (sscanf_meminfo line) as [[key value]|]; [|repeat split; assumption].
  repeat (match goal with
          | |- context [String.eqb ?x ?y] => destruct (String.eqb x y)
          end; [cbn; repeat split; assumption|]).
  repeat split; assumption.
Qed.

Lemma fold_meminfo_same (lines : list string) : forall a b,
  same_figures a b ->
  same_figures (fold_left meminfo_line lines a) (fold_left meminfo_line lines b).
Proof.
  induction lines as [|l ls IH]; intros a b H; [exact H|].
  cbn [fold_left]. apply IH. apply meminfo_line_same. exact H.
Qed.

Lemma derive_memory_same (a b : memory_stats_t) :
  same_figures a b -> derive_memory a = derive_memory b.
Proof.
  destruct a, b. unfold same_figures. cbn.
  intros (-> & -> & -> & -> & ->). reflexivity.
Qed.

(** X8. The memory sampler keeps no history: a read of a source that
    opens leaves the same snapshot whatever the snapshot held before the
    call, and a read of a source that does not open leaves the snapshot as
    it was. *)
Theorem read_memory_stats_no_history
    (text : string) (s1 s2 : memory_stats_t) :
  read_memory_stats (Content text) s1 = read_memory_stats (Content text) s2 /\
  read_memory_stats Unopenable s1 = (-1, s1).
Proof.
  split; [|reflexivity]. cbn [read_memory_stats]. f_equal.
  apply derive_memory_same. unfold scan_meminfo. apply fold_meminfo_same.
  repeat split.
Qed.

(** ** Disk sampler *)

Lemma substring_0_length (n : nat) : forall s,
  String.length (String.substring 0 n s) = Nat.min n (String.length s).
Proof.
  induction n as [|n IH]; intros [|c s]; cbn; try reflexivity.
  now rewrite IH.
Qed.

Lemma substring_0_short (n : nat) : forall s,
  (String.length s <= n)%nat -> String.substring 0 n s = s.
Proof.
  induction n as [|n IH]; intros [|c s] H; cbn in *; try reflexivity; try lia.
  rewrite IH; [reflexivity | lia].
Qed.

Lemma disk_usage_range (used total : Z) :
  u64 used -> u64 total ->
  Double.in_percent_range
    (clamp_percent
       (if total >? 0
        then Double.mul (Double.div (Double.of_Z used) (Double.of_Z total))
                        (Double.of_Z 100)
        else Double.zero)) = true.
Proof.
  intros Hu Ht. unfold u64 in *. apply clamp_percent_range.
  destruct (Z.gtb_spec total 0).
  - apply percent_of_ratio_signed; lia.
  - exact eq_refl.
Qed.

(** X9. [read_disk_stats] fails exactly when [statvfs] fails, and then
    leaves the snapshot as it was. When [statvfs] answers, whatever it
    answers, it returns 0; the mount point stored is the first 255
    characters of the path (the path itself when it is not longer); the
    three sizes are 64-bit values and the usage lies in [0, 100]. *)
Theorem read_disk_stats_result
    (vfs : option statvfs_t) (path : string) (stats : disk_stats_t) :
  let r := read_disk_stats vfs path stats in
  (vfs = None -> r = (-1, stats)) /\
  (vfs <> None ->
   fst r = 0 /\
   Disk.mount_point (snd r) = String.substring 0 255 path /\
   (String.length (Disk.mount_point (snd r)) <= 255)%nat /\
   ((String.length path <= 255)%nat -> Disk.mount_point (snd r) = path) /\
   u64 (Disk.total (snd r)) /\ u64 (Disk.used (snd r)) /\
   u64 (Disk.available (snd r)) /\
   Double.in_percent_range (Disk.usage_percent (snd r)) = true).
Proof.
  cbv zeta. split; [intros ->; reflexivity|].
  destruct vfs as [v|]; [intros _ | congruence].
  unfold read_disk_stats. cbv zeta.
  cbn [fst snd Disk.mount_point Disk.total Disk.used Disk.available
       Disk.usage_percent].
  change (MAX_PATH_LENGTH - 1)%nat with 255%nat. unfold strncpy.
  split; [reflexivity|]. split; [reflexivity|].
  split; [rewrite substring_0_length; lia|].
  split; [apply substring_0_short|].
  split; [apply wrap64_range|]. split; [apply wrap64_range|].
  split; [apply wrap64_range|].
  apply disk_usage_range; apply wrap64_range.
Qed.

(** X10. On a coherent file system no product or difference wraps: the
    total is blocks times fragment size, the used figure is the blocks that
    are not free and the available figure the blocks free for unprivileged
    users, so that used lies in [0, total] and used plus available falls
    short of the total by the blocks kept for the superuser. A file system
    without any free block is shown as 100.0 percent used, one with all
    blocks free as 0.0. *)
Theorem read_disk_stats_coherent
    (v : statvfs_t) (path : string) (stats : disk_stats_t) :
  coherent v ->
  let d := snd (read_disk_stats (Some v) path stats) in
  Disk.total d = f_blocks v * f_frsize v /\
  Disk.used d = (f_blocks v - f_bfree v) * f_frsize v /\
  Disk.available d = f_bavail v * f_frsize v /\
  0 <= Disk.used d <= Disk.total d /\
  Disk.used d + Disk.available d
  = Disk.total d - (f_bfree v - f_bavail v) * f_frsize v /\
  (f_bfree v = 0 -> 0 < f_blocks v ->
   Disk.usage_percent d = Double.of_Z 100) /\
  (f_bfree v = f_blocks v -> Disk.usage_percent d = Double.zero).
Proof.
  intros (Ha & Hf & Hs & Hfit). cbv zeta.
  assert (Et : ull_mul (f_blocks v) (f_frsize v) = f_blocks v * f_frsize v)
    by (apply wrap64_small; unfold u64; nia).
  assert (Ef : ull_mul (f_bfree v) (f_frsize v) = f_bfree v * f_frsize v)
    by (apply wrap64_small; unfold u64; nia).
  assert (Eb : ull_mul (f_bavail v) (f_frsize v) = f_bavail v * f_frsize v)
    by (apply wrap64_small; unfold u64; nia).
  assert (Eu : ull_sub (f_blocks v * f_frsize v) (f_bfree v * f_frsize v)
               = (f_blocks v - f_bfree v) * f_frsize v).
  { unfold ull_sub. rewrite wrap64_small; [ring|]. unfold u64. nia. }
  unfold read_disk_stats. cbv zeta.
  cbn [snd Disk.total Disk.used Disk.available Disk.usage_percent].
  rewrite Et, Ef, Eb, Eu.
  split; [reflexivity|]. split; [reflexivity|]. split; [reflexivity|].
  split; [nia|]. split; [ring|]. split.
  - intros H0 Hb. rewrite H0, Z.sub_0_r.
    assert (Hpos : 0 < f_blocks v * f_frsize v < 2 ^ 64) by nia.
    destruct (Z.gtb_spec (f_blocks v * f_frsize v) 0); [|lia].
    rewrite (div_self_normal _ _ _ (of_Z_normal _ Hpos)). exact eq_refl.
  - intros ->. rewrite Z.sub_diag, Z.mul_0_l.
    destruct (Z.gtb_spec (f_blocks v * f_frsize v) 0); [|exact eq_refl].
    change (Double.of_Z 0) with Double.zero.
    rewrite div_zero_finite_pos; [exact eq_refl|].
    apply of_Z_finite_pos. lia.
Qed.

Lemma read_disk_stats_coherent_witness :
  coherent reserved_blocks_sample /\
  let d := snd (read_disk_stats (Some reserved_blocks_sample) "/" Disk.init) in
  Disk.total d = 4096000 /\ Disk.used d = 3276800 /\
  Disk.available d = 614400.
Proof.
  assert (H : coherent reserved_blocks_sample)
    by (unfold coherent; cbn; lia).
  split; [exact H|].
  destruct (read_disk_stats_coherent reserved_blocks_sample "/" Disk.init H)
    as (Et & Eu & Ea & _).
  split; [exact Et|]. split; [exact Eu | exact Ea].
Defined.

(** ** The polling loop *)

Lemma read_cpu_stats_usage (src : source) (stats : cpu_stats_t) :
  usage_percent (snd (read_cpu_stats src stats)) = usage_percent stats.
Proof.
  destruct src as [|text]; cbn [read_cpu_stats snd]; [reflexivity|].
  destruct (fgets MAX_LINE_LENGTH text) as [[line rest]|]; [|reflexivity].
  destruct (Z.of_nat (List.length (sscanf_cpu line)) <? 4); reflexivity.
Qed.

Lemma read_memory_stats_usage (src : source) (stats : memory_stats_t) :
  Double.in_percent_range (Mem.usage_percent stats) = true ->
  Double.in_percent_range
    (Mem.usage_percent (snd (read_memory_stats src stats))) = true.
Proof.
  intros H. destruct src as [|text]; cbn [read_memory_stats snd]; [exact H|].
  apply derive_memory_usage_range, scan_meminfo_wf.
Qed.

Lemma read_disk_stats_usage (vfs : option statvfs_t) (path : string)
    (stats : disk_stats_t) :
  Double.in_percent_range (Disk.usage_percent stats) = true ->
  Double.in_percent_range
    (Disk.usage_percent (snd (read_disk_stats vfs path stats))) = true.
Proof.
  intros H. destruct vfs as [v|]; cbn [read_disk_stats snd]; [|exact H].
  cbn [Disk.usage_percent]. apply disk_usage_range; apply wrap64_range.
Qed.

(** X11. The three percentages stay in [0, 100] from pass to pass: a pass
    that starts with them in range leaves them in range, whatever the
    sources answer and whichever sampler fails. The pass ends in [Done]:
    the division of [calculate_cpu_usage], the one this embedding
    observes, never has a zero divisor. The divisions of the details line
    of [print_system_info] have no guard, are not observed and are not
    meant here: their divisor can be 0.0. *)
Theorem loop_body_keeps_percentages
    (config : config_t) (w : world) (m : monitor) :
  percentages_in_range m ->
  exists m' events,
    loop_body config w m = Done (m', events) /\ percentages_in_range m'.
Proof.
  intros (Hc & Hm & Hd). unfold loop_body, percentages_in_range.
  destruct config as [rate sc sm sd path cont].
  cbn [show_cpu show_memory show_disk disk_path continuous refresh_rate].
  pose proof (read_cpu_stats_usage (proc_stat w) (cpu_stats m)) as Hc1.
  pose proof (read_memory_stats_usage (proc_meminfo w) _ Hm) as Hm1.
  pose proof (read_disk_stats_usage (statvfs w path) path _ Hd) as Hd1.
  destruct (read_cpu_stats (proc_stat w) (cpu_stats m)) as [rc1 c1].
  destruct (read_memory_stats (proc_meminfo w) (memory_stats m)) as [rc2 m2].
  destruct (read_disk_stats (statvfs w path) path (disk_stats m)) as [rc3 d3].
  cbn [fst snd] in *.
  destruct (calculate_cpu_usage_done c1) as (p & E & Hp).
  pose proof (clamp_percent_range p Hp) as Hp1.
  pose proof Hc as Hc2. rewrite <- Hc1 in Hc2.
  destruct sc, sm, sd, (failed rc1), (failed rc2), (failed rc3);
    cbn [andb orb negb]; try rewrite E; cbn [bind];
    (eexists; eexists; split; [reflexivity|]);
    cbn [cpu_stats memory_stats disk_stats usage_percent set_usage_percent];
    repeat split; assumption.
Qed.

Lemma loop_body_keeps_percentages_witness :
  percentages_in_range fresh_monitor /\
  exists m' events,
    loop_body all_metrics cpu_down fresh_monitor = Done (m', events) /\
    percentages_in_range m'.
Proof.
  assert (H : percentages_in_range fresh_monitor)
    by (repeat split; reflexivity).
  split; [exact H|].
  exact (loop_body_keeps_percentages all_metrics cpu_down fresh_monitor H).
Defined.

(** X12. A pass pauses, and clears the screen, exactly when the monitor is
    continuous and every enabled sampler succeeded; the pause is then the
    last thing it does and lasts the refresh rate. A pass that meets a
    failure writes one message to the standard error and ends without a
    pause, so that a continuous monitor goes to its next pass at once; a
    pass without failure writes none. *)
Theorem loop_body_pause (config : config_t) (w : world) (m : monitor) :
  exists m' events,
    loop_body config w m = Done (m', events) /\
    sleeps events = continuous config && samplers_ok config w m /\
    clears events = continuous config && samplers_ok config w m /\
    complains events = negb (samplers_ok config w m) /\
    (sleeps events = true ->
     last events ClearScreen = Sleep (refresh_rate config)) /\
    (samplers_ok config w m = false ->
     exists message, last events ClearScreen = Stderr message).
Proof.
  unfold loop_body, samplers_ok, cpu_rc, memory_rc, disk_rc.
  destruct config as [rate sc sm sd path cont].
  cbn [show_cpu show_memory show_disk disk_path continuous refresh_rate].
  destruct (read_cpu_stats (proc_stat w) (cpu_stats m)) as [rc1 c1].
  destruct (read_memory_stats (proc_meminfo w) (memory_stats m)) as [rc2 m2].
  destruct (read_disk_stats (statvfs w path) path (disk_stats m)) as [rc3 d3].
  cbn [fst snd].
  destruct (calculate_cpu_usage_done c1) as (p & E & _).
  destruct sc, sm, sd, (failed rc1), (failed rc2), (failed rc3), cont;
    cbn [andb orb negb]; try rewrite E; cbn [bind];
    (eexists; eexists; split; [reflexivity|]);
    (split; [exact eq_refl|]); (split; [exact eq_refl|]);
    (split; [exact eq_refl|]);
    (split; [intros H; first [discriminate H | exact eq_refl]|]);
    intros H; first [discriminate H | eexists; exact eq_refl].
Qed.

(** X13. A metric that is not shown is not sampled: the pass does not call
    its sampler and leaves its snapshot as it was. *)
Theorem loop_body_disabled_metric
    (config : config_t) (w : world) (m : monitor) :
  exists m' events,
    loop_body config w m = Done (m', events) /\
    (show_cpu config = false ->
     reads_cpu events = false /\ cpu_stats m' = cpu_stats m) /\
    (show_memory config = false ->
     reads_memory events = false /\ memory_stats m' = memory_stats m) /\
    (show_disk config = false ->
     reads_disk events = false /\ disk_stats m' = disk_stats m).
Proof.
  unfold loop_body.
  destruct config as [rate sc sm sd path cont].
  cbn [show_cpu show_memory show_disk disk_path continuous refresh_rate].
  destruct (read_cpu_stats (proc_stat w) (cpu_stats m)) as [rc1 c1].
  destruct (read_memory_stats (proc_meminfo w) (memory_stats m)) as [rc2 m2].
  destruct (read_disk_stats (statvfs w path) path (disk_stats m)) as [rc3 d3].
  destruct (calculate_cpu_usage_done c1) as (p & E & _).
  destruct sc, sm, sd, (failed rc1), (failed rc2), (failed rc3), cont;
    cbn [andb orb negb]; try rewrite E; cbn [bind];
    (eexists; eexists; split; [reflexivity|]);
    repeat split; first [discriminate | exact eq_refl].
Qed.

(** ** Command line *)

Lemma long_to_int_range (z : Z) : - 2 ^ 31 <= long_to_int z < 2 ^ 31.
Proof.
  unfold long_to_int.
  pose proof (Z.mod_pos_bound (z + 2 ^ 31) (2 ^ 32) ltac:(lia)). lia.
Qed.

Lemma strncpy_length (n : nat) (s : string) :
  (String.length (strncpy n s) <= n)%nat.
Proof. unfold strncpy. rewrite substring_0_length. lia. Qed.

Lemma parse_options_valid (n : nat) : forall args c c',
  (List.length args <= n)%nat ->
  valid_config c -> parse_options args c = Config c' -> valid_config c'.
Proof.
  induction n as [|n IH]; intros args c c' Hlen Hc.
  - destruct args; [|cbn in Hlen; lia]. cbn. intros H. injection H as <-. exact Hc.
  - destruct args as [|arg rest]; [cbn; intros H; injection H as <-; exact Hc|].
    cbn [List.length] in Hlen. cbn [parse_options].
    destruct Hc as (Hr & Hp & Hs).
    destruct c as [rate sc sm sd path cont].
    unfold valid_config, shown in *.
    cbn [refresh_rate show_cpu show_memory show_disk disk_path continuous] in *.
    destruct (is_option "-r" "--refresh" arg).
    { destruct rest as [|value rest']; [discriminate|].
      destruct (Z.leb_spec (atoi value) 0); [discriminate|].
      apply IH; [cbn [List.length] in Hlen; lia|].
      unfold valid_config, shown.
      cbn [refresh_rate show_cpu show_memory show_disk disk_path].
      pose proof (long_to_int_range (strtol value)). unfold atoi in *.
      repeat split; try lia; assumption. }
    destruct (is_option "-c" "--cpu" arg).
    { apply IH; [lia|]. unfold valid_config, shown.
      cbn [refresh_rate show_cpu show_memory show_disk disk_path].
      repeat split; try lia; try assumption. right. destruct sc; cbn; lia. }
    destruct (is_option "-m" "--memory" arg).
    { apply IH; [lia|]. unfold valid_config, shown.
      cbn [refresh_rate show_cpu show_memory show_disk disk_path].
      repeat split; try lia; try assumption. right. destruct sm; cbn; lia. }
    destruct (is_option "-d" "--disk" arg).
    { destruct rest as [|p rest']; [discriminate|].
      apply IH; [cbn [List.length] in Hlen; lia|]. unfold valid_config, shown.
      cbn [refresh_rate show_cpu show_memory show_disk disk_path].
      split; [lia|]. split; [apply strncpy_length|].
      right. destruct sd; cbn; lia. }
    destruct (is_option "-o" "--once" arg).
    { apply IH; [lia|]. unfold valid_config, shown.
      cbn [refresh_rate show_cpu show_memory show_disk disk_path].
      repeat split; try lia; assumption. }
    destruct (is_option "-h" "--help" arg); discriminate.
Qed.

(** X14. Whatever the command line, a configuration that
    [parse_arguments] returns (it has not called [exit]) has a refresh rate
    between 1 and 2^31 - 1, a disk path of at most 255 characters, and shows
    either the three metrics or one at most: two of the options -c, -m and
    -d leave at most the metric of one of them, and -c with -m none. *)
Theorem parse_arguments_valid (argv : list string) (c : config_t) :
  parse_arguments argv = Config c -> valid_config c.
Proof.
  unfold parse_arguments.
  apply (parse_options_valid (List.length (tl argv)) (tl argv) default_config c);
    [lia|].
  unfold valid_config, shown. cbn. split; [lia|]. split; [lia|].
  left. reflexivity.
Qed.

Lemma parse_arguments_valid_witness :
  parse_arguments ["monitor"; "-c"; "--refresh"; " +4294967298"; "-m"]%string
  = Config (mk_config 2 false false false "/" true) /\
  valid_config (mk_config 2 false false false "/" true).
Proof.
  split; [reflexivity|].
  exact (parse_arguments_valid
           ["monitor"; "-c"; "--refresh"; " +4294967298"; "-m"]%string
           _ eq_refl).
Defined.

Lemma parse_options_app_fuel (n : nat) : forall done rest c c',
  (List.length done <= n)%nat ->
  parse_options done c = Config c' ->
  parse_options (done ++ rest) c = parse_options rest c'.
Proof.
  induction n as [|n IH]; intros done rest c c' Hlen.
  - destruct done; [|cbn in Hlen; lia]. cbn. intros H. injection H as <-.
    reflexivity.
  - destruct done as [|arg done];
      [cbn; intros H; injection H as <-; reflexivity|].
    cbn [List.length] in Hlen. cbn [parse_options app].
    destruct (is_option "-r" "--refresh" arg).
    { destruct done as [|value done']; [discriminate|]. cbn [app].
      destruct (atoi value <=? 0); [discriminate|].
      apply IH. cbn [List.length] in Hlen. lia. }
    destruct (is_option "-c" "--cpu" arg); [apply IH; lia|].
    destruct (is_option "-m" "--memory" arg); [apply IH; lia|].
    destruct (is_option "-d" "--disk" arg).
    { destruct done as [|p done']; [discriminate|]. cbn [app].
      apply IH. cbn [List.length] in Hlen. lia. }
    destruct (is_option "-o" "--once" arg); [apply IH; lia|].
    destruct (is_option "-h" "--help" arg); discriminate.
Qed.

(** X15. The options are taken from left to right: when the first
    arguments are accepted, leaving a configuration, the arguments that
    follow are read from that configuration exactly as if they stood alone.
    So an option given again replaces what the earlier one set, an argument
    that is not an option, after accepted ones, still ends the program with
    status 1, and a help option with status 0 whatever follows it. *)
Theorem parse_options_app
    (done rest : list string) (c c' : config_t) :
  parse_options done c = Config c' ->
  parse_options (done ++ rest) c = parse_options rest c' /\
  (forall bad, is_known bad = false ->
     parse_options (done ++ bad :: rest) c = Exit 1) /\
  parse_options (done ++ "-h"%string :: rest) c = Exit 0.
Proof.
  intros H.
  pose proof (fun r => parse_options_app_fuel (List.length done) done r c c'
                         (le_n _) H) as Happ.
  split; [apply Happ|]. split.
  - intros bad Hbad. rewrite Happ. cbn [parse_options].
    unfold is_known in Hbad.
    destruct (is_option "-r" "--refresh" bad); [discriminate Hbad|].
    destruct (is_option "-c" "--cpu" bad); [discriminate Hbad|].
    destruct (is_option "-m" "--memory" bad); [discriminate Hbad|].
    destruct (is_option "-d" "--disk" bad); [discriminate Hbad|].
    destruct (is_option "-o" "--once" bad); [discriminate Hbad|].
    destruct (is_option "-h" "--help" bad); [discriminate Hbad|].
    reflexivity.
  - rewrite Happ. reflexivity.
Qed.

Lemma parse_options_app_witness :
  parse_options ["-r"; "2"; "-c"]%string default_config
  = Config (mk_config 2 true false false "/" true) /\
  parse_options (["-r"; "2"; "-c"]%string ++ ["-r"; "5"; "-o"]%string)%list
                default_config
  = Config (mk_config 5 true false false "/" false).
Proof.
  split; [reflexivity|].
  rewrite (proj1 (parse_options_app ["-r"; "2"; "-c"]%string
                    ["-r"; "5"; "-o"]%string default_config _ eq_refl)).
  reflexivity.
Defined.

(** ** Unit converter: the buffer *)

Lemma uint_value_lower (d : Decimal.uint) : forall acc,
  0 <= acc -> acc * 10 ^ Z.of_nat (Decimal.nb_digits d) <= uint_value d acc.
Proof.
  induction d; intros acc Hacc; cbn [uint_value Decimal.nb_digits];
    try (change (10 ^ Z.of_nat 0) with 1; lia);
    rewrite Nat2Z.inj_succ, Z.pow_succ_r by lia;
    (etransitivity; [|apply IHd; lia]);
    pose proof (Z.pow_nonneg 10 (Z.of_nat (Decimal.nb_digits d)) ltac:(lia));
    nia.
Qed.

Lemma normalized_D0 (d : Decimal.uint) :
  Decimal.unorm (Decimal.D0 d) = Decimal.D0 d -> d = Decimal.Nil.
Proof.
  intros H. unfold Decimal.unorm in H. cbn [Decimal.nzhead] in H.
  pose proof (DecimalFacts.nb_digits_nzhead d) as Hn.
  destruct (Decimal.nzhead d) eqn:E;
    try (apply (f_equal Decimal.nb_digits) in H;
         cbn [Decimal.nb_digits] in H, Hn; lia).
  congruence.
Qed.

(** A number below [10^k] prints in at most [k] characters. *)
Lemma print_ull_length_dec (n : Z) (k : nat) :
  0 <= n < 10 ^ Z.of_nat k -> (1 <= k)%nat ->
  (String.length (print_ull n) <= k)%nat.
Proof.
  intros Hn Hk. rewrite print_ull_digits, string_of_uint_length.
  assert (Hv : uint_value (N.to_uint (Z.to_N n)) 0 = n).
  { rewrite <- of_uint_value.
    change (Pos.of_uint (N.to_uint (Z.to_N n)))
      with (N.of_uint (N.to_uint (Z.to_N n))).
    rewrite DecimalN.Unsigned.of_to. apply Z2N.id. lia. }
  assert (Hnorm : Decimal.unorm (N.to_uint (Z.to_N n)) = N.to_uint (Z.to_N n)).
  { rewrite <- (DecimalN.Unsigned.of_to (Z.to_N n)) at 2.
    symmetry. apply DecimalN.Unsigned.to_of. }
  pose proof (to_uint_not_nil (Z.to_N n)) as Hnil.
  destruct (N.to_uint (Z.to_N n)) as [|d|d|d|d|d|d|d|d|d|d];
    [contradiction
    | rewrite (normalized_D0 d Hnorm); cbn; lia
    | cbn [uint_value Decimal.nb_digits] in * ..].
  all: match goal with
       | Hv : uint_value ?u ?a = _ |- _ =>
           pose proof (uint_value_lower u a ltac:(lia)) as Hlow;
           assert (Hlt : 10 ^ Z.of_nat (Decimal.nb_digits u) < 10 ^ Z.of_nat k)
             by (pose proof (Z.pow_pos_nonneg 10 (Z.of_nat (Decimal.nb_digits u))
                               ltac:(lia) ltac:(lia)); nia)
       end.
  all: apply Z.pow_lt_mono_r_iff in Hlt; lia.
Qed.

Lemma div_nearest_even_bounds (n d : Z) :
  0 <= n -> 0 < d -> 0 <= div_nearest_even n d <= n + 1.
Proof.
  intros Hn Hd. unfold div_nearest_even.
  assert (Hq : 0 <= n / d <= n).
  { split; [apply Z.div_pos; lia|].
    apply Z.div_le_upper_bound; [lia | nia]. }
  destruct (2 * (n mod d) ?= d); [destruct (Z.even (n / d))| |]; lia.
Qed.

Lemma tenths_bounds (m : positive) (e : Z) :
  2 ^ 52 <= Zpos m < 2 ^ 53 -> e <= 12 ->
  0 <= tenths m e <= 10 * 2 ^ 65.
Proof.
  intros Hm He. unfold tenths. destruct (Z.leb_spec 0 e).
  - assert (H2 : 0 < 2 ^ e <= 2 ^ 12)
      by (split; [apply Z.pow_pos_nonneg; lia
                 | apply Z.pow_le_mono_r; lia]).
    change (2 ^ 65) with (2 ^ 53 * 2 ^ 12).
    change (2 ^ 12) with 4096 in *. change (2 ^ 53) with 9007199254740992 in *.
    nia.
  - pose proof (div_nearest_even_bounds (Zpos m * 10) (2 ^ (- e)) ltac:(lia)
                  ltac:(apply Z.pow_pos_nonneg; lia)) as Hd.
    change (2 ^ 65) with 36893488147419103232.
    change (2 ^ 53) with 9007199254740992 in Hm. lia.
Qed.

Lemma print_1f_length (lo : Z) (x : Double.t) :
  normal_in lo 12 x -> (String.length (print_1f x) <= 22)%nat.
Proof.
  destruct x as [| | |[|] m e]; try contradiction. intros [Hm [_ He]].
  cbn [print_1f print_sign]. cbv zeta.
  pose proof (tenths_bounds m e Hm He) as Ht.
  rewrite !append_length.
  assert (H1 : (String.length (print_ull (tenths m e / 10)) <= 20)%nat).
  { apply print_ull_length_dec; [|lia]. split; [apply Z.div_pos; lia|].
    apply Z.div_lt_upper_bound; [lia|].
    change (2 ^ 65) with 36893488147419103232 in Ht.
    change (10 ^ Z.of_nat 20) with 100000000000000000000. lia. }
  assert (H2 : (String.length (print_ull (tenths m e mod 10)) <= 1)%nat).
  { apply print_ull_length_dec; [|lia].
    change (10 ^ Z.of_nat 1) with 10. apply Z.mod_pos_bound. lia. }
  cbn [String.length]. lia.
Qed.

(** X16. The 32-byte buffers [print_system_info] gives to [format_bytes]
    are never short: for every [unsigned long long] the text has at most
    25 characters, so that [snprintf] cuts nothing off and any buffer of 26
    bytes or more receives the same text. *)
Theorem format_bytes_fits_buffer (n : Z) (buffer_size : nat) :
  u64 n -> (26 <= buffer_size)%nat ->
  (String.length (format_bytes n 32) <= 25)%nat /\
  format_bytes n buffer_size = format_bytes n 32.
Proof.
  intros Hn Hb.
  assert (Hgen : exists text, (String.length text <= 25)%nat /\
            forall b, format_bytes n b = snprintf b text).
  { unfold format_bytes.
    destruct (scale_loop_spec 4 (Double.of_Z n) 0 ltac:(lia))
      as (k & Hk & _ & Heq & _).
    rewrite Z.add_0_l in Heq. rewrite Heq.
    destruct k as [|k'].
    - eexists. split; [|intros b; reflexivity].
      rewrite append_length. cbn [nth Z.to_nat Z.of_nat units String.length String.append].
      assert (H : (String.length (print_ull n) <= 20)%nat).
      { apply print_ull_length_dec; [|lia]. unfold u64 in Hn.
        change (10 ^ Z.of_nat 20) with 100000000000000000000.
        change (2 ^ 64) with 18446744073709551616 in Hn. lia. }
      lia.
    - replace (Z.of_nat (S k') =? 0) with false
        by (symmetry; apply Z.eqb_neq; lia).
      rewrite Nat2Z.id.
      eexists. split; [|intros b; reflexivity].
      rewrite !append_length.
      assert (Hu : (String.length (nth (S k') units ""%string) <= 2)%nat)
        by (do 4 (destruct k' as [|k']; [cbn; lia|]); lia).
      assert (Hp : (String.length (print_1f (divided (S k') (Double.of_Z n)))
                    <= 22)%nat).
      { unfold u64 in Hn. destruct (Z.eq_dec n 0) as [->|Hne].
        - change (Double.of_Z 0) with Double.zero. rewrite divided_zero.
          cbn. lia.
        - apply (print_1f_length (-52 - 10 * Z.of_nat (S k'))).
          apply divided_normal; [apply of_Z_normal; lia | exact Hk]. }
      cbn [String.length]. lia. }
  destruct Hgen as (text & Hlen & Hfmt).
  rewrite !Hfmt. unfold snprintf.
  rewrite !substring_0_short by lia. split; [exact Hlen | reflexivity].
Qed.

Lemma format_bytes_fits_buffer_witness :
  u64 ULLONG_MAX /\
  format_bytes ULLONG_MAX 26 = format_bytes ULLONG_MAX 32.
Proof.
  assert (H : u64 ULLONG_MAX) by (unfold u64, ULLONG_MAX; lia).
  split; [exact H|].
  exact (proj2 (format_bytes_fits_buffer ULLONG_MAX 26 H (le_n _))).
Defined.

(** ** Rendering: the CPU details without elapsed ticks *)

Lemma share_zero_divisor (delta : Z) :
  u64 delta ->
  share delta Double.zero
  = if delta =? 0 then S754_nan else S754_infinity false.
Proof.
  intros Hd. unfold u64 in Hd. unfold share.
  destruct (Z.eqb_spec delta 0) as [->|Hne]; [reflexivity|].
  pose proof (of_Z_finite_pos delta ltac:(lia)) as Hf.
  destruct (Double.of_Z delta) as [| | |[|] m e]; try contradiction.
  reflexivity.
Qed.

Lemma details_divisor_total_diff (cpu : cpu_stats_t) :
  details_divisor cpu = Double.of_Z (total_diff cpu).
Proof.
  unfold details_divisor, total_diff, curr_total, prev_total. exact eq_refl.
Qed.

(** X17. [print_system_info] divides without the guard
    [calculate_cpu_usage] has: when no tick elapsed between the two samples
    ([total_diff] is 0, for which the usage shown is 0.0), the divisor of
    the three shares of the details line is 0.0, and each share is not a
    number when its own counter did not move, and plus infinity when it
    did. *)
Theorem cpu_details_without_ticks (cpu : cpu_stats_t) :
  total_diff cpu = 0 ->
  details_divisor cpu = Double.zero /\
  user_share cpu
  = (if ull_sub (user cpu) (prev_user cpu) =? 0 then S754_nan
     else S754_infinity false) /\
  system_share cpu
  = (if ull_sub (system cpu) (prev_system cpu) =? 0 then S754_nan
     else S754_infinity false) /\
  idle_share cpu
  = (if ull_sub (idle cpu) (prev_idle cpu) =? 0 then S754_nan
     else S754_infinity false).
Proof.
  intros H.
  assert (E : details_divisor cpu = Double.zero).
  { rewrite details_divisor_total_diff, H. exact eq_refl. }
  split; [exact E|].
  unfold user_share, system_share, idle_share. rewrite E.
  split; [|split]; apply share_zero_divisor; apply wrap64_range.
Qed.

Lemma cpu_details_without_ticks_witness :
  total_diff equal_totals_sample = 0 /\
  user_share equal_totals_sample = S754_infinity false /\
  system_share equal_totals_sample = S754_nan.
Proof.
  assert (H : total_diff equal_totals_sample = 0) by (vm_compute; reflexivity).
  split; [exact H|].
  destruct (cpu_details_without_ticks equal_totals_sample H)
    as (_ & Hu & Hs & _).
  rewrite Hu, Hs. split; vm_compute; reflexivity.
Defined.

(** ** The progress bar *)

Lemma pow2_split (a b : Z) : 0 <= a -> 0 <= b -> 2 ^ (a + b) = 2 ^ a * 2 ^ b.
Proof. intros. apply Z.pow_add_r; assumption. Qed.

Lemma Zdigits2_le (z A dA K : Z) :
  0 <= z -> z <= A * 2 ^ K -> 0 < A < 2 ^ dA -> 0 <= dA -> 0 <= K ->
  Zdigits2 z <= dA + K.
Proof.
  intros Hz Hle HA HdA HK.
  destruct (Z.eq_dec z 0) as [->|Hne]; [cbn; lia|].
  pose proof (pow2_pos K HK) as HP.
  apply (Zdigits2_bound z (dA + K)); [|lia].
  rewrite pow2_split by lia. nia.
Qed.

Lemma fexp_le (d b : Z) :
  d <= 53 - b -> 0 <= b <= 1074 -> fexp Double.prec Double.emax d <= - b.
Proof. unfold fexp, emin, Double.prec, Double.emax. lia. Qed.

(** One shift of the rounding keeps a mantissa below a bound that lies on
    the grid of the exponent reached. *)
Lemma shr_fexp_below (m e : Z) (l : location) (A b dA : Z) :
  0 <= m -> m <= A * 2 ^ (- e - b) -> e <= - b ->
  0 < A < 2 ^ dA -> 0 <= dA <= 53 -> 0 <= b <= 1074 ->
  let r := shr_fexp Double.prec Double.emax m e l in
  snd r <= - b /\
  0 <= shr_m (fst r) <= A * 2 ^ (- snd r - b) /\
  (m < A * 2 ^ (- e - b) -> shr_m (fst r) < A * 2 ^ (- snd r - b)).
Proof.
  intros Hm Hle He HA HdA Hb. cbv zeta. unfold shr_fexp.
  set (n := fexp Double.prec Double.emax (Zdigits2 m + e) - e).
  destruct (shr_spec (shr_record_of_loc m l) e n) as [Hs Es].
  { rewrite shr_record_of_loc_m. exact Hm. }
  rewrite Hs, Es, shr_record_of_loc_m.
  assert (Hd : Zdigits2 m <= dA + (- e - b))
    by (apply (Zdigits2_le m A); lia).
  assert (Hn : e + Z.max 0 n <= - b).
  { destruct (Z.max_spec 0 n) as [[_ ->]|[_ ->]]; [|lia].
    unfold n. replace (e + (fexp Double.prec Double.emax (Zdigits2 m + e) - e))
      with (fexp Double.prec Double.emax (Zdigits2 m + e)) by lia.
    apply fexp_le; lia. }
  set (k := Z.max 0 n) in *.
  assert (Hk : 0 <= k) by (unfold k; lia).
  replace (- e - b) with ((- (e + k) - b) + k) in Hle |- * by lia.
  rewrite pow2_split in Hle |- * by lia.
  pose proof (pow2_pos k Hk) as HPk.
  pose proof (pow2_pos (- (e + k) - b) ltac:(lia)) as HP.
  split; [exact Hn|]. split; [split|].
  - apply Z.div_pos; lia.
  - apply Z.div_le_upper_bound; [lia|]. lia.
  - intros Hlt. apply Z.div_lt_upper_bound; [lia|]. lia.
Qed.

(** A rounding whose exact value is below a bound of the grid gives a
    double that is at most the bound. *)
Lemma binary_round_aux_below (mx ex : Z) (lx : location) (A b dA : Z) :
  0 <= mx -> mx < A * 2 ^ (- ex - b) -> ex <= - b ->
  0 < A < 2 ^ dA -> 0 <= dA <= 53 -> 0 <= b <= 1074 ->
  below A b (binary_round_aux Double.prec Double.emax false mx ex lx).
Proof.
  intros Hm Hlt He HA HdA Hb. unfold binary_round_aux.
  destruct (shr_fexp_below mx ex lx A b dA Hm ltac:(lia) He HA HdA Hb)
    as (He1 & Hm1 & Hlt1).
  specialize (Hlt1 Hlt).
  destruct (shr_fexp Double.prec Double.emax mx ex lx) as [mrs' e1].
  cbn [fst snd] in He1, Hm1, Hlt1.
  pose proof (round_nearest_even_bounds (shr_m mrs') (loc_of_shr_record mrs'))
    as Hr.
  set (m2 := round_nearest_even (shr_m mrs') (loc_of_shr_record mrs')) in *.
  destruct (shr_fexp_below m2 e1 loc_Exact A b dA ltac:(lia) ltac:(lia)
              He1 HA HdA Hb) as (He2 & Hm2 & _).
  destruct (shr_fexp Double.prec Double.emax m2 e1 loc_Exact) as [mrs'' e2].
  cbn [fst snd] in He2, Hm2.
  destruct (shr_m mrs'') as [|p|p]; [exact I | | lia].
  replace (e2 <=? Double.emax - Double.prec) with true
    by (symmetry; apply Z.leb_le; unfold Double.emax, Double.prec; lia).
  split; [exact He2 | lia].
Qed.

Lemma valid_mantissa (s : bool) (m : positive) (e : Z) :
  valid_binary Double.prec Double.emax (S754_finite s m e) = true ->
  Zpos m < 2 ^ 53.
Proof.
  cbn [valid_binary]. unfold bounded, canonical_mantissa. intros H.
  apply andb_prop in H. destruct H as [H _]. apply Z.eqb_eq in H.
  unfold fexp, emin, Double.prec, Double.emax in H.
  pose proof (digits2_pos_upper m) as Hu.
  assert (Hd : Zpos (digits2_pos m) <= 53) by lia.
  apply (Z.lt_le_trans _ _ _ Hu). apply Z.pow_le_mono_r; lia.
Qed.

(** A percentage in range is a zero or at most 100. *)
Lemma in_percent_range_below (p : Double.t) :
  valid_binary Double.prec Double.emax p = true ->
  Double.in_percent_range p = true -> below 100 0 p.
Proof.
  intros Hv H. unfold Double.in_percent_range in H.
  apply andb_prop in H. destruct H as [H0 H100].
  destruct p as [s|s| |s m e];
    [exact I
    | destruct s; vm_compute in H0, H100; discriminate
    | vm_compute in H0; discriminate
    |].
  destruct s; [vm_compute in H0; discriminate|].
  pose proof (valid_mantissa false m e Hv) as Hm.
  change (Double.of_Z 100) with (S754_finite false 7036874417766400 (-46))
    in H100.
  unfold Double.le, SFleb, SFcompare in H100. cbn [below].
  destruct (Z.compare_spec e (-46)) as [->|Hlt|Hgt]; [| |discriminate].
  - change (PosDef.Pos.compare_cont Eq) with Pos.compare in H100.
    destruct (Pos.compare_spec m 7036874417766400) as [Hc|Hc|Hc];
      [| |discriminate H100].
    + split; [apply Z.leb_le; reflexivity|].
      rewrite Hc. apply Z.leb_le. vm_compute. reflexivity.
    + apply Pos2Z.pos_lt_pos in Hc.
      split; [apply Z.leb_le; reflexivity|].
      change (2 ^ (- -46 - 0)) with 70368744177664.
      apply Z.lt_le_incl. exact Hc.
  - split; [lia|].
    assert (Hp : 2 ^ 47 <= 2 ^ (- e - 0)) by (apply Z.pow_le_mono_r; lia).
    change (2 ^ 47) with 140737488355328 in Hp.
    change (2 ^ 53) with 9007199254740992 in Hm. lia.
Qed.

Lemma mul_50_below (p : Double.t) :
  below 100 0 p -> below 5001 0 (Double.mul p (Double.of_Z PROGRESS_BAR_WIDTH)).
Proof.
  change (Double.of_Z PROGRESS_BAR_WIDTH)
    with (S754_finite false 7036874417766400 (-47)).
  destruct p as [s|s| |[|] m e]; try contradiction; [intros _; exact I|].
  intros [He Hm]. unfold Double.mul, SFmul. cbn [xorb].
  apply (binary_round_aux_below _ _ _ 5001 0 13); try lia.
  replace (- (e + -47) - 0) with ((- e - 0) + 47) by lia.
  rewrite pow2_split by lia.
  pose proof (pow2_pos (- e - 0) ltac:(lia)) as HP.
  rewrite Pos2Z.inj_mul. change (2 ^ 47) with 140737488355328.
  change (2 ^ 13) with 8192. nia.
Qed.

Lemma div_100_below (y : Double.t) :
  below 5001 0 y -> below 101 1 (Double.div y (Double.of_Z 100)).
Proof.
  change (Double.of_Z 100) with (S754_finite false 7036874417766400 (-46)).
  destruct y as [s|s| |[|] m e]; try contradiction; [intros _; exact I|].
  intros [He Hm]. unfold Double.div, SFdiv, SFdiv_core_binary. cbn [xorb].
  change (Zdigits2 7036874417766400) with 53.
  assert (Hd : Zdigits2 (Zpos m) <= 13 + (- e - 0))
    by (apply (Zdigits2_le (Zpos m) 5001); try lia;
        change (2 ^ 13) with 8192; lia).
  set (e' := Z.min (fexp Double.prec Double.emax
                      (Zdigits2 (Zpos m) + e - (53 + -46))) (e - -46)).
  assert (He' : e' <= -47).
  { unfold e'. etransitivity; [apply Z.le_min_l|].
    apply (fexp_le _ 47); lia. }
  assert (Hs : 0 <= e - -46 - e') by (unfold e'; lia).
  set (s := e - -46 - e') in *.
  assert (Em : match s with
               | 0 => Zpos m
               | Zpos _ => Z.shiftl (Zpos m) s
               | Zneg _ => 0
               end = Zpos m * 2 ^ s).
  { destruct s as [|q|q]; [rewrite Z.pow_0_r; lia | | lia].
    apply Z.shiftl_mul_pow2. lia. }
  rewrite Em, div_eucl_div_mod.
  pose proof (pow2_pos s Hs) as HPs.
  pose proof (pow2_pos (- e - 0) ltac:(lia)) as HPe.
  pose proof (pow2_pos (- e' - 1) ltac:(lia)) as HP.
  assert (Epow : 2 ^ (- e - 0) * 2 ^ s = 140737488355328 * 2 ^ (- e' - 1)).
  { rewrite <- pow2_split by lia.
    replace (- e - 0 + s) with (47 + (- e' - 1)) by (unfold s; lia).
    rewrite pow2_split by lia. reflexivity. }
  apply (binary_round_aux_below _ _ _ 101 1 7); try lia.
  - apply Z.div_pos; lia.
  - apply Z.div_lt_upper_bound; [lia|].
    assert (Zpos m * 2 ^ s <= 5001 * (2 ^ (- e - 0) * 2 ^ s)) by nia.
    rewrite Epow in H. nia.
Qed.

Lemma double_to_int_below (x : Double.t) :
  below 101 1 x ->
  exists filled, double_to_int x = Some filled /\ 0 <= filled <= 50.
Proof.
  destruct x as [s|s| |[|] m e]; try contradiction.
  - intros _. exists 0. split; [reflexivity | lia].
  - intros [He Hm]. unfold double_to_int, truncate. cbv zeta.
    replace (0 <=? e) with false by (symmetry; apply Z.leb_gt; lia).
    pose proof (pow2_pos (- e - 1) ltac:(lia)) as HP.
    assert (E2 : 2 ^ (- e) = 2 * 2 ^ (- e - 1)).
    { replace (- e) with (1 + (- e - 1)) at 1 by lia.
      rewrite pow2_split by lia. reflexivity. }
    assert (Hq : 0 <= Zpos m / 2 ^ (- e) <= 50).
    { split; [apply Z.div_pos; lia|].
      apply Z.lt_succ_r. apply Z.div_lt_upper_bound; lia. }
    exists (Zpos m / 2 ^ (- e)). split; [|exact Hq].
    replace (in_int (Zpos m / 2 ^ (- e))) with true; [reflexivity|].
    symmetry. unfold in_int, INT_MIN, INT_MAX.
    apply andb_true_intro; split; apply Z.leb_le; lia.
Qed.

(** X18. The progress bar has always its 50 cells: for every valid double
    in [0, 100] (a zero of either sign included) the number of filled cells
    [print_progress_bar] computes, with two roundings and a cast, is an
    [int] between 0 and 50, and the empty cells are the rest up to 50; the
    cast and the subtraction are defined. *)
Theorem print_progress_bar_cells (percentage : Double.t) :
  valid_binary Double.prec Double.emax percentage = true ->
  Double.in_percent_range percentage = true ->
  exists filled,
    print_progress_bar percentage
    = Some (filled, PROGRESS_BAR_WIDTH - filled) /\
    0 <= filled <= PROGRESS_BAR_WIDTH.
Proof.
  intros Hv Hr.
  pose proof (div_100_below _ (mul_50_below _
                (in_percent_range_below _ Hv Hr))) as Hb.
  destruct (double_to_int_below _ Hb) as (filled & E & Hf).
  exists filled. unfold print_progress_bar. rewrite E. cbv zeta.
  unfold PROGRESS_BAR_WIDTH.
  replace (in_int (50 - filled)) with true
    by (symmetry; unfold in_int, INT_MIN, INT_MAX;
        apply andb_true_intro; split; apply Z.leb_le; lia).
  rewrite !Z.max_r by lia. split; [reflexivity | lia].
Qed.

Lemma print_progress_bar_cells_witness :
  print_progress_bar (Double.of_Z 100) = Some (50, 0) /\
  exists filled,
    print_progress_bar (Double.of_Z 33)
    = Some (filled, PROGRESS_BAR_WIDTH - filled) /\
    0 <= filled <= PROGRESS_BAR_WIDTH.
Proof.
  split; [vm_compute; reflexivity|].
  apply (print_progress_bar_cells (Double.of_Z 33)); vm_compute; reflexivity.
Defined.

(** ** The percentages the bars are given *)

Lemma div_normal (x y : Double.t) :
  normal_in (-52) 12 x -> normal_in (-52) 12 y ->
  normal_in (-117) 13 (Double.div x y).
Proof.
  destruct x as [| | |[|] m1 e1]; try contradiction.
  destruct y as [| | |[|] m2 e2]; try contradiction.
  intros [Hm1 He1] [Hm2 He2].
  unfold Double.div, SFdiv, SFdiv_core_binary.
  rewrite (Zdigits2_of_bounds (Zpos m1) 53 Hm1 ltac:(lia)).
  rewrite (Zdigits2_of_bounds (Zpos m2) 53 Hm2 ltac:(lia)).
  replace (Z.min (fexp Double.prec Double.emax (53 + e1 - (53 + e2))) (e1 - e2))
    with (e1 - e2 - 53)
    by (unfold fexp, emin, Double.prec, Double.emax; lia).
  replace (e1 - e2 - (e1 - e2 - 53)) with 53 by lia.
  rewrite div_eucl_div_mod.
  rewrite Z.shiftl_mul_pow2 by lia.
  change (2 ^ 52) with 4503599627370496 in *.
  change (2 ^ 53) with 9007199254740992 in *.
  set (q := Zpos m1 * 9007199254740992 / Zpos m2).
  assert (Hq : 4503599627370496 <= q < 18014398509481984).
  { unfold q. split.
    - apply Z.div_le_lower_bound; [lia | nia].
    - apply Z.div_lt_upper_bound; [lia | nia]. }
  clearbody q. cbn [xorb].
  destruct (Z.lt_ge_cases q 9007199254740992) as [Hlt|Hge].
  - destruct (binary_round_aux_normal false q (e1 - e2 - 53) 53
                (new_location (Zpos m2) (Zpos m1 * 9007199254740992 mod Zpos m2)))
      as (m' & e' & E & Hm' & He'); try lia.
    rewrite E. split; [exact Hm' | lia].
  - destruct (binary_round_aux_normal false q (e1 - e2 - 53) 54
                (new_location (Zpos m2) (Zpos m1 * 9007199254740992 mod Zpos m2)))
      as (m' & e' & E & Hm' & He'); try lia.
    rewrite E. split; [exact Hm' | lia].
Qed.

Lemma mul_100_normal (lo hi : Z) (x : Double.t) :
  normal_in lo hi x -> -1000 <= lo -> hi <= 900 ->
  normal_in (lo + 6) (hi + 8) (Double.mul x (Double.of_Z 100)).
Proof.
  destruct x as [| | |[|] m e]; try contradiction.
  intros [Hm He] Hlo Hhi.
  change (Double.of_Z 100) with (S754_finite false 7036874417766400 (-46)).
  unfold Double.mul, SFmul. cbn [xorb]. rewrite Pos2Z.inj_mul.
  change (2 ^ 52) with 4503599627370496 in *.
  change (2 ^ 53) with 9007199254740992 in *.
  set (q := Zpos m * 7036874417766400).
  assert (Hq : 2 ^ 104 <= q < 2 ^ 106).
  { change (2 ^ 104) with (4503599627370496 * 4503599627370496).
    change (2 ^ 106) with (9007199254740992 * 9007199254740992).
    unfold q. nia. }
  clearbody q.
  destruct (Z.lt_ge_cases q (2 ^ 105)) as [Hlt|Hge].
  - destruct (binary_round_aux_normal false q (e + -46) 105 loc_Exact)
      as (m' & e' & E & Hm' & He'); try lia.
    rewrite E. split; [exact Hm' | lia].
  - destruct (binary_round_aux_normal false q (e + -46) 106 loc_Exact)
      as (m' & e' & E & Hm' & He'); try lia.
    rewrite E. split; [exact Hm' | lia].
Qed.

Lemma normal_valid (lo hi : Z) (x : Double.t) :
  normal_in lo hi x -> -1074 <= lo -> hi <= 971 ->
  valid_binary Double.prec Double.emax x = true.
Proof.
  destruct x as [| | |[|] m e]; try contradiction.
  intros [Hm He] Hlo Hhi. cbn [valid_binary]. unfold bounded, canonical_mantissa.
  pose proof (Zdigits2_of_bounds (Zpos m) 53 Hm ltac:(lia)) as Hd.
  cbn [Zdigits2] in Hd. rewrite Hd.
  apply andb_true_intro. split; [apply Z.eqb_eq | apply Z.leb_le];
    unfold fexp, emin, Double.prec, Double.emax; lia.
Qed.

Lemma clamp_percent_valid (p : Double.t) :
  valid_binary Double.prec Double.emax p = true ->
  valid_binary Double.prec Double.emax (clamp_percent p) = true.
Proof.
  intros H. unfold clamp_percent. cbv zeta.
  destruct (Double.lt p Double.zero);
    match goal with
    | |- context [Double.gt ?a ?b] => destruct (Double.gt a b)
    end; try exact H; vm_compute; reflexivity.
Qed.

(** [(double)a / (double)b * 100.0], clamped, can be given to a bar. *)
Lemma percent_of_ratio_displayable (a b : Z) :
  u64 a -> 0 < b < 2 ^ 64 ->
  displayable
    (clamp_percent
       (Double.mul (Double.div (Double.of_Z a) (Double.of_Z b))
                   (Double.of_Z 100))).
Proof.
  intros Ha Hb. unfold u64 in Ha. split.
  - apply clamp_percent_valid.
    destruct (Z.eq_dec a 0) as [->|Hne].
    + change (Double.of_Z 0) with Double.zero.
      rewrite (div_zero_finite_pos _ (of_Z_finite_pos b Hb)).
      vm_compute. reflexivity.
    + apply (normal_valid (-117 + 6) (13 + 8)); try lia.
      apply mul_100_normal; try lia.
      apply div_normal; apply of_Z_normal; lia.
  - apply clamp_percent_range. apply percent_of_ratio_signed; lia.
Qed.

Lemma zero_displayable : displayable (clamp_percent Double.zero).
Proof. split; vm_compute; reflexivity. Qed.

Lemma guarded_ratio_displayable (a b : Z) :
  u64 a -> u64 b ->
  displayable
    (clamp_percent
       (if b >? 0
        then Double.mul (Double.div (Double.of_Z a) (Double.of_Z b))
                        (Double.of_Z 100)
        else Double.zero)).
Proof.
  intros Ha Hb. destruct (Z.gtb_spec b 0).
  - apply percent_of_ratio_displayable; [exact Ha | unfold u64 in Hb; lia].
  - exact zero_displayable.
Qed.

Lemma calculate_cpu_usage_displayable (stats : cpu_stats_t) :
  exists p,
    calculate_cpu_usage stats = Done (set_usage_percent stats p) /\
    displayable p.
Proof.
  unfold calculate_cpu_usage. cbv zeta.
  destruct (total_diff stats =? 0) eqn:E.
  - eexists. split; [reflexivity | exact zero_displayable].
  - apply Z.eqb_neq in E.
    assert (Ht : 0 <= total_diff stats < 2 ^ 64) by apply wrap64_range.
    unfold checked_div.
    rewrite (finite_pos_not_zero _ (of_Z_finite_pos (total_diff stats) ltac:(lia))).
    cbn [bind]. eexists. split; [reflexivity|].
    apply percent_of_ratio_displayable; [apply wrap64_range | lia].
Qed.

Lemma read_memory_stats_displayable (src : source) (stats : memory_stats_t) :
  displayable (Mem.usage_percent stats) ->
  displayable (Mem.usage_percent (snd (read_memory_stats src stats))).
Proof.
  intros H. destruct src as [|text]; cbn [read_memory_stats snd]; [exact H|].
  destruct (scan_meminfo_wf text stats) as (Ht & _).
  unfold derive_memory.
  destruct (Mem.available (scan_meminfo text stats) >? 0);
    cbn [Mem.usage_percent];
    (apply guarded_ratio_displayable; [apply wrap64_range | exact Ht]).
Qed.

Lemma read_disk_stats_displayable (vfs : option statvfs_t) (path : string)
    (stats : disk_stats_t) :
  displayable (Disk.usage_percent stats) ->
  displayable (Disk.usage_percent (snd (read_disk_stats vfs path stats))).
Proof.
  intros H. destruct vfs as [v|]; cbn [read_disk_stats snd]; [|exact H].
  cbn [Disk.usage_percent]. apply guarded_ratio_displayable; apply wrap64_range.
Qed.

(** X19. From the samplers to the bar: when the three percentages of the
    monitor are valid doubles in [0, 100], as they are at the start, a pass
    leaves them so, and every progress bar it displays is drawn with 50
    cells, the filled ones between 0 and 50. *)
Theorem loop_body_bars
    (config : config_t) (w : world) (m : monitor) :
  monitor_displayable m ->
  exists m' events,
    loop_body config w m = Done (m', events) /\
    monitor_displayable m' /\
    Forall (fun percentage =>
              exists filled,
                print_progress_bar percentage
                = Some (filled, PROGRESS_BAR_WIDTH - filled) /\
                0 <= filled <= PROGRESS_BAR_WIDTH)
           (bars_displayed events).
Proof.
  intros (Hc & Hm & Hd).
  assert (Hbar : forall p, displayable p ->
            exists filled,
              print_progress_bar p = Some (filled, PROGRESS_BAR_WIDTH - filled) /\
              0 <= filled <= PROGRESS_BAR_WIDTH).
  { intros p Hp. pose proof Hp as [Hv Hr].
    pose proof (div_100_below _ (mul_50_below _
                  (in_percent_range_below _ Hv Hr))) as Hb.
    destruct (double_to_int_below _ Hb) as (filled & E & Hf).
    exists filled. unfold print_progress_bar. rewrite E. cbv zeta.
    unfold PROGRESS_BAR_WIDTH.
    replace (in_int (50 - filled)) with true
      by (symmetry; unfold in_int, INT_MIN, INT_MAX;
          apply andb_true_intro; split; apply Z.leb_le; lia).
    rewrite !Z.max_r by lia. split; [reflexivity | lia]. }
  unfold loop_body, monitor_displayable.
  destruct config as [rate sc sm sd path cont].
  cbn [show_cpu show_memory show_disk disk_path continuous refresh_rate].
  pose proof (read_cpu_stats_usage (proc_stat w) (cpu_stats m)) as Hc1.
  pose proof (read_memory_stats_displayable (proc_meminfo w) _ Hm) as Hm1.
  pose proof (read_disk_stats_displayable (statvfs w path) path _ Hd) as Hd1.
  destruct (read_cpu_stats (proc_stat w) (cpu_stats m)) as [rc1 c1].
  destruct (read_memory_stats (proc_meminfo w) (memory_stats m)) as [rc2 m2].
  destruct (read_disk_stats (statvfs w path) path (disk_stats m)) as [rc3 d3].
  cbn [fst snd] in *.
  destruct (calculate_cpu_usage_displayable c1) as (p & E & Hp).
  pose proof Hc as Hc2. rewrite <- Hc1 in Hc2.
  destruct sc, sm, sd, (failed rc1), (failed rc2), (failed rc3), cont;
    cbn [andb orb negb]; try rewrite E; cbn [bind];
    (eexists; eexists; split; [reflexivity|]);
    cbn [cpu_stats memory_stats disk_stats usage_percent set_usage_percent];
    (split; [repeat split; first [apply Hp | apply Hc | apply Hc2
                                 | apply Hm | apply Hm1 | apply Hd | apply Hd1]|]);
    cbn [bars_displayed bars flat_map app print_system_info
         show_cpu show_memory show_disk usage_percent set_usage_percent];
    repeat (apply Forall_cons; [apply Hbar; assumption|]);
    apply Forall_nil.
Qed.

Lemma loop_body_bars_witness :
  monitor_displayable fresh_monitor /\
  exists m' events,
    loop_body all_metrics all_up fresh_monitor = Done (m', events) /\
    monitor_displayable m' /\
    Forall (fun percentage =>
              exists filled,
                print_progress_bar percentage
                = Some (filled, PROGRESS_BAR_WIDTH - filled) /\
                0 <= filled <= PROGRESS_BAR_WIDTH)
           (bars_displayed events).
Proof.
  assert (H : monitor_displayable fresh_monitor)
    by (repeat split; vm_compute; reflexivity).
  split; [exact H|].
  exact (loop_body_bars all_metrics all_up fresh_monitor H).
Defined.

(** ** Command line: the refresh rate *)

Lemma append_nil_r (s : string) : (s ++ "")%string = s.
Proof. induction s as [|c s IH]; cbn; [reflexivity | now rewrite IH]. Qed.

Lemma strtol_print_ull (n : Z) :
  0 <= n <= LONG_MAX -> strtol (print_ull n) = n.
Proof.
  intros Hn. unfold strtol.
  pose proof (scan_digits_print_ull n "" ltac:(lia) eq_refl) as Hs.
  rewrite append_nil_r in Hs.
  rewrite print_ull_digits in *.
  pose proof (to_uint_not_nil (Z.to_N n)) as Hnil.
  destruct (N.to_uint (Z.to_N n)) as [|d|d|d|d|d|d|d|d|d|d];
    [contradiction|..];
    cbn [NilEmpty.string_of_uint skip_space] in *;
    match goal with
    | |- context [isspace ?c] => change (isspace c) with false
    end;
    cbv beta iota zeta; rewrite Hs; cbn [fst];
    unfold LONG_MIN, LONG_MAX in *;
    (replace (n <? - 2 ^ 63) with false by (symmetry; apply Z.ltb_ge; lia));
    (replace (2 ^ 63 - 1 <? n) with false by (symmetry; apply Z.ltb_ge; lia));
    reflexivity.
Qed.

(** X20. The refresh rate on the command line: for a decimal number [n]
    that fits a [long], [atoi] gives the low 32 bits of [n] taken as a
    signed [int], and [-r n] is accepted exactly when that is above 0. So
    every [n] from 1 to 2^31 - 1 is taken as it is, and a larger [n] is not
    refused for its size: it is refused or taken as another rate, as its low
    32 bits decide. *)
Theorem parse_arguments_refresh_rate (prog : string) (n : Z) :
  0 <= n <= LONG_MAX ->
  atoi (print_ull n) = long_to_int n /\
  parse_arguments [prog; "-r"%string; print_ull n]
  = (if long_to_int n <=? 0 then Exit 1
     else Config (mk_config (long_to_int n) true true true "/" true)) /\
  (1 <= n <= INT_MAX ->
   parse_arguments [prog; "-r"%string; print_ull n]
   = Config (mk_config n true true true "/" true)).
Proof.
  intros Hn.
  assert (Ea : atoi (print_ull n) = long_to_int n)
    by (unfold atoi; now rewrite strtol_print_ull).
  assert (Ep : parse_arguments [prog; "-r"%string; print_ull n]
               = (if long_to_int n <=? 0 then Exit 1
                  else Config (mk_config (long_to_int n) true true true "/" true))).
  { unfold parse_arguments. cbn [tl parse_options].
    change (is_option "-r" "--refresh" "-r") with true. cbv beta iota zeta.
    rewrite Ea. destruct (long_to_int n <=? 0); reflexivity. }
  split; [exact Ea|]. split; [exact Ep|].
  intros Hr. rewrite Ep.
  assert (El : long_to_int n = n).
  { unfold long_to_int, INT_MAX in *. rewrite Z.mod_small; lia. }
  rewrite El.
  replace (n <=? 0) with false by (symmetry; apply Z.leb_gt; lia).
  reflexivity.
Qed.

Lemma parse_arguments_refresh_rate_witness :
  parse_arguments ["monitor"; "-r"; print_ull 4294967301]%string
  = Config (mk_config 5 true true true "/" true) /\
  parse_arguments ["monitor"; "-r"; print_ull 30]%string
  = Config (mk_config 30 true true true "/" true).
Proof.
  split.
  - rewrite (proj1 (proj2 (parse_arguments_refresh_rate "monitor" 4294967301
                             ltac:(unfold LONG_MAX; lia)))).
    reflexivity.
  - exact (proj2 (proj2 (parse_arguments_refresh_rate "monitor" 30
                           ltac:(unfold LONG_MAX; lia)))
                 ltac:(unfold INT_MAX; lia)).
Defined.
